(** * OpenGlider: airfoil profiles and rib placement

    A shallow embedding of [Profile/_Classes.py] (BasicProfile2D, Profile2D),
    of [openglider/glider/rib.py] (Rib, MiniRib, rotation_rib), of
    [openglider/glider/cell/elements.py] (DiagonalRib, TensionStrap, Panel)
    and of [cross] of [openglider/__init__.py], with the properties of the
    specification, and further properties of the code, stated and proved
    over it.

    Python floats are modelled as real numbers: arithmetic is exact, and a
    NaN or an infinity has no value in the model (see [NonFinite]).  Python
    objects are records; an attribute that has not been assigned yet is
    [None], and reading it raises [AttributeError].  Methods that mutate
    [self] are computations in a state-and-exception monad, so that the
    state an exception leaves behind is part of the model. *)

From Equations Require Import Equations.
From Stdlib Require Import String Reals Lra Lia List Bool Arith ZArith RNsatz.
Import ListNotations.
Open Scope R_scope.

(* ================================================================== *)
(** * Python values, exceptions and the method monad                   *)
(* ================================================================== *)

(** The exceptions the embedded code can raise.  [NonFinite] is not a Python
    exception: numpy goes on with [nan] or [inf] (and a warning) where the
    real-number model has no value, and the model stops there.  The object
    that a method returns together with [NonFinite] is the object at the
    point where the model stops; it is not the Python object after the
    call, which holds values that are not finite, and nothing is stated
    about it. *)
Inductive exn : Type :=
| IndexError (index : nat)
| ValueError (msg : string)
| AttributeError (attr : string)
| TypeError (msg : string)
| ZeroDivisionError
| NonFinite.

Inductive result (A : Type) : Type :=
| Ok (a : A)
| Raise (e : exn).
Arguments Ok {A} a.
Arguments Raise {A} e.

Definition rbind {A B : Type} (r : result A) (f : A -> result B) : result B :=
  match r with
  | Ok a => f a
  | Raise e => Raise e
  end.

Fixpoint mapM {A B : Type} (f : A -> result B) (l : list A) : result (list B) :=
  match l with
  | [] => Ok []
  | a :: l' => rbind (f a) (fun b => rbind (mapM f l') (fun bs => Ok (b :: bs)))
  end.

(** A method body: it reads and updates the object [S] and returns a value
    or raises; the object is returned in both cases. *)
Definition M (S A : Type) : Type := S -> S * result A.

Definition ret {S A : Type} (a : A) : M S A := fun s => (s, Ok a).

Definition bind {S A B : Type} (m : M S A) (f : A -> M S B) : M S B :=
  fun s => match m s with
           | (s', Ok a) => f a s'
           | (s', Raise e) => (s', Raise e)
           end.

Definition lift {S A : Type} (r : result A) : M S A := fun s => (s, r).
Definition gets {S A : Type} (f : S -> A) : M S A := fun s => (s, Ok (f s)).
Definition modify {S : Type} (f : S -> S) : M S unit := fun s => (f s, Ok tt).

Declare Scope method_scope.
Delimit Scope method_scope with method.
Notation "x <- m ;; k" := (bind m (fun x => k))
  (at level 61, m at next level, right associativity) : method_scope.
Notation "m ;; k" := (bind m (fun _ => k))
  (at level 61, right associativity) : method_scope.

Declare Scope result_scope.
Delimit Scope result_scope with result.
Notation "x <- r ;; k" := (rbind r (fun x => k))
  (at level 61, r at next level, right associativity) : result_scope.

(** [exec m s]: run a method on an object owned by the caller; an exception
    propagates and the object is dropped. *)
Definition exec {S A : Type} (m : M S A) (s : S) : result S :=
  match m s with
  | (s', Ok _) => Ok s'
  | (_, Raise e) => Raise e
  end.

Definition eval {S A : Type} (m : M S A) (s : S) : result A := snd (m s).

(** Reading attribute [name] of an object. *)
Definition getattr {A : Type} (name : string) (o : option A) : result A :=
  match o with
  | Some a => Ok a
  | None => Raise (AttributeError name)
  end.

(** [l[i]] for [0 <= i]. *)
Definition getitem {A : Type} (l : list A) (i : nat) : result A :=
  match nth_error l i with
  | Some a => Ok a
  | None => Raise (IndexError i)
  end.

Definition inspect {A : Type} (a : A) : {b : A | a = b} := exist _ a eq_refl.

(** Comparisons of floats, as booleans. *)
Definition Rltb (a b : R) : bool := if Rlt_dec a b then true else false.
Definition Rleb (a b : R) : bool := if Rle_dec a b then true else false.
Definition Reqb (a b : R) : bool := if Req_dec_T a b then true else false.

(** Python's [min(a, b)] and [max(a, b)]: the first argument wins a tie. *)
Definition py_min (a b : R) : R := if Rltb b a then b else a.
Definition py_max (a b : R) : R := if Rltb a b then b else a.

(** [max(l)] over a sequence. *)
Definition max_of (l : list R) : result R :=
  match l with
  | [] => Raise (ValueError "max() arg is an empty sequence")
  | a :: l' => Ok (fold_left py_max l' a)
  end.

(** Python 2's [cmp]. *)
Definition cmp (a b : R) : R :=
  if Rltb a b then -1 else if Rltb b a then 1 else 0.

(** [range(n)]. *)
Definition range (n : Z) : list Z := map Z.of_nat (seq 0 (Z.to_nat n)).

(** Float division by a Python int. *)
Definition float_div (a : R) (i : Z) : result R :=
  if Z.eqb i 0 then Raise ZeroDivisionError else Ok (a / IZR i).

(** [numpy.array_equal] on one-dimensional arrays. *)
Fixpoint array_equal (a b : list R) : bool :=
  match a, b with
  | [], [] => true
  | x :: a', y :: b' => Reqb x y && array_equal a' b'
  | _, _ => false
  end.

(* ================================================================== *)
(** * Points of the plane                                              *)
(* ================================================================== *)

Definition point : Type := (R * R)%type.
Definition px (p : point) : R := fst p.
Definition py (p : point) : R := snd p.

Definition matrix2 : Type := (point * point)%type.

(** numpy's elementwise operations on arrays of shape (2,) and (2,2). *)
Definition psub (a b : point) : point := (px a - px b, py a - py b).
Definition padd (a b : point) : point := (px a + px b, py a + py b).
Definition pmul (a b : point) : point := (px a * px b, py a * py b).
Definition pdiv (a : point) (d : R) : point := (px a / d, py a / d).
Definition pdot (a b : point) : R := px a * px b + py a * py b.
Definition mdiv (m : matrix2) (d : R) : matrix2 := (pdiv (fst m) d, pdiv (snd m) d).
Definition mdot (m : matrix2) (v : point) : point := (pdot (fst m) v, pdot (snd m) v).

(** [a + b] on two arrays of points of the same length.  (numpy would also
    broadcast a one-row operand; the operands of [__add__] have the same
    length, see [add_same_length].) *)
Fixpoint array_add (a b : list point) : result (list point) :=
  match a, b with
  | [], [] => Ok []
  | p :: a', q :: b' => rbind (array_add a' b') (fun r => Ok (padd p q :: r))
  | _, _ => Raise (ValueError "operands could not be broadcast together")
  end.

(** [numpy.array_equal] on two arrays of points. *)
Fixpoint array_equal_points (a b : list point) : bool :=
  match a, b with
  | [], [] => true
  | p :: a', q :: b' =>
      Reqb (px p) (px q) && Reqb (py p) (py q) && array_equal_points a' b'
  | _, _ => false
  end.

(** [a[:, 1]] on the array built from a list of pairs; the array of an empty
    list has one dimension only. *)
Definition column1 {A B : Type} (a : list (A * B)) : result (list B) :=
  match a with
  | [] => Raise (IndexError 1)
  | _ => Ok (map snd a)
  end.

Module Vector.

(** Modelled from the spec: [Vector.norm], of the repository's [Vector]
    module, which is not among the sources; the spec calls it the Euclidean
    distance. *)
Definition norm (v : point) : R := sqrt (px v * px v + py v * py v).

End Vector.

(* ================================================================== *)
(** * Profile/_Classes.py: BasicProfile2D                               *)
(* ================================================================== *)

Module BasicProfile2D.

(** The attributes [__init__] assigns, in the order it assigns them. *)
Record t : Type := mk {
  data : option (list point);
  noseindex : option nat
}.

(** The object before [__init__] has run. *)
Definition blank : t := {| data := None; noseindex := None |}.

Definition set_data (d : list point) : M t unit :=
  modify (fun self => {| data := Some d; noseindex := noseindex self |}).

Definition set_noseindex (i : nat) : M t unit :=
  modify (fun self => {| data := data self; noseindex := Some i |}).

Definition get_data : M t (list point) :=
  fun self => (self, getattr "data" (data self)).

Definition get_noseindex : M t nat :=
  fun self => (self, getattr "noseindex" (noseindex self)).

(** The loop of [_SetProfile], entered with the counter at [i]:
<<
    while profile[i+1][0] < profile[i][0] and i < len(profile):
        i += 1
>>
    [profile[i+1]] is read before anything is compared.  The loop ends:
    a read that succeeds leaves [len(profile) - i] smaller for the next
    round. *)
Equations? nose_scan (profile : list point) (i : nat) : result nat
  by wf (length profile - i)%nat lt :=
nose_scan profile i with inspect (nth_error profile (i + 1)) := {
  | exist _ None _ => Raise (IndexError (i + 1));
  | exist _ (Some q) Hq with getitem profile i := {
      | Raise e => Raise e;
      | Ok p => if Rltb (px q) (px p) && (i <? length profile)%nat
                then nose_scan profile (i + 1)
                else Ok i } }.
Proof.
  assert (i + 1 < length profile)%nat by (apply nth_error_Some; congruence).
  lia.
Qed.

(** [_SetProfile]: [data] is assigned before the scan, [noseindex] after. *)
Definition _SetProfile (profile : list point) : M t unit :=
  (set_data profile ;;
   i <- lift (nose_scan profile 0) ;;
   set_noseindex i)%method.

Definition _GetProfile : M t (list point) := get_data.

(** [BasicProfile2D(profile)]. *)
Definition __init__ (profile : list point) : M t unit := _SetProfile profile.

Definition new (profile : list point) : result t := exec (__init__ profile) blank.

(** The loop of [Normalize]: the largest distance from [p1] met so far and
    the point that has it; [None] is the integer [0] that [nose] starts
    with. *)
Definition farthest (p1 : point) (pts : list point) : R * option point :=
  fold_left
    (fun (acc : R * option point) (i : point) =>
       let temp := Vector.norm (psub i p1) in
       if Rltb (fst acc) temp then (temp, Some i) else acc)
    pts (0, None).

(** [Normalize].  When no point differs from the first one, the loop ends
    with [dmax] still [0.] and [nose] still the integer [0].  The source
    does not raise then: it divides by [dmax] and assigns an array of
    [nan] to [data].  The model has no value for that array and stops at
    the division ([NonFinite]). *)
Definition Normalize : M t unit :=
  (d <- get_data ;;
   p1 <- lift (getitem d 0) ;;
   let (dmax, nose) := farthest p1 d in
   match nose with
   | None => lift (Raise NonFinite)
   | Some nose =>
       let diff := psub p1 nose in
       let sin := pdot (pdiv diff dmax) (0, -1) in
       let cos := sqrt (1 - sin ^ 2) in
       let matrix := mdiv ((cos, - sin), (sin, cos)) dmax in
       set_data (map (fun i => mdot matrix (psub i nose)) d)
   end)%method.

(** [copy]: [self.__class__(self.data.copy())]. *)
Definition copy (self : t) : result t :=
  (d <- getattr "data" (data self) ;; new d)%result.

(** [__mul__]: [self.__class__(self.Profile * numpy.array([1, float(other)]))]. *)
Definition __mul__ (self : t) (other : R) : result t :=
  (d <- eval _GetProfile self ;;
   new (map (fun p => pmul p (1, other)) d))%result.

Section WithPoint.

(** [Point] of [Profile/_Functions.py], which is not among the sources:
    [Point(profile, xval, h)] returns a pair whose second component is a
    point of the curve; the methods below read nothing else of it, and what
    the first component is ([Position]) is left open. *)
Context {Position : Type}.
Variable _Functions_Point : list point -> R -> R -> result (Position * point).

(** [self.Point(xval)] for a float [xval]; [h] defaults to [-1]. *)
Definition Point (self : t) (xval : R) (h : R) : result (Position * point) :=
  rbind (getattr "data" (data self)) (fun d => _Functions_Point d xval h).

(** [self.Points(xvalues)]. *)
Definition Points (self : t) (xvalues : list R) : result (list (Position * point)) :=
  mapM (fun x => Point self x (-1)) xvalues.

End WithPoint.

End BasicProfile2D.

(* ================================================================== *)
(** * Profile/_Classes.py: Profile2D                                   *)
(* ================================================================== *)

Module Profile2D.

(** A Profile2D is a BasicProfile2D ([base] holds the inherited attributes
    [data] and [noseindex]) with a name and the root profile. *)
Record t : Type := mk {
  Name : string;
  base : BasicProfile2D.t;
  _rootprof : option BasicProfile2D.t
}.

Definition data (self : t) : option (list point) := BasicProfile2D.data (base self).
Definition noseindex (self : t) : option nat := BasicProfile2D.noseindex (base self).

Definition blank : t :=
  {| Name := ""; base := BasicProfile2D.blank; _rootprof := None |}.

Definition set_Name (n : string) : M t unit :=
  modify (fun self => {| Name := n; base := base self; _rootprof := _rootprof self |}).

Definition set_rootprof (r : BasicProfile2D.t) : M t unit :=
  modify (fun self => {| Name := Name self; base := base self; _rootprof := Some r |}).

(** A method of BasicProfile2D called on [self]. *)
Definition super {A : Type} (m : M BasicProfile2D.t A) : M t A :=
  fun self =>
    let (b, r) := m (base self) in
    ({| Name := Name self; base := b; _rootprof := _rootprof self |}, r).

(** A method called on the object [self._rootprof]. *)
Definition rootprof_call {A : Type} (m : M BasicProfile2D.t A) : M t A :=
  fun self =>
    match _rootprof self with
    | None => (self, Raise (AttributeError "_rootprof"))
    | Some root =>
        let (root', r) := m root in
        ({| Name := Name self; base := base self; _rootprof := Some root' |}, r)
    end.

(** The default value of [__init__]'s [profile]. *)
Definition default_profile : list point :=
  [ (1.00000000e+00, -1.77114326e-16);
    (5.00000000e-01,  1.73720187e-02);
    (1.33974596e-01,  6.44897990e-02);
    (0.00000000e+00,  0.00000000e+00);
    (1.33974596e-01, -4.74705844e-02);
    (5.00000000e-01, -6.58261348e-02);
    (1.00000000e+00, -2.63677968e-16) ].

(** [__init__(self, profile, name)].  The argument [profile] of the source
    is a list of rows; a first row that holds a string is the name
    ([header]), and [profile] here is the rows after it. *)
Definition __init__ (header : option string) (profile : list point) (name : string)
  : M t unit :=
  (set_Name name ;;
   match header, profile with
   | None, [] => ret tt
   | _, _ =>
       match header with
       | Some n => set_Name n
       | None => ret tt
       end ;;
       root <- lift (BasicProfile2D.new profile) ;;
       set_rootprof root ;;
       rootprof_call BasicProfile2D.Normalize ;;
       p <- rootprof_call BasicProfile2D._GetProfile ;;
       super (BasicProfile2D._SetProfile p)
   end)%method.

(** [Profile2D(profile, name)]. *)
Definition new (header : option string) (profile : list point) (name : string)
  : result t :=
  exec (__init__ header profile name) blank.

(** [copy], inherited: [self.__class__(self.data.copy())]; the name is the
    default one. *)
Definition copy (self : t) : result t :=
  (d <- getattr "data" (data self) ;; new None d "Profile")%result.

Definition _GetProfile : M t (list point) := super BasicProfile2D._GetProfile.
Definition _SetProfile (profile : list point) : M t unit :=
  super (BasicProfile2D._SetProfile profile).

(** [Reset]. *)
Definition Reset : M t unit :=
  (p <- rootprof_call BasicProfile2D._GetProfile ;; _SetProfile p)%method.

(** [_GetXValues]: upper side negative, lower side positive. *)
Definition _GetXValues : M t (list R) :=
  (i <- super BasicProfile2D.get_noseindex ;;
   d <- super BasicProfile2D.get_data ;;
   ret (map (fun p => px p * -1) (firstn i d) ++ map px (skipn i d)))%method.

Definition _GetLen : M t nat :=
  (d <- super BasicProfile2D.get_data ;; ret (length d))%method.

(** [__mul__], inherited: the product is built by the constructor of
    Profile2D, with the default name. *)
Definition __mul__ (self : t) (other : R) : result t :=
  (d <- eval _GetProfile self ;;
   new None (map (fun p => pmul p (1, other)) d) "Profile")%result.

(** [__eq__]: [numpy.array_equal(self.Profile, other.Profile)]. *)
Definition __eq__ (self other : t) : result bool :=
  (a <- eval _GetProfile self ;;
   b <- eval _GetProfile other ;;
   Ok (array_equal_points a b))%result.

Section WithPoint.

Context {Position : Type}.
Variable _Functions_Point : list point -> R -> R -> result (Position * point).

(** [str] of a float. *)
Variable str : R -> string.

(** [RootPoint]: [self._rootprof.Point(xval, h)]. *)
Definition RootPoint (self : t) (xval h : R) : result (Position * point) :=
  (root <- getattr "_rootprof" (_rootprof self) ;;
   BasicProfile2D.Point _Functions_Point root xval h)%result.

(** [_SetXValues]: [self.Profile = self._rootprof.Points(xval)[:, 1]]. *)
Definition _SetXValues (xval : list R) : M t unit :=
  (pts <- rootprof_call
            (fun root => (root, BasicProfile2D.Points _Functions_Point root xval)) ;;
   col <- lift (column1 pts) ;;
   _SetProfile col)%method.

(** The lambda [xtemp] of [_SetLen]. *)
Definition xtemp (x : R) : R := cmp x 0.5 * (1 - sin (PI * x)).

(** [_SetLen]. *)
Definition _SetLen (num : Z) : M t unit :=
  (let i := (num - num mod 2)%Z in
   xs <- lift (mapM (fun j : Z =>
                       (q <- float_div (IZR j * 1) i ;; Ok (xtemp q))%result)
                    (range (i + 1))) ;;
   _SetXValues xs)%method.

(** [_GetThick()] without arguments.  The order in which Python iterates
    over the set is not fixed by the language; [nodup] is one such order. *)
Definition _GetThick : M t (list (R * R)) :=
  (xv <- _GetXValues ;;
   let xvals := nodup Req_dec_T (map Rabs xv) in
   fun self =>
     (self,
      mapM (fun i : R =>
              (u <- BasicProfile2D.Point _Functions_Point (base self) (- i) (-1) ;;
               l <- BasicProfile2D.Point _Functions_Point (base self) i (-1) ;;
               Ok (i, py (snd u) - py (snd l)))%result)
           xvals))%method.

(** [_SetThick].  A largest thickness of [0] makes the factor infinite; the
    source goes on and rebuilds the profile from ordinates that are not
    finite, the model stops at the division ([NonFinite]). *)
Definition _SetThick (newthick : R) : M t unit :=
  (th <- _GetThick ;;
   col <- lift (column1 th) ;;
   m <- lift (max_of col) ;;
   factor <- lift (if Reqb m 0 then Raise NonFinite else Ok (newthick / m)) ;;
   p <- _GetProfile ;;
   let new := map (fun q => pmul q (1, factor)) p in
   n <- gets Name ;;
   __init__ None new (n ++ "_" ++ str (newthick * 100) ++ "%"))%method.

(** [__add__], for [other] of the same class.  [first] is a new object:
    neither operand is changed. *)
Definition __add__ (self other : t) : result t :=
  (n_self <- eval _GetLen self ;;
   n_other <- eval _GetLen other ;;
   let (source, second) :=
     if (n_other <? n_self)%nat then (other, self) else (self, other) in
   first <- copy source ;;
   x_first <- eval _GetXValues first ;;
   x_second <- eval _GetXValues second ;;
   first <- (if negb (array_equal x_first x_second)
             then (xs <- eval _GetXValues second ;; exec (_SetXValues xs) first)
             else Ok first) ;;
   p_first <- eval _GetProfile first ;;
   p_second <- eval _GetProfile second ;;
   sum <- array_add p_first (map (fun q => pmul q (0, 1)) p_second) ;;
   exec (_SetProfile sum) first)%result.

End WithPoint.

End Profile2D.

(* ================================================================== *)
(** * Vectors and matrices of space                                    *)
(* ================================================================== *)

Definition vec3 : Type := (R * R * R)%type.
Definition matrix3 : Type := (vec3 * vec3 * vec3)%type.

Definition vx (v : vec3) : R := fst (fst v).
Definition vy (v : vec3) : R := snd (fst v).
Definition vz (v : vec3) : R := snd v.

Definition row1 (m : matrix3) : vec3 := fst (fst m).
Definition row2 (m : matrix3) : vec3 := snd (fst m).
Definition row3 (m : matrix3) : vec3 := snd m.

Definition vadd (a b : vec3) : vec3 := (vx a + vx b, vy a + vy b, vz a + vz b).
Definition vscale (a : vec3) (k : R) : vec3 := (vx a * k, vy a * k, vz a * k).
Definition vdot (a b : vec3) : R := vx a * vx b + vy a * vy b + vz a * vz b.

(** [m.dot(v)] for a vector [v]. *)
Definition mvdot (m : matrix3) (v : vec3) : vec3 :=
  (vdot (row1 m) v, vdot (row2 m) v, vdot (row3 m) v).

Definition col1 (m : matrix3) : vec3 := (vx (row1 m), vx (row2 m), vx (row3 m)).
Definition col2 (m : matrix3) : vec3 := (vy (row1 m), vy (row2 m), vy (row3 m)).
Definition col3 (m : matrix3) : vec3 := (vz (row1 m), vz (row2 m), vz (row3 m)).

(** [a.dot(b)] for a matrix [b]. *)
Definition mmdot (a b : matrix3) : matrix3 :=
  ((vdot (row1 a) (col1 b), vdot (row1 a) (col2 b), vdot (row1 a) (col3 b)),
   (vdot (row2 a) (col1 b), vdot (row2 a) (col2 b), vdot (row2 a) (col3 b)),
   (vdot (row3 a) (col1 b), vdot (row3 a) (col2 b), vdot (row3 a) (col3 b))).

Definition identity3 : matrix3 := ((1, 0, 0), (0, 1, 0), (0, 0, 1)).

(* ================================================================== *)
(** * openglider/__init__.py                                           *)
(* ================================================================== *)

(** [cross(a, b)], which replaces [numpy.cross] when the package is
    imported under PyPy. *)
Definition cross (a b : vec3) : vec3 :=
  (vy a * vz b - vz a * vy b,
   (- vx a) * vz b + vz a * vx b,
   vx a * vy b - vy a * vx b).

(* ================================================================== *)
(** * Profile/_Classes.py: Profile3D                                   *)
(* ================================================================== *)

(** [rib.py] takes its Profile3D from [openglider.airfoil], which is not
    among the sources; the model is the class of that name in
    [Profile/_Classes.py], of which the rib uses the constructor only. *)
Module Profile3D.

Record t : Type := mk {
  data : list vec3;
  Name : string
}.

(** [Profile3D(profile)]; the name defaults to ["Profile3d"]. *)
Definition new (profile : list vec3) : t :=
  {| data := profile; Name := "Profile3d" |}.

End Profile3D.

(* ================================================================== *)
(** * openglider/glider/rib.py: Rib                                    *)
(* ================================================================== *)

Module Rib.

(** The airfoil a rib holds.  [rib.py] takes its Profile2D from the
    [openglider] package, not from [Profile/_Classes.py]; of that class the
    rib reads [data] only, which may be [None]. *)
Record airfoil : Type := mk_airfoil {
  data : option (list point)
}.

(** The attributes of a Rib.  [_aoa] is the pair (angle, flag) and the flag
    is true when the angle is the relative one.  [pos] is [startpoint],
    whose default is [None].  ([ballooning] is stored and never read by the
    class; it is left out.)  A division by a [glide] of zero gives [inf] in
    numpy and has no value in the model: the statements about angles take
    [glide] different from zero. *)
Record t : Type := mk {
  name : string;
  profile_2d : airfoil;
  glide : R;
  _aoa : R * bool;
  arcang : R;
  zrot : R;
  pos : option vec3;
  chord : R
}.

(** [aoa_absolute.setter] and [aoa_relative.setter]. *)
Definition set_aoa_absolute (aoa : R) (self : t) : t :=
  {| name := name self; profile_2d := profile_2d self; glide := glide self;
     _aoa := (aoa, false);
     arcang := arcang self; zrot := zrot self; pos := pos self; chord := chord self |}.

Definition set_aoa_relative (aoa : R) (self : t) : t :=
  {| name := name self; profile_2d := profile_2d self; glide := glide self;
     _aoa := (aoa, true);
     arcang := arcang self; zrot := zrot self; pos := pos self; chord := chord self |}.

(** [__init__], for a given [profile_2d]. *)
Definition __init__ (profile_2d : airfoil) (startpoint : option vec3)
    (chord arcang aoa zrot glide : R) (name : string) (aoa_abs : bool) : t :=
  let self :=
    {| name := name; profile_2d := profile_2d; glide := glide;
       _aoa := (0, false);
       arcang := arcang; zrot := zrot; pos := startpoint; chord := chord |} in
  if aoa_abs then set_aoa_absolute aoa self else set_aoa_relative aoa self.

(** [__aoa_diff]. *)
Definition __aoa_diff (arc_angle glide : R) : R := atan (cos arc_angle / glide).

(** The property [aoa_absolute]. *)
Definition aoa_absolute (self : t) : R :=
  if negb (snd (_aoa self))
  then fst (_aoa self)
  else fst (_aoa self) - __aoa_diff (arcang self) (glide self).

(** The property [aoa_relative]. *)
Definition aoa_relative (self : t) : R :=
  if snd (_aoa self)
  then fst (_aoa self)
  else fst (_aoa self) + __aoa_diff (arcang self) (glide self).

(** [self.chord = chord]. *)
Definition set_chord (c : R) (self : t) : t :=
  {| name := name self; profile_2d := profile_2d self; glide := glide self;
     _aoa := _aoa self;
     arcang := arcang self; zrot := zrot self; pos := pos self; chord := c |}.

(** [mirror].  The two angles are negated before [numpy.multiply] meets
    [self.pos], which raises TypeError on [None]. *)
Definition mirror : M t unit :=
  (modify (fun self =>
     {| name := name self; profile_2d := profile_2d self; glide := glide self;
        _aoa := _aoa self;
        arcang := - arcang self; zrot := zrot self; pos := pos self;
        chord := chord self |}) ;;
   modify (fun self =>
     {| name := name self; profile_2d := profile_2d self; glide := glide self;
        _aoa := _aoa self;
        arcang := arcang self; zrot := - zrot self; pos := pos self;
        chord := chord self |}) ;;
   fun self =>
     match pos self with
     | None => (self, Raise (TypeError "unsupported operand type(s) for *"))
     | Some p =>
         ({| name := name self; profile_2d := profile_2d self; glide := glide self;
             _aoa := _aoa self;
             arcang := arcang self; zrot := zrot self;
             pos := Some (vx p * 1, vy p * -1, vz p * 1);
             chord := chord self |}, Ok tt)
     end)%method.

(** The dictionary of [__json__], by its keys ([ballooning] left out as in
    the record of the rib). *)
Record json : Type := mk_json {
  json_profile_2d : airfoil;
  json_startpoint : vec3;
  json_chord : R;
  json_arcang : R;
  json_aoa : R;
  json_zrot : R;
  json_glide : R;
  json_name : string;
  json_aoa_abs : bool
}.

(** [__json__]; [self.pos.tolist()] needs a start point. *)
Definition __json__ (self : t) : result json :=
  match pos self with
  | None => Raise (AttributeError "tolist")
  | Some p =>
      Ok {| json_profile_2d := profile_2d self;
            json_startpoint := p;
            json_chord := chord self;
            json_arcang := arcang self;
            json_aoa := fst (_aoa self);
            json_zrot := zrot self;
            json_glide := glide self;
            json_name := name self;
            json_aoa_abs := snd (_aoa self) |}
  end.

(** The rib built from a dictionary [d] of [__json__] given as keyword
    arguments: every key is a keyword of [__init__]. *)
Definition from_json (d : json) : t :=
  __init__ (json_profile_2d d) (Some (json_startpoint d)) (json_chord d)
    (json_arcang d) (json_aoa d) (json_zrot d) (json_glide d) (json_name d)
    (json_aoa_abs d).

Section WithRotation.

(** [rotation_3d(angle, axis)] of [openglider.vector], which is not among
    the sources. *)
Variable rotation_3d : R -> vec3 -> matrix3.

(** [rotation_rib(aoa, arc, zrot)]. *)
Definition rotation_rib (aoa arc zrot : R) : matrix3 :=
  let rot := rotation_3d (- arc + PI / 2) (-1, 0, 0) in
  let axis := mvdot rot (0, 0, 1) in
  let rot := mmdot (rotation_3d aoa axis) rot in
  let axis := mvdot rot (0, 1, 0) in
  let rot := mmdot (rotation_3d zrot axis) rot in
  rot.

(** The property [rotation_matrix].  It is a cached property; the cache is
    keyed on what the body reads, and the model computes the value. *)
Definition rotation_matrix (self : t) : matrix3 :=
  let zrot := atan (arcang self) / glide self * zrot self in
  rotation_rib (aoa_absolute self) (arcang self) zrot.

(** The branch of [align] for a point of length 3.  [self.pos] is [None]
    unless a start point was given, and [None + array] is a TypeError. *)
Definition align_3d (self : t) (point : vec3) : result vec3 :=
  match pos self with
  | None => Raise (TypeError "unsupported operand type(s) for +")
  | Some p => Ok (vadd p (vscale (mvdot (rotation_matrix self) point) (chord self)))
  end.

(** [align(point)]. *)
Definition align (self : t) (point : list R) : result vec3 :=
  match point with
  | [x; y] => align_3d self (x, y, 0)
  | [x; y; z] => align_3d self (x, y, z)
  | _ => Raise (ValueError "Can only Align one single 2D or 3D-Point")
  end.

(** The property [profile_3d]. *)
Definition profile_3d (self : t) : result Profile3D.t :=
  match data (profile_2d self) with
  | Some d =>
      (pts <- mapM (fun p : point => align self [px p; py p]) d ;;
       Ok (Profile3D.new pts))%result
  | None =>
      Raise (ValueError ("no 2d-profile present fortharib at rib " ++ name self))
  end.

End WithRotation.

End Rib.

(* ================================================================== *)
(** * openglider/glider/rib.py: MiniRib                                *)
(* ================================================================== *)

Module MiniRib.

(** The attributes of a MiniRib; [__function__] is the [func] given to
    [__init__]. *)
Record t : Type := mk {
  __function__ : R -> R;
  y_value : R;
  front_cut : R;
  back_cut : R
}.

(** [__init__] when [func] is given.  (Without [func] it is built by
    [BezierCurve], which is not among the sources.) *)
Definition __init__ (yvalue front_cut back_cut : R) (func : R -> R) : t :=
  {| __function__ := func; y_value := yvalue;
     front_cut := front_cut; back_cut := back_cut |}.

(** [function(x)]. *)
Definition function (self : t) (x : R) : R :=
  if Rleb (front_cut self) (Rabs x) && Rleb (Rabs x) (back_cut self)
  then py_min 1 (py_max 0 (__function__ self (Rabs x)))
  else 1.

End MiniRib.

(* ================================================================== *)
(** * openglider/glider/cell/elements.py                               *)
(* ================================================================== *)

Module DiagonalRib.

(** A cut is a pair (x-value, height). *)
Definition cut : Type := (R * R)%type.

Record t : Type := mk {
  left_front : cut;
  left_back : cut;
  right_front : cut;
  right_back : cut;
  material_code : option string;
  name : string
}.

(** [mirror]: the two sides change places. *)
Definition mirror (self : t) : t :=
  {| left_front := right_front self; left_back := right_back self;
     right_front := left_front self; right_back := left_back self;
     material_code := material_code self; name := name self |}.

(** [get_average_x]; the module divides with [from __future__ import
    division]. *)
Definition get_average_x (self : t) : R :=
  (fst (left_front self) + fst (left_back self)
   + fst (right_back self) + fst (right_front self)) / 4.

End DiagonalRib.

Module TensionStrap.

(** [TensionStrap(left, right, width, material_code, name)]: a diagonal rib
    on the lower side, [width] wide about [left] and [right]. *)
Definition __init__ (left right width : R) (material_code : option string)
    (name : string) : DiagonalRib.t :=
  let width := width / 2 in
  {| DiagonalRib.left_front := (left - width, -1);
     DiagonalRib.left_back := (left + width, -1);
     DiagonalRib.right_front := (right - width, -1);
     DiagonalRib.right_back := (right + width, -1);
     DiagonalRib.material_code := material_code;
     DiagonalRib.name := name |}.

End TensionStrap.

Module Panel.

(** A cut of a panel: the dictionary with the keys ['left'], ['right'] and
    ['type']. *)
Record cut : Type := mk_cut {
  left : R;
  right : R;
  type : string
}.

(** A panel keeps the two dictionaries it was given, not copies of them,
    and [mirror] writes into them: the dictionaries live in a store and the
    panel holds their addresses, which may be one and the same. *)
Definition ref : Type := nat.
Definition store : Type := ref -> cut.

Definition write (r : ref) (c : cut) (h : store) : store :=
  fun r' => if Nat.eqb r' r then c else h r'.

Record t : Type := mk {
  cut_front : ref;
  cut_back : ref;
  material_code : string;
  name : string
}.

(** [__init__]; [material_code or ""]. *)
Definition __init__ (cut_front cut_back : ref) (material_code : option string)
    (name : string) : t :=
  {| cut_front := cut_front; cut_back := cut_back;
     material_code := match material_code with
                      | Some c => c
                      | None => ""
                      end;
     name := name |}.

(** The two assignments [d["left"], d["right"] = right, left] on one
    dictionary. *)
Definition swap_sides (r : ref) (h : store) : store :=
  let c := h r in
  write r {| left := right c; right := left c; type := type c |} h.

(** [mirror]: first the front cut, then the back cut, read after the front
    cut has been written. *)
Definition mirror (self : t) (h : store) : store :=
  swap_sides (cut_back self) (swap_sides (cut_front self) h).

(** The x-value of a cut at the spanwise position [y]:
    [cut["left"] + y * (cut["right"] - cut["left"])]. *)
Definition cut_at (c : cut) (y : R) : R := left c + y * (right c - left c).

Section WithCell.

(** [get_x_value] of [openglider.airfoil] and [cell.midrib(y).get(front,
    back)], which are not among the sources. *)
Context {Index Piece : Type}.
Variable get_x_value : list R -> R -> result Index.
Variable midrib_get : R -> Index -> Index -> result Piece.

(** [get_3d(cell, numribs)], with [xvalues] the x-values of the airfoil of
    [cell.rib1]. *)
Definition get_3d (self : t) (h : store) (xvalues : list R) (numribs : Z)
  : result (list Piece) :=
  mapM (fun i : Z =>
          (y <- float_div (IZR i) numribs ;;
           front <- get_x_value xvalues (cut_at (h (cut_front self)) y) ;;
           back <- get_x_value xvalues (cut_at (h (cut_back self)) y) ;;
           midrib_get y front back)%result)
       (range (numribs + 1)).

End WithCell.

End Panel.

(* ================================================================== *)
(** * The helpers that are not among the sources                       *)
(* ================================================================== *)

Module Model.

(** Modelled from the spec: the search of [Point] for the two stored points
    that bracket the abscissa [ax], from the first point on; on the upper
    side the abscissas fall along the curve, on the lower side they rise.
    The answer is the interpolated point and its position along the curve
    (index of the segment plus the fraction of it). *)
Fixpoint bracket (upper : bool) (ax : R) (i : nat) (profile : list point)
  : result (R * point) :=
  match profile with
  | p :: ((q :: _) as rest) =>
      if (if upper
          then Rleb (px q) ax && Rleb ax (px p)
          else Rleb (px p) ax && Rleb ax (px q))
      then
        let k := (ax - px p) / (px q - px p) in
        Ok (INR i + k, (px p + k * (px q - px p), py p + k * (py q - py p)))
      else bracket upper ax (S i) rest
  | _ => Raise (ValueError "x-value outside of the profile")
  end.

(** Modelled from the spec: [Point] of [Profile/_Functions.py], which is
    not among the sources.  The spec: a negative side or a negative x
    selects the upper surface, otherwise the lower one, and with the
    sentinel side [-1] the sign of x alone decides; the result is the stored
    point at x or the linear interpolation between the two stored points
    that bracket x on that surface.  Outside of the stored abscissas the
    spec leaves the behaviour open; the model raises. *)
Definition Point (profile : list point) (xval h : R) : result (R * point) :=
  let upper := if Reqb h (-1) then Rltb xval 0 else Rltb h 0 || Rltb xval 0 in
  bracket upper (Rabs xval) 0 profile.

Definition vnorm (v : vec3) : R := sqrt (vdot v v).

(** Modelled from the spec: [rotation_3d] of [openglider.vector], which is
    not among the sources.  The spec names it the construction of the
    rotation matrix in space; this is the rotation by [angle] about the
    direction of [axis] (Rodrigues' formula). *)
Definition rotation_3d (angle : R) (axis : vec3) : matrix3 :=
  let n := vnorm axis in
  let ux := vx axis / n in
  let uy := vy axis / n in
  let uz := vz axis / n in
  let c := cos angle in
  let s := sin angle in
  ((c + ux * ux * (1 - c), ux * uy * (1 - c) - uz * s, ux * uz * (1 - c) + uy * s),
   (uy * ux * (1 - c) + uz * s, c + uy * uy * (1 - c), uy * uz * (1 - c) - ux * s),
   (uz * ux * (1 - c) - uy * s, uz * uy * (1 - c) + ux * s, c + uz * uz * (1 - c))).

(** A stand-in for Python's [str] on floats, which the embedding does not
    compute; it is used where a concrete rendering is needed. *)
Definition str (x : R) : string := "<float>".

End Model.

(* ================================================================== *)
(** * Statements: notions the properties are written with              *)
(* ================================================================== *)

(** The abscissa of [profile[i]]. *)
Definition xcoord (profile : list point) (i : nat) : R := px (nth i profile (0, 0)).

(** The canonical axes, as the specification names them: the abscissa of
    an airfoil runs along the chord, which [align] lays along x; y is the
    spanwise coordinate, the one [mirror] negates; z is the vertical. *)
Definition chordwise_axis : vec3 := (1, 0, 0).
Definition spanwise_axis : vec3 := (0, 1, 0).
Definition vertical_axis : vec3 := (0, 0, 1).

(** Three successive rotations: (a) by [angle_a] about [axis_a], (b) by
    [angle_b] about the canonical axis [canon_b] as rotation (a) has left
    it, (c) by [angle_c] about the canonical axis [canon_c] as (a) and (b)
    have left it. *)
Definition rotations_about (rotation_3d : R -> vec3 -> matrix3)
    (axis_a canon_b canon_c : vec3) (angle_a angle_b angle_c : R) : matrix3 :=
  let rot_a := rotation_3d angle_a axis_a in
  let rot_b := rotation_3d angle_b (mvdot rot_a canon_b) in
  let rot_ab := mmdot rot_b rot_a in
  let rot_c := rotation_3d angle_c (mvdot rot_ab canon_c) in
  mmdot rot_c rot_ab.

(** The three successive rotations of a rib, in the words of the
    specification: (a) about the spanwise axis, (b) about the vertical
    axis as rotation (a) has left it, (c) about the chordwise axis as (a)
    and (b) have left it. *)
Definition successive_rotations (rotation_3d : R -> vec3 -> matrix3)
    (angle_a angle_b angle_c : R) : matrix3 :=
  rotations_about rotation_3d spanwise_axis vertical_axis chordwise_axis
    angle_a angle_b angle_c.

(** A rib without arc angle, angle of attack and twist. *)
Definition level_rib : Rib.t :=
  Rib.__init__ (Rib.mk_airfoil (Some [(1, 0); (0, 0); (1, 0)]))
    (Some (0, 0, 0)) 1 0 0 0 1 "rib" true.

(** A rib without arc angle, with twist coefficient [PI]. *)
Definition flat_rib : Rib.t :=
  Rib.__init__ (Rib.mk_airfoil (Some [(1, 0); (0, 0); (1, 0)]))
    (Some (0, 0, 0)) 1 0 0 PI 1 "rib" true.

(** The matrix of [Normalize] in the words of the specification:
    [[cos, -sin], [sin, cos]] / dmax, where [sin] is the component of
    [(first - nose) / dmax] along [(0, -1)] and [cos = sqrt(1 - sin^2)]. *)
Definition normalizing_matrix (first nose : point) (dmax : R) : matrix2 :=
  let s := pdot (pdiv (psub first nose) dmax) (0, -1) in
  let c := sqrt (1 - s ^ 2) in
  mdiv ((c, - s), (s, c)) dmax.

(** A closed profile of five points, normalized: trailing edge [(1, 0)],
    nose [(0, 0)], largest thickness [1/5] at [x = 1/4]. *)
Definition diamond : list point :=
  [(1, 0); (1 / 4, 1 / 10); (0, 0); (1 / 4, - 1 / 10); (1, 0)].

Definition diamond_root : BasicProfile2D.t :=
  BasicProfile2D.mk (Some diamond) (Some 2%nat).

Definition diamond_profile : Profile2D.t :=
  Profile2D.mk "Profile" diamond_root (Some diamond_root).

(** Two points listed from the leading edge to the trailing edge: the
    first point lies to the left of the farthest one. *)
Definition reversed_profile : list point := [(0, 0); (3 / 5, 4 / 5)].

(** The square of the Euclidean norm. *)
Definition sumsq (v : point) : R := px v * px v + py v * py v.

(** One round of the loop of [Normalize]. *)
Definition farthest_step (p1 : point) (acc : R * option point) (i : point)
  : R * option point :=
  let temp := Vector.norm (psub i p1) in
  if Rltb (fst acc) temp then (temp, Some i) else acc.

(** [point * [1., factor]]: the ordinate rescaled. *)
Definition scale_y (factor : R) (p : point) : point := pmul p (1, factor).

(** The same on what [Point] returns. *)
Definition scale_result {Position : Type} (factor : R)
    (r : result (Position * point)) : result (Position * point) :=
  match r with
  | Ok (pos, q) => Ok (pos, scale_y factor q)
  | Raise e => Raise e
  end.

(** One row of [_GetThick]: the thickness at the abscissa [i]. *)
Definition thickness_at {Position : Type}
    (Point : list point -> R -> R -> result (Position * point))
    (d : list point) (i : R) : result (R * R) :=
  (u <- Point d (- i) (-1) ;;
   l <- Point d i (-1) ;;
   Ok (i, py (snd u) - py (snd l)))%result.

(** The signed x-values of the points [d] with the nose at index [k]. *)
Definition signed_xvalues (k : nat) (d : list point) : list R :=
  map (fun p => px p * -1) (firstn k d) ++ map px (skipn k d).

(** The abscissas the thickness is taken at. *)
Definition abscissas (d : list point) : list R :=
  nodup Req_dec_T (map (fun p => Rabs (px p)) d).

(** [diamond] with every ordinate multiplied by 10: the point
    [(1/4, 1)] is now farther from the trailing edge than the nose. *)
Definition tall : list point :=
  [(1, 0); (1 / 4, 1); (0, 0); (1 / 4, -1); (1, 0)].

(** What [Normalize] makes of [tall]. *)
Definition bent : list point :=
  [(1, 0); (0, 0); (13 / 25, - 16 / 25); (32 / 25, - 24 / 25); (1, 0)].

Definition bent_profile : Profile2D.t :=
  Profile2D.mk "Profile_<float>%"
    (BasicProfile2D.mk (Some bent) (Some 1%nat))
    (Some (BasicProfile2D.mk (Some bent) (Some 2%nat))).

(** Two arrays of points added as [__add__] adds them: the abscissa of the
    first, the sum of the two ordinates. *)
Definition add_ordinates (first second : list point) : list point :=
  map (fun fs : point * point => (px (fst fs), py (fst fs) + py (snd fs)))
      (combine first second).

(** The profile stores a point with the signed x-value [x] and the
    ordinate [y]. *)
Definition stored (self : Profile2D.t) (x y : R) : Prop :=
  exists (d : list point) (k j : nat) (xj : R) (p : point),
    Profile2D.data self = Some d /\
    Profile2D.noseindex self = Some k /\
    nth_error (signed_xvalues k d) j = Some xj /\
    nth_error d j = Some p /\
    xj = x /\ py p = y.

(** [diamond] at half the size: the chord is [1/2]. *)
Definition half : list point :=
  [(1 / 2, 0); (1 / 4, 1 / 10); (0, 0); (1 / 4, - 1 / 10); (1 / 2, 0)].

(** [diamond_profile] after [Profile = half]. *)
Definition half_profile : Profile2D.t :=
  Profile2D.mk "Profile" (BasicProfile2D.mk (Some half) (Some 2%nat))
    (Some diamond_root).

(** What [Normalize] makes of [half]: the chord is [1] again and the
    ordinates have doubled. *)
Definition wide : list point :=
  [(1, 0); (1 / 2, 1 / 5); (0, 0); (1 / 2, - 1 / 5); (1, 0)].

Definition wide_root : BasicProfile2D.t :=
  BasicProfile2D.mk (Some wide) (Some 2%nat).

Definition wide_profile : Profile2D.t :=
  Profile2D.mk "Profile" wide_root (Some wide_root).

(** A second profile with the x-values of [wide]. *)
Definition thick : list point :=
  [(1, 0); (1 / 2, 3 / 10); (0, 0); (1 / 2, - 3 / 10); (1, 0)].

Definition thick_root : BasicProfile2D.t :=
  BasicProfile2D.mk (Some thick) (Some 2%nat).

Definition thick_profile : Profile2D.t :=
  Profile2D.mk "Profile" thick_root (Some thick_root).

(** [half_profile + thick_profile]. *)
Definition half_plus_thick : Profile2D.t :=
  Profile2D.mk "Profile"
    (BasicProfile2D.mk
       (Some [(1, 0); (1 / 2, 1 / 2); (0, 0); (1 / 2, - 1 / 2); (1, 0)])
       (Some 2%nat))
    (Some wide_root).

(** The transpose of a matrix, and what it is for a matrix to be
    orthogonal. *)
Definition transpose (m : matrix3) : matrix3 := (col1 m, col2 m, col3 m).

Definition orthogonal (m : matrix3) : Prop :=
  mmdot (transpose m) m = identity3 /\ mmdot m (transpose m) = identity3.

Definition vsub (a b : vec3) : vec3 := (vx a - vx b, vy a - vy b, vz a - vz b).

(* ================================================================== *)
(** * Basic facts                                                      *)
(* ================================================================== *)

Lemma Rltb_true (a b : R) : a < b -> Rltb a b = true.
Proof. unfold Rltb; destruct (Rlt_dec a b); tauto. Qed.

Lemma Rltb_false (a b : R) : ~ a < b -> Rltb a b = false.
Proof. unfold Rltb; destruct (Rlt_dec a b); tauto. Qed.

Lemma Rleb_true (a b : R) : a <= b -> Rleb a b = true.
Proof. unfold Rleb; destruct (Rle_dec a b); tauto. Qed.

Lemma Rleb_false (a b : R) : ~ a <= b -> Rleb a b = false.
Proof. unfold Rleb; destruct (Rle_dec a b); tauto. Qed.

Lemma Reqb_true (a b : R) : a = b -> Reqb a b = true.
Proof. unfold Reqb; destruct (Req_dec_T a b); tauto. Qed.

Lemma Reqb_false (a b : R) : a <> b -> Reqb a b = false.
Proof. unfold Reqb; destruct (Req_dec_T a b); tauto. Qed.

Lemma getitem_nth {A : Type} (l : list A) (i : nat) (d : A) :
  (i < length l)%nat -> getitem l i = Ok (nth i l d).
Proof.
  intros H. unfold getitem.
  rewrite (nth_error_nth' l d H). reflexivity.
Qed.

Lemma getitem_out {A : Type} (l : list A) (i : nat) :
  (length l <= i)%nat -> getitem l i = Raise (IndexError i).
Proof.
  intros H. unfold getitem.
  apply nth_error_None in H. rewrite H. reflexivity.
Qed.

(* ================================================================== *)
(** * The nose scan of [_SetProfile]                                   *)
(* ================================================================== *)

(** One round of the loop. *)
Lemma nose_scan_step (profile : list point) (i : nat) :
  BasicProfile2D.nose_scan profile i =
  match getitem profile (i + 1) with
  | Raise e => Raise e
  | Ok q =>
      match getitem profile i with
      | Raise e => Raise e
      | Ok p => if Rltb (px q) (px p) && (i <? length profile)%nat
                then BasicProfile2D.nose_scan profile (i + 1)
                else Ok i
      end
  end.
Proof.
  funelim (BasicProfile2D.nose_scan profile i);
    unfold getitem at 1;
    match goal with E : nth_error _ (_ + 1) = _ |- _ => rewrite E end;
    try match goal with E : getitem _ _ = _ |- _ => rewrite E end;
    reflexivity.
Qed.

(** Where the abscissa falls, the counter moves on. *)
Lemma nose_scan_descend (profile : list point) (i : nat) :
  (i + 1 < length profile)%nat ->
  xcoord profile (i + 1) < xcoord profile i ->
  BasicProfile2D.nose_scan profile i = BasicProfile2D.nose_scan profile (i + 1).
Proof.
  intros Hi Hx. rewrite nose_scan_step.
  rewrite (getitem_nth profile (i + 1) (0, 0)) by lia.
  rewrite (getitem_nth profile i (0, 0)) by lia.
  unfold xcoord in Hx. rewrite (Rltb_true _ _ Hx).
  replace (i <? length profile)%nat with true by (symmetry; apply Nat.ltb_lt; lia).
  reflexivity.
Qed.

Lemma nose_scan_run (profile : list point) (n k : nat) :
  (forall j, (k <= j < k + n)%nat ->
             (j + 1 < length profile)%nat /\
             xcoord profile (j + 1) < xcoord profile j) ->
  BasicProfile2D.nose_scan profile k = BasicProfile2D.nose_scan profile (k + n).
Proof.
  revert k. induction n as [|n IH]; intros k H.
  - rewrite Nat.add_0_r. reflexivity.
  - destruct (H k) as [Hk Hx]; [lia|].
    rewrite (nose_scan_descend profile k Hk Hx).
    rewrite IH.
    + f_equal. lia.
    + intros j Hj. apply H. lia.
Qed.

(** Where it does not fall, the loop ends with the counter. *)
Lemma nose_scan_stop (profile : list point) (i : nat) :
  (i + 1 < length profile)%nat ->
  xcoord profile (i + 1) >= xcoord profile i ->
  BasicProfile2D.nose_scan profile i = Ok i.
Proof.
  intros Hi Hx. rewrite nose_scan_step.
  rewrite (getitem_nth profile (i + 1) (0, 0)) by lia.
  rewrite (getitem_nth profile i (0, 0)) by lia.
  unfold xcoord in Hx. rewrite Rltb_false by lra.
  reflexivity.
Qed.

(** At the last point the loop reads past the end. *)
Lemma nose_scan_past_end (profile : list point) (i : nat) :
  (length profile <= i + 1)%nat ->
  BasicProfile2D.nose_scan profile i = Raise (IndexError (i + 1)).
Proof.
  intros Hi. rewrite nose_scan_step.
  rewrite getitem_out by lia. reflexivity.
Qed.

Lemma nose_scan_first_rise (profile : list point) (i : nat) :
  (i + 1 < length profile)%nat ->
  xcoord profile (i + 1) >= xcoord profile i ->
  (forall j, (j < i)%nat -> xcoord profile (j + 1) < xcoord profile j) ->
  BasicProfile2D.nose_scan profile 0 = Ok i.
Proof.
  intros Hi Hx Hmin.
  rewrite (nose_scan_run profile i 0).
  - apply nose_scan_stop; assumption.
  - intros j Hj. split; [lia | apply Hmin; lia].
Qed.

Lemma nose_scan_all_fall (profile : list point) :
  (1 <= length profile)%nat ->
  (forall j, (j + 1 < length profile)%nat ->
             xcoord profile (j + 1) < xcoord profile j) ->
  BasicProfile2D.nose_scan profile 0 = Raise (IndexError (length profile)).
Proof.
  intros Hlen Hall.
  rewrite (nose_scan_run profile (length profile - 1) 0).
  - rewrite nose_scan_past_end by lia. do 2 f_equal. lia.
  - intros j Hj. split; [lia | apply Hall; lia].
Qed.

(** The scan never answers with an index outside of the list. *)
Lemma nose_scan_in_bounds (profile : list point) (i n : nat) :
  BasicProfile2D.nose_scan profile i = Ok n -> (i <= n /\ n + 1 < length profile)%nat.
Proof.
  funelim (BasicProfile2D.nose_scan profile i); try discriminate.
  clear Heqcall.
  destruct (Rltb (px q) (px p) && (i <? length profile)%nat) eqn:E.
  - intros Hn. apply H in Hn. lia.
  - intros Hn. injection Hn as <-.
    assert (i + 1 < length profile)%nat by (apply nth_error_Some; congruence).
    lia.
Qed.

(** What [_SetProfile] does, by the outcome of the scan. *)
Lemma SetProfile_run (profile : list point) (self : BasicProfile2D.t) :
  BasicProfile2D._SetProfile profile self =
  match BasicProfile2D.nose_scan profile 0 with
  | Ok i => (BasicProfile2D.mk (Some profile) (Some i), Ok tt)
  | Raise e =>
      (BasicProfile2D.mk (Some profile) (BasicProfile2D.noseindex self), Raise e)
  end.
Proof.
  unfold BasicProfile2D._SetProfile, bind, lift, modify,
    BasicProfile2D.set_data, BasicProfile2D.set_noseindex; simpl.
  destruct (BasicProfile2D.nose_scan profile 0); reflexivity.
Qed.

Lemma BasicProfile2D_new_run (profile : list point) :
  BasicProfile2D.new profile =
  match BasicProfile2D.nose_scan profile 0 with
  | Ok i => Ok (BasicProfile2D.mk (Some profile) (Some i))
  | Raise e => Raise e
  end.
Proof.
  unfold BasicProfile2D.new, exec, BasicProfile2D.__init__.
  rewrite SetProfile_run.
  destruct (BasicProfile2D.nose_scan profile 0); reflexivity.
Qed.

Lemma Profile2D_new_scan_raises (header : option string) (profile : list point)
    (name : string) (e : exn) :
  profile <> [] ->
  BasicProfile2D.nose_scan profile 0 = Raise e ->
  Profile2D.new header profile name = Raise e.
Proof.
  intros Hne Hscan.
  unfold Profile2D.new, exec, Profile2D.__init__.
  unfold bind at 1. unfold Profile2D.set_Name at 1, modify at 1.
  destruct profile as [|p rest]; [congruence|].
  assert (Hnew : BasicProfile2D.new (p :: rest) = Raise e)
    by (rewrite BasicProfile2D_new_run, Hscan; reflexivity).
  destruct header; unfold bind, lift, ret, Profile2D.set_Name, modify;
    rewrite Hnew; reflexivity.
Qed.

(** C10.  On a list of at least two points: if [i] is the first index whose
    successor does not have a smaller abscissa, the scan of [_SetProfile]
    stays inside the list and [noseindex] becomes [i]; if the abscissas fall
    along the whole list, the scan reads [profile[len(profile)]] and raises
    IndexError, [data] being already assigned, and neither a BasicProfile2D
    nor a Profile2D can be built from the list. *)
Theorem SetProfile_nose_scan (profile : list point) (self : BasicProfile2D.t) :
  (2 <= length profile)%nat ->
  (forall i : nat,
      (i + 1 < length profile)%nat ->
      xcoord profile (i + 1) >= xcoord profile i ->
      (forall j, (j < i)%nat -> xcoord profile (j + 1) < xcoord profile j) ->
      BasicProfile2D.nose_scan profile 0 = Ok i /\
      BasicProfile2D._SetProfile profile self =
        (BasicProfile2D.mk (Some profile) (Some i), Ok tt))
  /\
  ((forall j, (j + 1 < length profile)%nat ->
              xcoord profile (j + 1) < xcoord profile j) ->
   BasicProfile2D.nose_scan profile 0 = Raise (IndexError (length profile)) /\
   BasicProfile2D._SetProfile profile self =
     (BasicProfile2D.mk (Some profile) (BasicProfile2D.noseindex self),
      Raise (IndexError (length profile))) /\
   BasicProfile2D.new profile = Raise (IndexError (length profile)) /\
   forall header name,
     Profile2D.new header profile name = Raise (IndexError (length profile))).
Proof.
  intros Hlen. split.
  - intros i Hi Hx Hmin.
    pose proof (nose_scan_first_rise profile i Hi Hx Hmin) as Hscan.
    split; [exact Hscan|].
    rewrite SetProfile_run, Hscan. reflexivity.
  - intros Hall.
    assert (Hscan : BasicProfile2D.nose_scan profile 0
                    = Raise (IndexError (length profile)))
      by (apply nose_scan_all_fall; [lia | exact Hall]).
    repeat split.
    + exact Hscan.
    + rewrite SetProfile_run, Hscan. reflexivity.
    + rewrite BasicProfile2D_new_run, Hscan. reflexivity.
    + intros header name. apply Profile2D_new_scan_raises; [|exact Hscan].
      destruct profile; [simpl in Hlen; lia | discriminate].
Qed.

(** The theorem at a list with a nose and at a list that only falls. *)
Lemma SetProfile_nose_scan_witness :
  BasicProfile2D.nose_scan [(1, 0); (0, 0); (1, 0)] 0 = Ok 1%nat /\
  BasicProfile2D.nose_scan [(1, 0); (0, 0)] 0 = Raise (IndexError 2).
Proof.
  split.
  - refine (proj1 (proj1 (SetProfile_nose_scan [(1, 0); (0, 0); (1, 0)]
                            BasicProfile2D.blank _) 1%nat _ _ _)).
    + simpl; lia.
    + simpl; lia.
    + unfold xcoord; simpl; lra.
    + intros j Hj. assert (j = 0%nat) as -> by lia. unfold xcoord; simpl; lra.
  - refine (proj1 (proj2 (SetProfile_nose_scan [(1, 0); (0, 0)]
                            BasicProfile2D.blank _) _)).
    + simpl; lia.
    + intros j Hj. simpl in Hj. assert (j = 0%nat) as -> by lia.
      unfold xcoord; simpl; lra.
Defined.

(* ================================================================== *)
(** * Rib: the two angles of attack                                    *)
(* ================================================================== *)

(** C4.  The rib stores one angle and a flag; a setter stores its argument
    with its own flag; reading the representation that is not stored adds
    or subtracts [atan(cos(arcang)/glide)]; and the conversions round-trip
    in both directions. *)
Theorem aoa_duality (self : Rib.t) (a : R) :
  0 < Rib.glide self ->
  let diff := atan (cos (Rib.arcang self) / Rib.glide self) in
  Rib._aoa (Rib.set_aoa_relative a self) = (a, true) /\
  Rib._aoa (Rib.set_aoa_absolute a self) = (a, false) /\
  Rib.aoa_absolute self = Rib.aoa_relative self - diff /\
  Rib.aoa_relative self = Rib.aoa_absolute self + diff /\
  Rib.aoa_relative (Rib.set_aoa_relative a self) = a /\
  Rib.aoa_absolute (Rib.set_aoa_absolute a self) = a /\
  Rib.aoa_absolute (Rib.set_aoa_relative a self) = a - diff /\
  Rib.aoa_relative (Rib.set_aoa_absolute a self) = a + diff /\
  Rib.aoa_relative
    (Rib.set_aoa_absolute (Rib.aoa_absolute (Rib.set_aoa_relative a self)) self) = a /\
  Rib.aoa_absolute
    (Rib.set_aoa_relative (Rib.aoa_relative (Rib.set_aoa_absolute a self)) self) = a.
Proof.
  intros _ diff.
  unfold Rib.aoa_absolute, Rib.aoa_relative, Rib.__aoa_diff.
  destruct self as [n p g [angle flag] arc z ps c]; simpl in *.
  subst diff; simpl.
  repeat split; try reflexivity; try (destruct flag; simpl; lra); lra.
Qed.

Lemma aoa_duality_witness :
  Rib.aoa_relative
    (Rib.set_aoa_absolute
       (Rib.aoa_absolute (Rib.set_aoa_relative 1 flat_rib)) flat_rib) = 1.
Proof.
  assert (H : 0 < Rib.glide flat_rib) by (simpl; lra).
  exact (proj1 (proj2 (proj2 (proj2 (proj2 (proj2 (proj2 (proj2 (proj2
          (aoa_duality flat_rib 1 H)))))))))).
Defined.

(* ================================================================== *)
(** * MiniRib                                                          *)
(* ================================================================== *)

Lemma py_min_Rmin (a b : R) : py_min a b = Rmin a b.
Proof.
  unfold py_min, Rltb, Rmin.
  destruct (Rlt_dec b a), (Rle_dec a b); lra.
Qed.

Lemma py_max_Rmax (a b : R) : py_max a b = Rmax a b.
Proof.
  unfold py_max, Rltb, Rmax.
  destruct (Rlt_dec a b), (Rle_dec a b); lra.
Qed.

Lemma clamp_bounds (v : R) : 0 <= py_min 1 (py_max 0 v) <= 1.
Proof.
  rewrite py_min_Rmin, py_max_Rmax.
  unfold Rmin, Rmax.
  destruct (Rle_dec 0 v); destruct (Rle_dec 1 _); lra.
Qed.

(** C8.  With [0 <= front_cut <= back_cut <= 1]: inside the window
    [front_cut <= |x| <= back_cut], [function(x)] is the value of the
    underlying curve at [|x|] clamped into [0, 1], hence in [0, 1]; outside
    of the window it is exactly [1]. *)
Theorem minirib_function (self : MiniRib.t) (x : R) :
  0 <= MiniRib.front_cut self ->
  MiniRib.front_cut self <= MiniRib.back_cut self ->
  MiniRib.back_cut self <= 1 ->
  (MiniRib.front_cut self <= Rabs x <= MiniRib.back_cut self ->
   MiniRib.function self x
     = Rmin 1 (Rmax 0 (MiniRib.__function__ self (Rabs x))) /\
   0 <= MiniRib.function self x <= 1)
  /\
  (~ (MiniRib.front_cut self <= Rabs x <= MiniRib.back_cut self) ->
   MiniRib.function self x = 1).
Proof.
  intros _ _ _. unfold MiniRib.function. split.
  - intros [Hf Hb].
    rewrite (Rleb_true _ _ Hf), (Rleb_true _ _ Hb). simpl.
    split; [rewrite py_min_Rmin, py_max_Rmax; reflexivity | apply clamp_bounds].
  - intros Hout. unfold Rleb.
    destruct (Rle_dec (MiniRib.front_cut self) (Rabs x));
      destruct (Rle_dec (Rabs x) (MiniRib.back_cut self)); simpl;
      try reflexivity.
    exfalso. apply Hout. split; assumption.
Qed.

Lemma minirib_function_witness :
  MiniRib.function (MiniRib.__init__ (1 / 2) (1 / 4) (3 / 4) (fun x => 2 * x)) (1 / 2) = 1 /\
  MiniRib.function (MiniRib.__init__ (1 / 2) (1 / 4) (3 / 4) (fun x => 2 * x)) (- 1 / 8) = 1.
Proof.
  pose (m := MiniRib.__init__ (1 / 2) (1 / 4) (3 / 4) (fun x => 2 * x)).
  assert (H0 : 0 <= MiniRib.front_cut m) by (simpl; lra).
  assert (H1 : MiniRib.front_cut m <= MiniRib.back_cut m) by (simpl; lra).
  assert (H2 : MiniRib.back_cut m <= 1) by (simpl; lra).
  split.
  - destruct (minirib_function m (1 / 2) H0 H1 H2) as [Hin _].
    destruct Hin as [Hv _].
    + simpl. rewrite Rabs_pos_eq by lra. lra.
    + fold m. rewrite Hv. simpl. rewrite Rabs_pos_eq by lra.
      unfold Rmin, Rmax.
      destruct (Rle_dec 0 (2 * (1 / 2))); destruct (Rle_dec 1 _); lra.
  - destruct (minirib_function m (- 1 / 8) H0 H1 H2) as [_ Hout].
    apply Hout. simpl.
    replace (- 1 / 8) with (- (1 / 8)) by lra.
    rewrite Rabs_Ropp, Rabs_pos_eq by lra. lra.
Defined.

(* ================================================================== *)
(** * Rib: the rotation matrix                                         *)
(* ================================================================== *)

(** An equation between tuples, component by component. *)
Ltac split_pairs :=
  repeat match goal with |- (_, _) = (_, _) => apply f_equal2 end.

(** An equation between two lists of points given by their elements. *)
Ltac points_eq :=
  repeat (apply f_equal2; [split_pairs; field |]); try reflexivity.

Lemma mvdot_mmdot (a b : matrix3) (v : vec3) :
  mvdot (mmdot a b) v = mvdot a (mvdot b v).
Proof.
  destruct a as [[[[a11 a12] a13] [[a21 a22] a23]] [[a31 a32] a33]].
  destruct b as [[[[b11 b12] b13] [[b21 b22] b23]] [[b31 b32] b33]].
  destruct v as [[v1 v2] v3].
  unfold mvdot, mmdot, vdot, row1, row2, row3, col1, col2, col3, vx, vy, vz; simpl.
  split_pairs; ring.
Qed.

Lemma mmdot_identity_l (m : matrix3) : mmdot identity3 m = m.
Proof.
  destruct m as [[[[a11 a12] a13] [[a21 a22] a23]] [[a31 a32] a33]].
  unfold mmdot, identity3, vdot, row1, row2, row3, col1, col2, col3, vx, vy, vz; simpl.
  split_pairs; ring.
Qed.

(** The rotation by the angle [0] is the identity, about any axis. *)
Lemma rotation_3d_zero (axis : vec3) : Model.rotation_3d 0 axis = identity3.
Proof.
  unfold Model.rotation_3d, identity3. rewrite cos_0, sin_0.
  split_pairs; ring.
Qed.

Lemma vnorm_spanwise : Model.vnorm (-1, 0, 0) = 1.
Proof.
  unfold Model.vnorm, vdot, vx, vy, vz; simpl.
  replace (-1 * -1 + 0 * 0 + 0 * 0) with 1 by ring. apply sqrt_1.
Qed.

Lemma vnorm_down : Model.vnorm (0, 0, -1) = 1.
Proof.
  unfold Model.vnorm, vdot, vx, vy, vz; simpl.
  replace (0 * 0 + 0 * 0 + -1 * -1) with 1 by ring. apply sqrt_1.
Qed.

(** The quarter turn that sets the rib upright. *)
Lemma rotation_3d_upright :
  Model.rotation_3d (PI / 2) (-1, 0, 0) = ((1, 0, 0), (0, 0, 1), (0, -1, 0)).
Proof.
  unfold Model.rotation_3d. rewrite vnorm_spanwise, cos_PI2, sin_PI2.
  unfold vx, vy, vz; simpl.
  split_pairs; field.
Qed.

(** The half turn about the axis [(0, 0, -1)]. *)
Lemma rotation_3d_half_turn :
  Model.rotation_3d PI (0, 0, -1) = ((-1, 0, 0), (0, -1, 0), (0, 0, 1)).
Proof.
  unfold Model.rotation_3d. rewrite vnorm_down, cos_PI, sin_PI.
  unfold vx, vy, vz; simpl.
  split_pairs; field.
Qed.

(** C2, as the code has it.  For a nonzero glide ratio the rotation matrix
    of a rib is the composition of three successive rotations: by
    [pi/2 - arcang] about [(-1, 0, 0)], the chordwise axis negated; by
    [aoa_absolute] about the vertical axis as the first rotation has left
    it; and by [atan(arcang) / glide * zrot] about the spanwise axis as the
    first two have left it.  Applied to a vector, the three act in that
    order. *)
Theorem rotation_matrix_composition (rotation_3d : R -> vec3 -> matrix3)
    (self : Rib.t) :
  Rib.glide self <> 0 ->
  let angle_c := atan (Rib.arcang self) / Rib.glide self * Rib.zrot self in
  (-1, 0, 0) = vscale chordwise_axis (-1) /\
  Rib.rotation_matrix rotation_3d self
    = rotations_about rotation_3d (-1, 0, 0) vertical_axis spanwise_axis
        (PI / 2 - Rib.arcang self) (Rib.aoa_absolute self) angle_c
  /\
  forall v : vec3,
    let rot_a := rotation_3d (PI / 2 - Rib.arcang self) (-1, 0, 0) in
    let rot_b := rotation_3d (Rib.aoa_absolute self) (mvdot rot_a vertical_axis) in
    let rot_c := rotation_3d angle_c (mvdot rot_b (mvdot rot_a spanwise_axis)) in
    mvdot (Rib.rotation_matrix rotation_3d self) v
      = mvdot rot_c (mvdot rot_b (mvdot rot_a v)).
Proof.
  intros _ angle_c.
  assert (Heq : Rib.rotation_matrix rotation_3d self
                = rotations_about rotation_3d (-1, 0, 0) vertical_axis spanwise_axis
                    (PI / 2 - Rib.arcang self) (Rib.aoa_absolute self) angle_c).
  { unfold Rib.rotation_matrix, Rib.rotation_rib, rotations_about,
      vertical_axis, spanwise_axis.
    replace (- Rib.arcang self + PI / 2) with (PI / 2 - Rib.arcang self) by lra.
    reflexivity. }
  split.
  { unfold vscale, chordwise_axis, vx, vy, vz; simpl. split_pairs; ring. }
  split; [exact Heq|].
  intros v rot_a rot_b rot_c. rewrite Heq.
  unfold rotations_about. fold rot_a. fold rot_b.
  rewrite !mvdot_mmdot. reflexivity.
Qed.

Lemma rotation_matrix_composition_witness :
  Rib.rotation_matrix Model.rotation_3d flat_rib
  = rotations_about Model.rotation_3d (-1, 0, 0) vertical_axis spanwise_axis
      (PI / 2 - Rib.arcang flat_rib) (Rib.aoa_absolute flat_rib)
      (atan (Rib.arcang flat_rib) / Rib.glide flat_rib * Rib.zrot flat_rib).
Proof.
  assert (H : Rib.glide flat_rib <> 0) by (simpl; lra).
  exact (proj1 (proj2 (rotation_matrix_composition Model.rotation_3d flat_rib H))).
Defined.

(** The matrix of the rib [flat_rib]: it only stands the rib upright. *)
Lemma rotation_matrix_flat_rib :
  Rib.rotation_matrix Model.rotation_3d flat_rib = ((1, 0, 0), (0, 0, 1), (0, -1, 0)).
Proof.
  unfold Rib.rotation_matrix, Rib.rotation_rib, Rib.aoa_absolute, flat_rib; simpl.
  rewrite atan_0.
  replace (0 / 1 * PI) with 0 by field.
  replace (- 0 + PI / 2) with (PI / 2) by lra.
  rewrite !rotation_3d_zero, !mmdot_identity_l.
  apply rotation_3d_upright.
Qed.

(** The matrix of the rib [level_rib], the same: it only stands the rib
    upright. *)
Lemma rotation_matrix_level_rib :
  Rib.rotation_matrix Model.rotation_3d level_rib = ((1, 0, 0), (0, 0, 1), (0, -1, 0)).
Proof.
  unfold Rib.rotation_matrix, Rib.rotation_rib, Rib.aoa_absolute, level_rib; simpl.
  rewrite atan_0.
  replace (0 / 1 * 0) with 0 by field.
  replace (- 0 + PI / 2) with (PI / 2) by lra.
  rewrite !rotation_3d_zero, !mmdot_identity_l.
  apply rotation_3d_upright.
Qed.

(** A quarter turn about a vector of the spanwise line, whichever way it
    points, takes the chord off the x-axis. *)
Lemma rotation_3d_quarter_spanwise (k : R) :
  vx (row1 (Model.rotation_3d (PI / 2) (0, k, 0))) = 0.
Proof.
  unfold Model.rotation_3d, row1, vx, vy, vz; simpl. rewrite cos_PI2.
  unfold Rdiv. ring.
Qed.

(** C2, as the claim has it, fails, in the axes and in the third angle.
    On [level_rib], where all three angles of the rib are 0, the claim's
    first rotation is a quarter turn about the spanwise axis, which sends
    the chord to the vertical, whichever way the axis points, while the
    code turns about the chord and leaves it where it is.  On [flat_rib]
    (arc angle 0, twist coefficient pi) the third rotation of the claim is
    a half turn, also when it is taken about the axes of the code, while
    the code rotates by [atan(0) / glide * pi = 0]. *)
Lemma rotation_matrix_claim_counterexample :
  Rib.rotation_matrix Model.rotation_3d level_rib
  <> successive_rotations Model.rotation_3d
       (PI / 2 - Rib.arcang level_rib) (Rib.aoa_absolute level_rib)
       (Rib.zrot level_rib)
  /\
  (forall k : R,
     Rib.rotation_matrix Model.rotation_3d level_rib
     <> rotations_about Model.rotation_3d (0, k, 0) vertical_axis chordwise_axis
          (PI / 2 - Rib.arcang level_rib) (Rib.aoa_absolute level_rib)
          (Rib.zrot level_rib))
  /\
  Rib.rotation_matrix Model.rotation_3d flat_rib
  <> rotations_about Model.rotation_3d (-1, 0, 0) vertical_axis spanwise_axis
       (PI / 2 - Rib.arcang flat_rib) (Rib.aoa_absolute flat_rib)
       (Rib.zrot flat_rib).
Proof.
  assert (Haxes : forall k : R,
     Rib.rotation_matrix Model.rotation_3d level_rib
     <> rotations_about Model.rotation_3d (0, k, 0) vertical_axis chordwise_axis
          (PI / 2 - Rib.arcang level_rib) (Rib.aoa_absolute level_rib)
          (Rib.zrot level_rib)).
  { intros k. rewrite rotation_matrix_level_rib.
    unfold rotations_about, Rib.aoa_absolute, level_rib; simpl.
    replace (PI / 2 - 0) with (PI / 2) by lra.
    rewrite !rotation_3d_zero, !mmdot_identity_l.
    intros H. pose proof (rotation_3d_quarter_spanwise k) as Hq.
    rewrite <- H in Hq. unfold row1, vx in Hq; simpl in Hq. lra. }
  split; [exact (Haxes 1)|]. split; [exact Haxes|].
  rewrite rotation_matrix_flat_rib.
  unfold rotations_about, vertical_axis, spanwise_axis, Rib.aoa_absolute, flat_rib;
    simpl.
  replace (PI / 2 - 0) with (PI / 2) by lra.
  rewrite rotation_3d_zero, mmdot_identity_l, rotation_3d_upright.
  replace (mvdot (1, 0, 0, (0, 0, 1), (0, -1, 0)) (0, 1, 0)) with ((0, 0, -1) : vec3).
  2:{ unfold mvdot, vdot, row1, row2, row3, vx, vy, vz; simpl.
      split_pairs; ring. }
  rewrite rotation_3d_half_turn.
  unfold mmdot, vdot, row1, row2, row3, col1, col2, col3, vx, vy, vz; simpl.
  intros H. injection H as H _. lra.
Qed.

(* ================================================================== *)
(** * Rib: the profile in space                                        *)
(* ================================================================== *)

Lemma mapM_total {A B : Type} (f : A -> result B) (g : A -> B) (l : list A) :
  (forall a, In a l -> f a = Ok (g a)) -> mapM f l = Ok (map g l).
Proof.
  induction l as [|a l IH]; intros H; simpl.
  - reflexivity.
  - rewrite (H a) by (left; reflexivity). simpl.
    rewrite IH by (intros b Hb; apply H; right; exact Hb).
    reflexivity.
Qed.

Lemma mapM_length {A B : Type} (f : A -> result B) (l : list A) (r : list B) :
  mapM f l = Ok r -> length r = length l.
Proof.
  revert r. induction l as [|a l IH]; intros r; simpl.
  - intros H. injection H as <-. reflexivity.
  - destruct (f a) as [b|e]; simpl; [|discriminate].
    destruct (mapM f l) as [bs|e]; simpl; [|discriminate].
    intros H. injection H as <-. simpl. rewrite (IH bs); reflexivity.
Qed.



(* ================================================================== *)
(** * Profile2D: running the setters                                   *)
(* ================================================================== *)

Section ProfileFacts.

Context {Position : Type}.
Variable Point : list point -> R -> R -> result (Position * point).
Variable str : R -> string.

(** [self.Profile = profile] on a Profile2D. *)
Lemma Profile2D_SetProfile_run (profile : list point) (self : Profile2D.t) :
  Profile2D._SetProfile profile self =
  match BasicProfile2D.nose_scan profile 0 with
  | Ok i =>
      (Profile2D.mk (Profile2D.Name self)
         (BasicProfile2D.mk (Some profile) (Some i)) (Profile2D._rootprof self),
       Ok tt)
  | Raise e =>
      (Profile2D.mk (Profile2D.Name self)
         (BasicProfile2D.mk (Some profile) (Profile2D.noseindex self))
         (Profile2D._rootprof self),
       Raise e)
  end.
Proof.
  unfold Profile2D._SetProfile, Profile2D.super. rewrite SetProfile_run.
  destruct (BasicProfile2D.nose_scan profile 0); reflexivity.
Qed.

(** [self.XValues = xval], when the root profile could be resampled. *)
Lemma SetXValues_run (xval : list R) (self : Profile2D.t)
    (root : BasicProfile2D.t) (pts : list (Position * point)) :
  Profile2D._rootprof self = Some root ->
  BasicProfile2D.Points Point root xval = Ok pts ->
  pts <> [] ->
  Profile2D._SetXValues Point xval self = Profile2D._SetProfile (map snd pts) self.
Proof.
  intros Hroot Hpts Hne.
  unfold Profile2D._SetXValues, Profile2D.rootprof_call.
  unfold bind at 1. rewrite Hroot, Hpts.
  unfold bind at 1, lift, column1.
  destruct pts as [|q pts]; [congruence|].
  destruct self as [n b r]; simpl in *. subst r. reflexivity.
Qed.

(** The setter never assigns [_rootprof]. *)
Lemma SetXValues_keeps_root (xval : list R) (self : Profile2D.t) :
  Profile2D._rootprof (fst (Profile2D._SetXValues Point xval self))
  = Profile2D._rootprof self.
Proof.
  unfold Profile2D._SetXValues, Profile2D.rootprof_call, bind, lift.
  destruct (Profile2D._rootprof self) as [root|] eqn:Hroot; [|exact Hroot].
  destruct (BasicProfile2D.Points Point root xval) as [pts|e]; [|reflexivity].
  destruct (column1 pts) as [col|e]; [|reflexivity].
  rewrite Profile2D_SetProfile_run.
  destruct (BasicProfile2D.nose_scan col 0); reflexivity.
Qed.

Lemma SetProfile_data (profile : list point) (self : Profile2D.t) :
  Profile2D.data (fst (Profile2D._SetProfile profile self)) = Some profile.
Proof.
  rewrite Profile2D_SetProfile_run.
  destruct (BasicProfile2D.nose_scan profile 0); reflexivity.
Qed.

(** C1.  For a Profile2D with a root profile and an x-distribution [D2]
    that the root profile can be resampled at: assigning [XValues = D1] and
    then [XValues = D2] leaves the same [data] as assigning [XValues = D2]
    at once, namely the points of the root profile at [D2], whatever [D1]
    was and whatever [data] was before; the root profile is never assigned
    by the setter; and if the nose scan of the new points succeeds the two
    objects are equal altogether. *)
Theorem XValues_resamples_from_root (self : Profile2D.t)
    (root : BasicProfile2D.t) (D1 D2 : list R) (pts : list (Position * point)) :
  Profile2D._rootprof self = Some root ->
  BasicProfile2D.Points Point root D2 = Ok pts ->
  pts <> [] ->
  let after_D1 := fst (Profile2D._SetXValues Point D1 self) in
  let after_D1_D2 := fst (Profile2D._SetXValues Point D2 after_D1) in
  let after_D2 := fst (Profile2D._SetXValues Point D2 self) in
  Profile2D._rootprof after_D1 = Some root /\
  Profile2D.data after_D2 = Some (map snd pts) /\
  Profile2D.data after_D1_D2 = Profile2D.data after_D2 /\
  (forall i, BasicProfile2D.nose_scan (map snd pts) 0 = Ok i ->
             after_D1_D2 = after_D2).
Proof.
  intros Hroot Hpts Hne after_D1 after_D1_D2 after_D2.
  assert (Hroot1 : Profile2D._rootprof after_D1 = Some root)
    by (unfold after_D1; rewrite SetXValues_keeps_root; exact Hroot).
  assert (Hname1 : Profile2D.Name after_D1 = Profile2D.Name self).
  { unfold after_D1, Profile2D._SetXValues, Profile2D.rootprof_call, bind, lift.
    rewrite Hroot.
    destruct (BasicProfile2D.Points Point root D1) as [pts1|e]; [|reflexivity].
    destruct (column1 pts1) as [col|e]; [|reflexivity].
    rewrite Profile2D_SetProfile_run.
    destruct (BasicProfile2D.nose_scan col 0); reflexivity. }
  unfold after_D1_D2, after_D2.
  rewrite (SetXValues_run D2 after_D1 root pts Hroot1 Hpts Hne).
  rewrite (SetXValues_run D2 self root pts Hroot Hpts Hne).
  repeat split.
  - exact Hroot1.
  - apply SetProfile_data.
  - rewrite !SetProfile_data. reflexivity.
  - intros i Hi. rewrite !Profile2D_SetProfile_run, Hi. simpl.
    rewrite Hroot1, Hroot, Hname1. reflexivity.
Qed.

End ProfileFacts.

(* ================================================================== *)
(** * Normalize                                                        *)
(* ================================================================== *)

Lemma sumsq_nonneg (v : point) : 0 <= sumsq v.
Proof. unfold sumsq. nra. Qed.

Lemma norm_sumsq (v : point) : Vector.norm v = sqrt (sumsq v).
Proof. reflexivity. Qed.

Lemma norm_nonneg (v : point) : 0 <= Vector.norm v.
Proof. apply sqrt_pos. Qed.

Lemma norm_square (v : point) : Vector.norm v * Vector.norm v = sumsq v.
Proof. rewrite norm_sumsq. apply sqrt_sqrt, sumsq_nonneg. Qed.

Lemma norm_value (v : point) (r : R) : 0 <= r -> sumsq v = r * r -> Vector.norm v = r.
Proof. intros Hr H. rewrite norm_sumsq, H. apply sqrt_square, Hr. Qed.

Lemma norm_lt (a b : point) : sumsq a < sumsq b -> Vector.norm a < Vector.norm b.
Proof.
  intros H. rewrite !norm_sumsq. apply sqrt_lt_1; auto using sumsq_nonneg.
Qed.

Lemma norm_le (a b : point) : sumsq a <= sumsq b -> Vector.norm a <= Vector.norm b.
Proof.
  intros H. rewrite !norm_sumsq. apply sqrt_le_1; auto using sumsq_nonneg.
Qed.

Lemma norm_pos (a : point) : 0 < sumsq a -> 0 < Vector.norm a.
Proof. intros H. rewrite norm_sumsq. apply sqrt_lt_R0, H. Qed.

Lemma farthest_fold (p1 : point) (pts : list point) :
  BasicProfile2D.farthest p1 pts = fold_left (farthest_step p1) pts (0, None).
Proof. reflexivity. Qed.

(** Points that are not farther than the running maximum change nothing. *)
Lemma farthest_keep (p1 : point) (pts : list point) (acc : R * option point) :
  (forall p, In p pts -> Vector.norm (psub p p1) <= fst acc) ->
  fold_left (farthest_step p1) pts acc = acc.
Proof.
  revert acc. induction pts as [|p pts IH]; intros acc H; simpl.
  - reflexivity.
  - assert (Hp : farthest_step p1 acc p = acc).
    { unfold farthest_step. rewrite Rltb_false; [reflexivity|].
      specialize (H p (or_introl eq_refl)). lra. }
    rewrite Hp. apply IH. intros q Hq. apply H. right. exact Hq.
Qed.

(** Points that are nearer than [bound] leave the maximum below [bound]. *)
Lemma farthest_below (p1 : point) (bound : R) (pts : list point)
    (acc : R * option point) :
  fst acc < bound ->
  (forall p, In p pts -> Vector.norm (psub p p1) < bound) ->
  fst (fold_left (farthest_step p1) pts acc) < bound.
Proof.
  revert acc. induction pts as [|p pts IH]; intros acc Hacc H; simpl.
  - exact Hacc.
  - apply IH.
    + unfold farthest_step.
      destruct (Rltb (fst acc) (Vector.norm (psub p p1))); simpl; [|exact Hacc].
      apply H. left. reflexivity.
    + intros q Hq. apply H. right. exact Hq.
Qed.

(** The loop returns the first point that is at the largest distance. *)
Lemma farthest_first_max (p1 nose : point) (before after : list point) :
  0 < Vector.norm (psub nose p1) ->
  (forall p, In p before -> Vector.norm (psub p p1) < Vector.norm (psub nose p1)) ->
  (forall p, In p after -> Vector.norm (psub p p1) <= Vector.norm (psub nose p1)) ->
  BasicProfile2D.farthest p1 (before ++ nose :: after)
  = (Vector.norm (psub nose p1), Some nose).
Proof.
  intros Hpos Hbefore Hafter.
  rewrite farthest_fold, fold_left_app. simpl.
  assert (Hlt : fst (fold_left (farthest_step p1) before (0, None))
                < Vector.norm (psub nose p1))
    by (apply farthest_below; [exact Hpos | exact Hbefore]).
  unfold farthest_step at 2. rewrite (Rltb_true _ _ Hlt).
  apply farthest_keep. exact Hafter.
Qed.

(** The same, with the distances compared by their squares. *)
Lemma farthest_first_max_sq (p1 nose : point) (before after : list point)
    (dmax : R) :
  Vector.norm (psub nose p1) = dmax ->
  0 < dmax ->
  (forall p, In p before -> sumsq (psub p p1) < sumsq (psub nose p1)) ->
  (forall p, In p after -> sumsq (psub p p1) <= sumsq (psub nose p1)) ->
  BasicProfile2D.farthest p1 (before ++ nose :: after) = (dmax, Some nose).
Proof.
  intros Hn Hpos Hbefore Hafter. rewrite <- Hn.
  apply farthest_first_max.
  - rewrite Hn. exact Hpos.
  - intros p Hp. apply norm_lt, Hbefore, Hp.
  - intros p Hp. apply norm_le, Hafter, Hp.
Qed.

(** What the loop returns, in general. *)
Lemma farthest_inv (p1 : point) (pts : list point) (acc : R * option point) :
  (match snd acc with
   | None => fst acc = 0
   | Some n => fst acc = Vector.norm (psub n p1) /\ 0 < fst acc
   end) ->
  let r := fold_left (farthest_step p1) pts acc in
  fst acc <= fst r /\
  (forall p, In p pts -> Vector.norm (psub p p1) <= fst r) /\
  match snd r with
  | None => fst r = 0 /\ snd acc = None
  | Some n => fst r = Vector.norm (psub n p1) /\ 0 < fst r /\
              (In n pts \/ snd acc = Some n)
  end.
Proof.
  revert acc. induction pts as [|p pts IH]; intros acc Hacc; simpl.
  - split; [lra|]. split; [intros p []|].
    destruct (snd acc) as [n|]; intuition.
  - set (acc' := farthest_step p1 acc p).
    assert (Hstep : fst acc <= fst acc' /\ Vector.norm (psub p p1) <= fst acc' /\
                    match snd acc' with
                    | None => fst acc' = 0 /\ snd acc = None
                    | Some n => fst acc' = Vector.norm (psub n p1) /\ 0 < fst acc' /\
                                (n = p \/ snd acc = Some n)
                    end).
    { unfold acc', farthest_step, Rltb.
      destruct (Rlt_dec (fst acc) (Vector.norm (psub p p1))) as [Hlt|Hge]; simpl.
      - split; [lra|]. split; [lra|]. split; [reflexivity|].
        split; [|left; reflexivity].
        destruct (snd acc); lra.
      - split; [lra|]. split; [lra|].
        destruct (snd acc) as [n|]; intuition. }
    destruct Hstep as (H1 & H2 & H3).
    assert (Hacc' : match snd acc' with
                    | None => fst acc' = 0
                    | Some n => fst acc' = Vector.norm (psub n p1) /\ 0 < fst acc'
                    end)
      by (destruct (snd acc'); intuition).
    specialize (IH acc' Hacc'). simpl in IH.
    destruct IH as (I1 & I2 & I3).
    split; [lra|]. split.
    + intros q [<-|Hq]; [lra | apply I2, Hq].
    + destruct (snd (fold_left (farthest_step p1) pts acc')) as [n|].
      * destruct I3 as (J1 & J2 & J3). split; [exact J1|]. split; [exact J2|].
        destruct J3 as [J3|J3]; [left; right; exact J3|].
        rewrite J3 in H3. destruct H3 as (_ & _ & [->|H3]);
          [left; left; reflexivity | right; exact H3].
      * destruct I3 as (J1 & J2). split; [exact J1|].
        rewrite J2 in H3. apply H3.
Qed.

(** [Normalize] on data whose farthest point is known. *)
Lemma Normalize_run (self : BasicProfile2D.t) (p1 nose : point)
    (rest : list point) (dmax : R) :
  BasicProfile2D.data self = Some (p1 :: rest) ->
  BasicProfile2D.farthest p1 (p1 :: rest) = (dmax, Some nose) ->
  BasicProfile2D.Normalize self =
  (BasicProfile2D.mk
     (Some (map (fun i => mdot (normalizing_matrix p1 nose dmax) (psub i nose))
                (p1 :: rest)))
     (BasicProfile2D.noseindex self),
   Ok tt).
Proof.
  intros Hdata Hfar.
  unfold BasicProfile2D.Normalize, BasicProfile2D.get_data, bind.
  rewrite Hdata. cbn [getattr lift getitem nth_error].
  rewrite Hfar. reflexivity.
Qed.

(** The matrix, once the sine and the cosine are known. *)
Lemma normalizing_matrix_value (first nose : point) (dmax s c : R) :
  s = - ((py first - py nose) / dmax) ->
  0 <= c ->
  c * c = 1 - s * s ->
  normalizing_matrix first nose dmax
  = ((c / dmax, - s / dmax), (s / dmax, c / dmax)).
Proof.
  intros Hs Hc Hcc.
  unfold normalizing_matrix, mdiv, pdiv, pdot, psub, px, py; simpl.
  replace ((fst first - fst nose) / dmax * 0 + (snd first - snd nose) / dmax * -1)
    with s by (rewrite Hs; unfold py; lra).
  replace (1 - s * (s * 1)) with (c * c) by (rewrite Hcc; ring).
  rewrite sqrt_square by exact Hc. reflexivity.
Qed.

Lemma sumsq_psub_sym (a b : point) : sumsq (psub a b) = sumsq (psub b a).
Proof. unfold sumsq, psub, px, py; simpl. ring. Qed.

(** The image of the first point under the matrix of [Normalize]. *)
Lemma normalized_first_point (p1 nose : point) :
  let dmax := Vector.norm (psub nose p1) in
  let m := normalizing_matrix p1 nose dmax in
  0 < dmax ->
  m = ((Rabs (px p1 - px nose) / dmax / dmax, - - ((py p1 - py nose) / dmax) / dmax),
       (- ((py p1 - py nose) / dmax) / dmax, Rabs (px p1 - px nose) / dmax / dmax)) /\
  Vector.norm (mdot m (psub p1 nose)) = 1 /\
  (px nose <= px p1 -> mdot m (psub p1 nose) = (1, 0)).
Proof.
  intros dmax m Hpos.
  assert (Hsq : dmax * dmax
                = (px p1 - px nose) * (px p1 - px nose)
                  + (py p1 - py nose) * (py p1 - py nose)).
  { unfold dmax. rewrite norm_square, sumsq_psub_sym.
    unfold sumsq, psub, px, py; simpl. ring. }
  set (dx := px p1 - px nose) in *. set (dy := py p1 - py nose) in *.
  assert (Habs : Rabs dx * Rabs dx = dx * dx).
  { unfold Rabs. destruct (Rcase_abs dx); ring. }
  assert (Hm : m = ((Rabs dx / dmax / dmax, - - (dy / dmax) / dmax),
                    (- (dy / dmax) / dmax, Rabs dx / dmax / dmax))).
  { unfold m. apply normalizing_matrix_value.
    - reflexivity.
    - apply Rmult_le_pos; [apply Rabs_pos | left; apply Rinv_0_lt_compat, Hpos].
    - fold dy. replace (Rabs dx / dmax * (Rabs dx / dmax))
        with (Rabs dx * Rabs dx / (dmax * dmax)) by (field; lra).
      rewrite Habs.
      replace (dx * dx) with (dmax * dmax - dy * dy) by lra.
      field. lra. }
  split; [exact Hm|].
  assert (Hcoord : mdot m (psub p1 nose)
                   = ((Rabs dx * dx + dy * dy) / (dmax * dmax),
                      (Rabs dx * dy - dy * dx) / (dmax * dmax))).
  { rewrite Hm. unfold mdot, pdot, psub, px, py; simpl.
    fold (px p1) (px nose) (py p1) (py nose). fold dx dy.
    split_pairs; field; lra. }
  split.
  - apply norm_value; [lra|]. rewrite Hcoord. unfold sumsq, px, py; simpl.
    replace ((Rabs dx * dx + dy * dy) / (dmax * dmax)
             * ((Rabs dx * dx + dy * dy) / (dmax * dmax))
             + (Rabs dx * dy - dy * dx) / (dmax * dmax)
               * ((Rabs dx * dy - dy * dx) / (dmax * dmax)))
      with ((Rabs dx * Rabs dx + dy * dy) * (dx * dx + dy * dy)
            / ((dmax * dmax) * (dmax * dmax))) by (field; lra).
    rewrite Habs, <- Hsq. field. lra.
  - intros Hle. rewrite Hcoord.
    rewrite (Rabs_pos_eq dx) by (unfold dx; lra).
    split_pairs.
    + rewrite <- Hsq. field. lra.
    + field. lra.
Qed.

(** X28.  What [Normalize] does whenever some stored point differs from the
    first one: every point [p] becomes [M . (p - nose)], where [nose] is a stored
    point at the largest distance [dmax] from the first point and [M] is the
    matrix of the specification; the nose goes to the origin and the first
    point to distance 1 from it, and to [(1, 0)] if it does not lie to the
    left of the nose. *)
Lemma Normalize_affine (self : BasicProfile2D.t) (p1 : point) (rest : list point) :
  BasicProfile2D.data self = Some (p1 :: rest) ->
  (exists p, In p rest /\ 0 < Vector.norm (psub p p1)) ->
  exists (nose : point) (dmax : R),
    In nose (p1 :: rest) /\
    dmax = Vector.norm (psub nose p1) /\
    0 < dmax /\
    (forall p, In p (p1 :: rest) -> Vector.norm (psub p p1) <= dmax) /\
    let m := normalizing_matrix p1 nose dmax in
    BasicProfile2D.Normalize self
    = (BasicProfile2D.mk
         (Some (map (fun p => mdot m (psub p nose)) (p1 :: rest)))
         (BasicProfile2D.noseindex self),
       Ok tt) /\
    mdot m (psub nose nose) = (0, 0) /\
    Vector.norm (mdot m (psub p1 nose)) = 1 /\
    (px nose <= px p1 -> mdot m (psub p1 nose) = (1, 0)).
Proof.
  intros Hdata (q & Hq & Hqpos).
  pose proof (farthest_inv p1 (p1 :: rest) (0, None) eq_refl) as Hinv.
  rewrite <- farthest_fold in Hinv. simpl in Hinv.
  destruct (BasicProfile2D.farthest p1 (p1 :: rest)) as [dmax nose] eqn:Hfar.
  simpl in Hinv. destruct Hinv as (H0 & Hmax & Hnose).
  destruct nose as [nose|].
  - destruct Hnose as (Hd & Hpos & Hin).
    destruct Hin as [Hin|Hin]; [|discriminate].
    exists nose, dmax. split; [exact Hin|]. split; [exact Hd|].
    split; [exact Hpos|]. split; [exact Hmax|].
    intros m. split; [apply Normalize_run; assumption|].
    split.
    + unfold mdot, pdot, psub, px, py; simpl. split_pairs; ring.
    + unfold m. rewrite Hd. rewrite Hd in Hpos.
      apply (normalized_first_point p1 nose Hpos).
  - exfalso. destruct Hnose as (Hd & _).
    specialize (Hmax q (or_intror Hq)). lra.
Qed.

Lemma farthest_reversed_profile :
  BasicProfile2D.farthest (0, 0) reversed_profile = (1, Some (3 / 5, 4 / 5)).
Proof.
  assert (Hn : Vector.norm (psub (3 / 5, 4 / 5) (0, 0)) = 1).
  { apply norm_value; [lra|]. unfold sumsq, psub, px, py; simpl. field. }
  rewrite <- Hn.
  apply (farthest_first_max (0, 0) (3 / 5, 4 / 5) [(0, 0)] []).
  - rewrite Hn. lra.
  - intros p [<-|[]]. rewrite Hn.
    rewrite (norm_value (psub (0, 0) (0, 0)) 0); [lra | lra |].
    unfold sumsq, psub, px, py; simpl. ring.
  - intros p [].
Qed.

(** C3 at a profile listed from the leading edge to the trailing edge.  The
    profile is accepted by the constructor; [Normalize] sends the farthest
    point to the origin and the first point to [(7/25, -24/25)], at distance
    1 from the origin but not on the x-axis: the cosine is taken as the
    non-negative root [sqrt(1 - sin^2)], which is the cosine of the rotation
    onto [(1, 0)] only if the first point is not to the left of the nose. *)
Theorem Normalize_reversed_profile :
  BasicProfile2D.new reversed_profile
    = Ok (BasicProfile2D.mk (Some reversed_profile) (Some 0%nat)) /\
  BasicProfile2D.Normalize (BasicProfile2D.mk (Some reversed_profile) (Some 0%nat))
    = (BasicProfile2D.mk (Some [(7 / 25, - 24 / 25); (0, 0)]) (Some 0%nat), Ok tt) /\
  (7 / 25, - 24 / 25) <> ((1, 0) : point) /\
  py (7 / 25, - 24 / 25) <> 0.
Proof.
  split; [|split; [|split]].
  - rewrite BasicProfile2D_new_run.
    rewrite (nose_scan_stop reversed_profile 0).
    + reflexivity.
    + simpl; lia.
    + unfold xcoord, reversed_profile; simpl. lra.
  - rewrite (Normalize_run _ (0, 0) (3 / 5, 4 / 5) [(3 / 5, 4 / 5)] 1);
      [| reflexivity | exact farthest_reversed_profile].
    rewrite (normalizing_matrix_value (0, 0) (3 / 5, 4 / 5) 1 (4 / 5) (3 / 5)).
    + unfold mdot, pdot, psub, px, py; simpl.
      do 3 f_equal. points_eq.
    + simpl. field.
    + lra.
    + field.
  - intros H. injection H as H _. lra.
  - simpl. lra.
Qed.

(* ================================================================== *)
(** * Profile2D: the cosine distribution of [_SetLen]                  *)
(* ================================================================== *)

Lemma mapM_defined {A B : Type} (f : A -> result B) (l : list A) :
  (forall a, In a l -> exists b, f a = Ok b) -> exists bs, mapM f l = Ok bs.
Proof.
  induction l as [|a l IH]; intros H; simpl.
  - exists []. reflexivity.
  - destruct (H a (or_introl eq_refl)) as [b Hb]. rewrite Hb. simpl.
    destruct IH as [bs Hbs]; [intros c Hc; apply H; right; exact Hc|].
    rewrite Hbs. simpl. exists (b :: bs). reflexivity.
Qed.

Lemma range_succ_nth (m k : nat) :
  (k <= m)%nat -> nth k (range (Z.of_nat m + 1)) 0%Z = Z.of_nat k.
Proof.
  intros Hk. unfold range.
  replace (Z.to_nat (Z.of_nat m + 1)) with (S m) by lia.
  change 0%Z with (Z.of_nat 0). rewrite map_nth.
  rewrite seq_nth by lia. reflexivity.
Qed.

Lemma range_length (n : Z) : length (range n) = Z.to_nat n.
Proof. unfold range. rewrite length_map, length_seq. reflexivity. Qed.

Lemma In_range (n j : Z) : In j (range n) -> (0 <= j < n)%Z.
Proof.
  unfold range. intros H. apply in_map_iff in H. destruct H as (k & <- & Hk).
  apply in_seq in Hk. lia.
Qed.

(** [xtemp] is odd about the middle of the parameter interval. *)
Lemma xtemp_mirror (t : R) : Profile2D.xtemp (1 - t) = - Profile2D.xtemp t.
Proof.
  unfold Profile2D.xtemp.
  replace (PI * (1 - t)) with (PI - PI * t) by ring.
  rewrite sin_PI_x. unfold cmp, Rltb.
  destruct (Rlt_dec (1 - t) 0.5), (Rlt_dec 0.5 (1 - t)),
           (Rlt_dec t 0.5), (Rlt_dec 0.5 t); try lra.
Qed.

(** On the parameter interval [xtemp] stays between the two trailing
    edges [-1] and [1]. *)
Lemma xtemp_bounds (t : R) : 0 <= t <= 1 -> -1 <= Profile2D.xtemp t <= 1.
Proof.
  intros [H0 H1]. unfold Profile2D.xtemp.
  assert (Hs0 : 0 <= sin (PI * t)).
  { apply sin_ge_0; [pose proof PI_RGT_0; nra|].
    pose proof PI_RGT_0. nra. }
  pose proof (SIN_bound (PI * t)) as [_ Hs1].
  unfold cmp, Rltb.
  destruct (Rlt_dec t 0.5); [lra|]. destruct (Rlt_dec 0.5 t); lra.
Qed.

Lemma xtemp_ends :
  Profile2D.xtemp 0 = -1 /\ Profile2D.xtemp (1 / 2) = 0 /\ Profile2D.xtemp 1 = 1.
Proof.
  unfold Profile2D.xtemp, cmp. repeat split.
  - rewrite Rltb_true by lra. rewrite Rmult_0_r, sin_0. lra.
  - rewrite !Rltb_false by lra. ring.
  - rewrite Rltb_false, Rltb_true by lra. rewrite Rmult_1_r, sin_PI. lra.
Qed.

(** [num - num % 2] is [num] rounded down to an even number. *)
Lemma round_down_even (num : Z) :
  let i := (num - num mod 2)%Z in
  (i mod 2 = 0 /\ i <= num < i + 2)%Z.
Proof.
  intros i.
  pose proof (Z.mod_pos_bound num 2 ltac:(lia)) as Hb.
  pose proof (Z.div_mod num 2 ltac:(lia)) as Hd.
  assert (Hi : i = (num / 2 * 2)%Z) by (unfold i; lia).
  split; [rewrite Hi; apply Z_mod_mult | unfold i; lia].
Qed.

Section SetLenFacts.

Context {Position : Type}.
Variable Point : list point -> R -> R -> result (Position * point).

(** The x-values [_SetLen] hands to the setter of [XValues]. *)
Lemma SetLen_xvalues (i : Z) :
  i <> 0%Z ->
  mapM (fun j : Z => rbind (float_div (IZR j * 1) i)
                           (fun q => Ok (Profile2D.xtemp q)))
       (range (i + 1))
  = Ok (map (fun j : Z => Profile2D.xtemp (IZR j * 1 / IZR i)) (range (i + 1))).
Proof.
  intros Hi. apply mapM_total. intros j _.
  unfold float_div. apply Z.eqb_neq in Hi. rewrite Hi. reflexivity.
Qed.

Lemma SetLen_delegates (num : Z) (self : Profile2D.t) :
  (num - num mod 2 <> 0)%Z ->
  Profile2D._SetLen Point num self
  = Profile2D._SetXValues Point
      (map (fun j : Z => Profile2D.xtemp (IZR j * 1 / IZR (num - num mod 2)))
           (range (num - num mod 2 + 1)))
      self.
Proof.
  intros Hi. unfold Profile2D._SetLen.
  unfold bind at 1. unfold lift at 1.
  rewrite (SetLen_xvalues _ Hi). reflexivity.
Qed.

(** The number of points after [self.XValues = xval]. *)
Lemma SetXValues_count (xval : list R) (self : Profile2D.t)
    (root : BasicProfile2D.t) (pts : list (Position * point)) :
  xval <> [] ->
  Profile2D._rootprof self = Some root ->
  BasicProfile2D.Points Point root xval = Ok pts ->
  eval Profile2D._GetLen (fst (Profile2D._SetXValues Point xval self))
  = Ok (length xval).
Proof.
  intros Hne Hroot Hpts.
  assert (Hlen : length pts = length xval)
    by (unfold BasicProfile2D.Points in Hpts; apply (mapM_length _ _ _ Hpts)).
  assert (Hpne : pts <> [])
    by (destruct pts; [destruct xval; [congruence | discriminate] | discriminate]).
  rewrite (SetXValues_run Point xval self root pts Hroot Hpts Hpne).
  rewrite Profile2D_SetProfile_run.
  destruct (BasicProfile2D.nose_scan (map snd pts) 0); simpl;
    unfold eval, Profile2D._GetLen, bind, Profile2D.super,
      BasicProfile2D.get_data, ret; simpl;
    rewrite length_map, Hlen; reflexivity.
Qed.

(** The number of points after [self.Numpoints = num]. *)
Lemma SetLen_count (num : Z) (self : Profile2D.t)
    (root : BasicProfile2D.t) (pts : list (Position * point)) :
  (2 <= num)%Z ->
  Profile2D._rootprof self = Some root ->
  BasicProfile2D.Points Point root
    (map (fun j : Z => Profile2D.xtemp (IZR j * 1 / IZR (num - num mod 2)))
         (range (num - num mod 2 + 1))) = Ok pts ->
  eval Profile2D._GetLen (fst (Profile2D._SetLen Point num self))
  = Ok (Z.to_nat (num - num mod 2) + 1)%nat.
Proof.
  intros Hnum Hroot Hpts.
  pose proof (round_down_even num) as [Heven Hround].
  assert (Hi : (2 <= num - num mod 2)%Z).
  { destruct (Z.eq_dec (num - num mod 2) 1) as [H1|H1]; [|lia].
    rewrite H1 in Heven. discriminate. }
  rewrite SetLen_delegates by lia.
  rewrite (SetXValues_count _ self root pts); [| | exact Hroot | exact Hpts].
  - rewrite length_map, range_length. f_equal. lia.
  - intros Hnil. apply (f_equal (@length R)) in Hnil.
    rewrite length_map, range_length in Hnil. simpl in Hnil. lia.
Qed.

(** C6, as the code has it.  For [n >= 2], [Numpoints = n] rounds [n] down
    to the even number [i], hands the setter of [XValues] the values
    [x(j/i)] for [j = 0, ..., i] with [x(t) = cmp(t, 0.5) * (1 - sin(pi t))],
    a list of [i + 1] values that is odd about its middle (the value at
    [i - k] is the opposite of the value at [k]); and if the root profile
    can be resampled there, the profile has [i + 1] points afterwards. *)
Theorem SetLen_cosine_distribution (self : Profile2D.t) (num : Z) :
  (2 <= num)%Z ->
  let i := (num - num mod 2)%Z in
  let xvalues := map (fun j : Z => Profile2D.xtemp (IZR j * 1 / IZR i)) (range (i + 1)) in
  (i mod 2 = 0 /\ i <= num < i + 2)%Z /\
  Profile2D._SetLen Point num self = Profile2D._SetXValues Point xvalues self /\
  length xvalues = (Z.to_nat i + 1)%nat /\
  (forall k : nat, (k <= Z.to_nat i)%nat ->
     nth (Z.to_nat i - k) xvalues 0 = - nth k xvalues 0) /\
  (forall root pts,
     Profile2D._rootprof self = Some root ->
     BasicProfile2D.Points Point root xvalues = Ok pts ->
     eval Profile2D._GetLen (fst (Profile2D._SetLen Point num self))
     = Ok (Z.to_nat i + 1)%nat).
Proof.
  intros Hnum i xvalues.
  pose proof (round_down_even num) as [Heven Hround]. fold i in Heven, Hround.
  assert (Hi : (2 <= i)%Z).
  { destruct (Z.eq_dec i 1) as [H1|H1]; [|lia].
    rewrite H1 in Heven. discriminate. }
  split; [split; assumption|].
  split; [apply SetLen_delegates; fold i; lia|].
  split; [unfold xvalues; rewrite length_map, range_length; lia|].
  split.
  - intros k Hk. unfold xvalues.
    set (f := fun j : Z => Profile2D.xtemp (IZR j * 1 / IZR i)).
    assert (Hnth : forall m, (m <= Z.to_nat i)%nat ->
                     nth m (map f (range (i + 1))) 0 = f (Z.of_nat m)).
    { intros m Hm.
      rewrite (nth_indep _ 0 (f 0%Z))
        by (rewrite length_map, range_length; lia).
      rewrite map_nth. f_equal.
      replace i with (Z.of_nat (Z.to_nat i)) by lia.
      apply range_succ_nth. lia. }
    rewrite !Hnth by lia. unfold f.
    rewrite <- xtemp_mirror. f_equal.
    rewrite Nat2Z.inj_sub by lia. rewrite minus_IZR.
    replace (IZR (Z.of_nat (Z.to_nat i))) with (IZR i) by (f_equal; lia).
    field. apply not_0_IZR. lia.
  - intros root pts Hroot Hpts. apply (SetLen_count num self root pts); assumption.
Qed.

End SetLenFacts.

(* ================================================================== *)
(** * The profile [diamond] under the interpolation of the model        *)
(* ================================================================== *)

(** Deciding the comparisons of floats on given numbers. *)
Ltac Rtests :=
  repeat match goal with
    | |- context [Rltb ?a ?b] =>
        first [ rewrite (Rltb_true a b) by lra | rewrite (Rltb_false a b) by lra ]
    | |- context [Rleb ?a ?b] =>
        first [ rewrite (Rleb_true a b) by lra | rewrite (Rleb_false a b) by lra ]
    | |- context [Reqb ?a ?b] =>
        first [ rewrite (Reqb_true a b) by lra | rewrite (Reqb_false a b) by lra ]
    end.

(** Running the search of [Model.bracket] on given numbers. *)
Ltac run_bracket :=
  repeat (cbn [Model.bracket px py fst snd andb orb]; Rtests).

(** Between the trailing edges every x-value has a point on [diamond]. *)
Lemma diamond_Point_defined (x : R) :
  -1 <= x <= 1 -> exists r, Model.Point diamond x (-1) = Ok r.
Proof.
  intros [Hlo Hhi]. unfold Model.Point, diamond.
  rewrite Reqb_true by reflexivity.
  unfold Rltb. destruct (Rlt_dec x 0) as [Hneg|Hpos].
  - rewrite Rabs_left by exact Hneg.
    cbn [Model.bracket px py fst snd]. unfold Rleb.
    destruct (Rle_dec (1 / 4) (- x)); destruct (Rle_dec (- x) 1);
      cbn [andb]; try lra; eauto.
    destruct (Rle_dec 0 (- x)); destruct (Rle_dec (- x) (1 / 4));
      cbn [andb]; try lra; eauto.
  - rewrite Rabs_pos_eq by lra.
    cbn [Model.bracket px py fst snd]. unfold Rleb.
    destruct (Rle_dec 1 x); destruct (Rle_dec x (1 / 4));
      cbn [andb]; try lra;
      (destruct (Rle_dec (1 / 4) x); destruct (Rle_dec x 0);
       cbn [andb]; try lra;
       (destruct (Rle_dec 0 x); destruct (Rle_dec x (1 / 4));
        cbn [andb]; try lra; eauto;
        (destruct (Rle_dec x 1); cbn [andb]; try lra; eauto))).
Qed.

Lemma diamond_Points_defined (xvalues : list R) :
  (forall x, In x xvalues -> -1 <= x <= 1) ->
  exists pts, BasicProfile2D.Points Model.Point diamond_root xvalues = Ok pts.
Proof.
  intros H. unfold BasicProfile2D.Points. apply mapM_defined.
  intros x Hx. unfold BasicProfile2D.Point, diamond_root. simpl.
  apply diamond_Point_defined, H, Hx.
Qed.

Lemma XValues_resamples_from_root_witness :
  Profile2D.data
    (fst (Profile2D._SetXValues Model.Point [-1; 0; 1]
            (fst (Profile2D._SetXValues Model.Point [-1; 1] diamond_profile))))
  = Profile2D.data (fst (Profile2D._SetXValues Model.Point [-1; 0; 1] diamond_profile)).
Proof.
  destruct (diamond_Points_defined [-1; 0; 1]) as [pts Hpts].
  - intros x [<-|[<-|[<-|[]]]]; lra.
  - assert (Hne : pts <> []).
    { intros ->. apply mapM_length in Hpts. discriminate. }
    exact (proj1 (proj2 (proj2
             (XValues_resamples_from_root Model.Point diamond_profile diamond_root
                [-1; 1] [-1; 0; 1] pts eq_refl Hpts Hne)))).
Defined.

Lemma SetLen_cosine_distribution_witness :
  eval Profile2D._GetLen (fst (Profile2D._SetLen Model.Point 20 diamond_profile))
  = Ok 21%nat.
Proof.
  destruct (diamond_Points_defined
              (map (fun j : Z => Profile2D.xtemp (IZR j * 1 / IZR 20)) (range 21)))
    as [pts Hpts].
  - intros x Hx. apply in_map_iff in Hx. destruct Hx as (j & <- & Hj).
    apply In_range in Hj. apply xtemp_bounds.
    assert (0 <= IZR j <= 20) by (split; [apply IZR_le | apply (IZR_le j 20)]; lia).
    lra.
  - assert (Hnum : (2 <= 20)%Z) by lia.
    exact (proj2 (proj2 (proj2 (proj2
             (SetLen_cosine_distribution Model.Point diamond_profile 20 Hnum))))
             diamond_root pts eq_refl Hpts).
Defined.

(** C6, as the claim has it, fails: after [Numpoints = 20] the profile
    [diamond_profile] has 21 points, neither 20 nor 19. *)
Lemma SetLen_count_counterexample :
  ~ (eval Profile2D._GetLen (fst (Profile2D._SetLen Model.Point 20 diamond_profile))
     = Ok 20%nat \/
     eval Profile2D._GetLen (fst (Profile2D._SetLen Model.Point 20 diamond_profile))
     = Ok 19%nat).
Proof.
  destruct (diamond_Points_defined
              (map (fun j : Z => Profile2D.xtemp (IZR j * 1 / IZR 20)) (range 21)))
    as [pts Hpts].
  - intros x Hx. apply in_map_iff in Hx. destruct Hx as (j & <- & Hj).
    apply In_range in Hj. apply xtemp_bounds.
    assert (0 <= IZR j <= 20) by (split; [apply IZR_le | apply (IZR_le j 20)]; lia).
    lra.
  - rewrite (SetLen_count Model.Point 20 diamond_profile diamond_root pts);
      [| lia | reflexivity | exact Hpts].
    simpl. intros [H|H]; discriminate.
Qed.

(* ================================================================== *)
(** * Profile2D: construction                                          *)
(* ================================================================== *)

(** The scan looks at the abscissas only. *)
Lemma nose_scan_px (d d' : list point) :
  map px d = map px d' ->
  forall n i, (length d - i <= n)%nat ->
  BasicProfile2D.nose_scan d i = BasicProfile2D.nose_scan d' i.
Proof.
  intros Hpx.
  assert (Hlen : length d = length d')
    by (rewrite <- (length_map px d), Hpx, length_map; reflexivity).
  assert (Hnth : forall k, (k < length d)%nat ->
                   px (nth k d (0, 0)) = px (nth k d' (0, 0))).
  { intros k Hk. change (px (0, 0)) with 0.
    rewrite <- !(map_nth px). rewrite Hpx. reflexivity. }
  induction n as [|n IH]; intros i Hi.
  - rewrite !nose_scan_past_end by lia. reflexivity.
  - rewrite (nose_scan_step d), (nose_scan_step d').
    destruct (le_lt_dec (length d) (i + 1)) as [Hout|Hin].
    + rewrite !getitem_out by lia. reflexivity.
    + rewrite (getitem_nth d (i + 1) (0, 0)) by lia.
      rewrite (getitem_nth d' (i + 1) (0, 0)) by lia.
      rewrite (getitem_nth d i (0, 0)) by lia.
      rewrite (getitem_nth d' i (0, 0)) by lia.
      rewrite <- !Hnth by lia. rewrite <- Hlen.
      rewrite IH by lia. reflexivity.
Qed.

Lemma scale_y_px (factor : R) (d : list point) :
  map px (map (scale_y factor) d) = map px d.
Proof.
  rewrite map_map. apply map_ext. intros p.
  unfold scale_y, pmul, px; simpl. ring.
Qed.

Lemma nose_scan_scale_y (factor : R) (d : list point) :
  BasicProfile2D.nose_scan (map (scale_y factor) d) 0 = BasicProfile2D.nose_scan d 0.
Proof.
  apply (nose_scan_px _ _ (scale_y_px factor d) (length (map (scale_y factor) d))).
  lia.
Qed.

(** [__init__] on a list of points without a name row, when the scan of the
    raw points, [Normalize] and the scan of the normalized points go
    through. *)
Lemma Profile2D_init_run (profile normalized : list point) (name : string)
    (self : Profile2D.t) (i i' : nat) :
  profile <> [] ->
  BasicProfile2D.nose_scan profile 0 = Ok i ->
  BasicProfile2D.Normalize (BasicProfile2D.mk (Some profile) (Some i))
    = (BasicProfile2D.mk (Some normalized) (Some i), Ok tt) ->
  BasicProfile2D.nose_scan normalized 0 = Ok i' ->
  Profile2D.__init__ None profile name self
  = (Profile2D.mk name (BasicProfile2D.mk (Some normalized) (Some i'))
       (Some (BasicProfile2D.mk (Some normalized) (Some i))),
     Ok tt).
Proof.
  intros Hne Hscan Hnorm Hscan'.
  unfold Profile2D.__init__.
  destruct profile as [|p rest]; [congruence|].
  unfold bind at 1. unfold Profile2D.set_Name at 1, modify at 1.
  unfold bind at 1. unfold ret at 1.
  unfold bind at 1. unfold lift at 1.
  rewrite BasicProfile2D_new_run, Hscan.
  unfold bind at 1. unfold Profile2D.set_rootprof at 1, modify at 1.
  unfold bind at 1. unfold Profile2D.rootprof_call at 1.
  cbn [Profile2D._rootprof Profile2D.Name Profile2D.base].
  rewrite Hnorm.
  unfold bind at 1. unfold Profile2D.rootprof_call at 1.
  cbn [Profile2D._rootprof Profile2D.Name Profile2D.base].
  unfold BasicProfile2D._GetProfile, BasicProfile2D.get_data.
  cbn [BasicProfile2D.data getattr].
  unfold Profile2D.super. rewrite SetProfile_run, Hscan'. reflexivity.
Qed.

(* ================================================================== *)
(** * Profile2D: thickness                                             *)
(* ================================================================== *)

Lemma method_eta (self : Profile2D.t) :
  Profile2D.mk (Profile2D.Name self) (Profile2D.base self) (Profile2D._rootprof self)
  = self.
Proof. destruct self; reflexivity. Qed.

Lemma GetXValues_run (self : Profile2D.t) (d : list point) (k : nat) :
  Profile2D.data self = Some d ->
  Profile2D.noseindex self = Some k ->
  Profile2D._GetXValues self = (self, Ok (signed_xvalues k d)).
Proof.
  intros Hd Hk. destruct self as [n [bd bk] r].
  unfold Profile2D.data, Profile2D.noseindex in *; simpl in *. subst bd bk.
  reflexivity.
Qed.

Lemma signed_xvalues_abs (k : nat) (d : list point) :
  map Rabs (signed_xvalues k d) = map (fun p => Rabs (px p)) d.
Proof.
  unfold signed_xvalues. rewrite map_app, !map_map.
  rewrite <- (firstn_skipn k d) at 3. rewrite map_app. f_equal.
  apply map_ext. intros p.
  replace (px p * -1) with (- px p) by ring. apply Rabs_Ropp.
Qed.

Lemma signed_xvalues_length (k : nat) (d : list point) :
  length (signed_xvalues k d) = length d.
Proof.
  unfold signed_xvalues. rewrite length_app, !length_map.
  rewrite <- (firstn_skipn k d) at 3. rewrite length_app. reflexivity.
Qed.

Section ThicknessFacts.

Context {Position : Type}.
Variable Point : list point -> R -> R -> result (Position * point).
Variable str : R -> string.

(** [self.Thickness]: one row for each abscissa of the stored points. *)
Lemma GetThick_run (self : Profile2D.t) (d : list point) (k : nat) :
  Profile2D.data self = Some d ->
  Profile2D.noseindex self = Some k ->
  Profile2D._GetThick Point self
  = (self, mapM (thickness_at Point d) (abscissas d)).
Proof.
  intros Hd Hk. unfold Profile2D._GetThick, bind.
  rewrite (GetXValues_run self d k Hd Hk).
  rewrite signed_xvalues_abs. fold (abscissas d).
  f_equal. apply f_equal2; [|reflexivity].
  unfold thickness_at, BasicProfile2D.Point.
  unfold Profile2D.data in Hd. rewrite Hd. reflexivity.
Qed.

(** [self.Thickness = newthick], up to the call of [__init__]. *)
Lemma SetThick_run (self : Profile2D.t) (d : list point) (k : nat)
    (th : list (R * R)) (m newthick : R) :
  Profile2D.data self = Some d ->
  Profile2D.noseindex self = Some k ->
  mapM (thickness_at Point d) (abscissas d) = Ok th ->
  max_of (map snd th) = Ok m ->
  m <> 0 ->
  Profile2D._SetThick Point str newthick self
  = Profile2D.__init__ None (map (scale_y (newthick / m)) d)
      (Profile2D.Name self ++ "_" ++ str (newthick * 100) ++ "%") self.
Proof.
  intros Hd Hk Hth Hm Hm0. unfold Profile2D._SetThick.
  unfold bind at 1. rewrite (GetThick_run self d k Hd Hk), Hth.
  unfold bind at 1. unfold lift at 1.
  replace (column1 th) with (Ok (map snd th) : result (list R))
    by (destruct th; [discriminate | reflexivity]).
  unfold bind at 1. unfold lift at 1. rewrite Hm.
  unfold bind at 1. unfold lift at 1. rewrite (Reqb_false m 0 Hm0).
  unfold bind at 1.
  unfold Profile2D._GetProfile, Profile2D.super, BasicProfile2D._GetProfile,
    BasicProfile2D.get_data.
  unfold Profile2D.data in Hd. rewrite Hd. cbn [getattr].
  rewrite method_eta.
  unfold bind at 1. unfold gets at 1. reflexivity.
Qed.

Lemma py_max_scale (f a b : R) : 0 < f -> py_max (a * f) (b * f) = py_max a b * f.
Proof.
  intros Hf. unfold py_max, Rltb.
  destruct (Rlt_dec (a * f) (b * f)), (Rlt_dec a b); try reflexivity; nra.
Qed.

Lemma max_of_scale (f m : R) (l : list R) :
  0 < f -> max_of l = Ok m -> max_of (map (fun t => t * f) l) = Ok (m * f).
Proof.
  intros Hf. destruct l as [|a l]; simpl; [discriminate|].
  intros H. injection H as <-. f_equal.
  revert a. induction l as [|b l IH]; intros a; simpl.
  - reflexivity.
  - rewrite py_max_scale by exact Hf. apply IH.
Qed.

(** If [Point] commutes with the rescaling of the ordinates, so does the
    thickness. *)
Lemma thickness_scale (f : R) (d : list point) (xs : list R) (th : list (R * R)) :
  (forall x, Point (map (scale_y f) d) x (-1) = scale_result f (Point d x (-1))) ->
  mapM (thickness_at Point d) xs = Ok th ->
  mapM (thickness_at Point (map (scale_y f) d)) xs
  = Ok (map (fun row => (fst row, snd row * f)) th).
Proof.
  intros Hscale. revert th. induction xs as [|x xs IH]; intros th; simpl.
  - intros H. injection H as <-. reflexivity.
  - unfold thickness_at at 1 3. rewrite !Hscale.
    destruct (Point d (- x) (-1)) as [[pu u]|e]; simpl; [|discriminate].
    destruct (Point d x (-1)) as [[pl l]|e]; simpl; [|discriminate].
    destruct (mapM (thickness_at Point d) xs) as [rows|e]; simpl; [|discriminate].
    intros H. injection H as <-.
    rewrite (IH rows eq_refl). simpl. do 2 f_equal.
    unfold scale_y, pmul, py; simpl. f_equal. ring.
Qed.

Lemma abscissas_scale_y (f : R) (d : list point) :
  abscissas (map (scale_y f) d) = abscissas d.
Proof.
  unfold abscissas. f_equal. rewrite map_map. apply map_ext. intros p.
  unfold scale_y, pmul, px; simpl. f_equal. ring.
Qed.

(** C5, as the code has it.  Take a Profile2D whose largest thickness [m]
    is positive and a new value [newthick > 0], let [new] be its points with
    every ordinate multiplied by [newthick / m], and suppose that [Point]
    commutes with that rescaling and that [Normalize], which [__init__]
    runs, leaves [new] as it is.  Then [Thickness = newthick] succeeds; it
    rebuilds the profile from [new] ([data] and the root profile are
    [new]), the name gets the suffix ["_" + str(newthick * 100) + "%"], and
    the largest thickness read back is [newthick]. *)
Theorem SetThick_round_trip (self : Profile2D.t) (d : list point) (k i : nat)
    (th : list (R * R)) (m newthick : R) :
  Profile2D.data self = Some d ->
  Profile2D.noseindex self = Some k ->
  eval (Profile2D._GetThick Point) self = Ok th ->
  max_of (map snd th) = Ok m ->
  0 < m ->
  0 < newthick ->
  let new := map (scale_y (newthick / m)) d in
  (forall x, Point new x (-1) = scale_result (newthick / m) (Point d x (-1))) ->
  BasicProfile2D.nose_scan d 0 = Ok i ->
  BasicProfile2D.Normalize (BasicProfile2D.mk (Some new) (Some i))
    = (BasicProfile2D.mk (Some new) (Some i), Ok tt) ->
  let after := fst (Profile2D._SetThick Point str newthick self) in
  snd (Profile2D._SetThick Point str newthick self) = Ok tt /\
  Profile2D.data after = Some new /\
  Profile2D._rootprof after = Some (BasicProfile2D.mk (Some new) (Some i)) /\
  Profile2D.Name after
    = (Profile2D.Name self ++ "_" ++ str (newthick * 100) ++ "%")%string /\
  exists th',
    eval (Profile2D._GetThick Point) after = Ok th' /\
    max_of (map snd th') = Ok newthick.
Proof.
  intros Hd Hk Hth Hm Hmpos Ht new Hscale Hscan Hnorm after.
  unfold eval in Hth. rewrite (GetThick_run self d k Hd Hk) in Hth. simpl in Hth.
  assert (Hscan' : BasicProfile2D.nose_scan new 0 = Ok i)
    by (unfold new; rewrite nose_scan_scale_y; exact Hscan).
  assert (Hne : new <> []).
  { unfold new. destruct d; [|discriminate].
    rewrite nose_scan_past_end in Hscan by (simpl; lia). discriminate. }
  assert (Hrun : Profile2D._SetThick Point str newthick self
                 = (Profile2D.mk
                      (Profile2D.Name self ++ "_" ++ str (newthick * 100) ++ "%")
                      (BasicProfile2D.mk (Some new) (Some i))
                      (Some (BasicProfile2D.mk (Some new) (Some i))),
                    Ok tt)).
  { rewrite (SetThick_run self d k th m newthick Hd Hk Hth Hm) by lra.
    apply Profile2D_init_run; assumption. }
  unfold after. rewrite Hrun. simpl.
  repeat split.
  exists (map (fun row => (fst row, snd row * (newthick / m))) th). split.
  - unfold eval. rewrite (GetThick_run _ new i) by reflexivity. simpl.
    unfold new. rewrite abscissas_scale_y.
    apply thickness_scale; assumption.
  - rewrite map_map. simpl. rewrite <- (map_map snd (fun t => t * (newthick / m))).
    rewrite (max_of_scale (newthick / m) m).
    + f_equal. field. lra.
    + apply Rdiv_lt_0_compat; assumption.
    + exact Hm.
Qed.

End ThicknessFacts.

(* ================================================================== *)
(** * The interpolation of the model                                   *)
(* ================================================================== *)

Lemma bracket_step (upper : bool) (ax : R) (i : nat) (p q : point)
    (rest : list point) :
  Model.bracket upper ax i (p :: q :: rest)
  = if (if upper
        then Rleb (px q) ax && Rleb ax (px p)
        else Rleb (px p) ax && Rleb ax (px q))
    then
      let k := (ax - px p) / (px q - px p) in
      Ok (INR i + k, (px p + k * (px q - px p), py p + k * (py q - py p)))
    else Model.bracket upper ax (S i) (q :: rest).
Proof. reflexivity. Qed.

Lemma bracket_scale_y (f : R) (upper : bool) (ax : R) (d : list point) (i : nat) :
  Model.bracket upper ax i (map (scale_y f) d)
  = scale_result f (Model.bracket upper ax i d).
Proof.
  revert i. induction d as [|p d IH]; intros i; [reflexivity|].
  destruct d as [|q d]; [reflexivity|].
  change (map (scale_y f) (p :: q :: d))
    with (scale_y f p :: scale_y f q :: map (scale_y f) d).
  rewrite (bracket_step upper ax i (scale_y f p) (scale_y f q)).
  rewrite (bracket_step upper ax i p q).
  replace (px (scale_y f p)) with (px p)
    by (unfold scale_y, pmul, px; simpl; ring).
  replace (px (scale_y f q)) with (px q)
    by (unfold scale_y, pmul, px; simpl; ring).
  destruct (if upper
            then Rleb (px q) ax && Rleb ax (px p)
            else Rleb (px p) ax && Rleb ax (px q)).
  - unfold scale_result, scale_y, pmul, px, py; simpl.
    apply f_equal. split_pairs; ring.
  - apply (IH (S i)).
Qed.

(** The interpolation commutes with the rescaling of the ordinates. *)
Lemma Model_Point_scale_y (f : R) (d : list point) (x h : R) :
  Model.Point (map (scale_y f) d) x h = scale_result f (Model.Point d x h).
Proof. unfold Model.Point. apply bracket_scale_y. Qed.

(** The absolute value of a given number. *)
Ltac Rabs_const :=
  repeat first [ rewrite Rabs_Ropp | rewrite Rabs_pos_eq by lra ].

(** [Model.Point] at given numbers; the result may be left open. *)
Ltac run_Point :=
  unfold Model.Point; Rabs_const; Rtests; run_bracket; reflexivity.

Lemma thickness_at_value {Position : Type}
    (Point : list point -> R -> R -> result (Position * point))
    (d : list point) (x t : R) (pu pl : Position) (u l : point) :
  Point d (- x) (-1) = Ok (pu, u) ->
  Point d x (-1) = Ok (pl, l) ->
  py u - py l = t ->
  thickness_at Point d x = Ok (x, t).
Proof.
  intros Hu Hl Ht. unfold thickness_at. rewrite Hu, Hl. simpl. rewrite Ht.
  reflexivity.
Qed.

Lemma mapM_cons_ok {A B : Type} (f : A -> result B) (a : A) (l : list A)
    (b : B) (bs : list B) :
  f a = Ok b -> mapM f l = Ok bs -> mapM f (a :: l) = Ok (b :: bs).
Proof. intros Ha Hl. simpl. rewrite Ha, Hl. reflexivity. Qed.

(** The thickness at given abscissas, row by row. *)
Ltac run_thickness :=
  repeat (apply mapM_cons_ok;
          [ eapply thickness_at_value;
            [ run_Point | run_Point | unfold py; simpl; field ] | ]);
  reflexivity.

Lemma nodup_skip (x : R) (l : list R) :
  In x l -> nodup Req_dec_T (x :: l) = nodup Req_dec_T l.
Proof. intros H. simpl. destruct (in_dec Req_dec_T x l); tauto. Qed.

Lemma nodup_keep (x : R) (l : list R) :
  ~ In x l -> nodup Req_dec_T (x :: l) = x :: nodup Req_dec_T l.
Proof. intros H. simpl. destruct (in_dec Req_dec_T x l); tauto. Qed.

(** Membership among given numbers. *)
Ltac In_const := simpl; intuition lra.

Lemma abscissas_diamond : abscissas diamond = [0; 1 / 4; 1].
Proof.
  unfold abscissas, diamond. cbn [map px fst]. Rabs_const.
  rewrite nodup_skip by In_const. rewrite nodup_skip by In_const.
  rewrite nodup_keep by In_const. rewrite nodup_keep by In_const.
  rewrite nodup_keep by In_const. reflexivity.
Qed.

Lemma abscissas_bent : abscissas bent = [0; 13 / 25; 32 / 25; 1].
Proof.
  unfold abscissas, bent. cbn [map px fst]. Rabs_const.
  rewrite nodup_skip by In_const. rewrite nodup_keep by In_const.
  rewrite nodup_keep by In_const. rewrite nodup_keep by In_const.
  rewrite nodup_keep by In_const. reflexivity.
Qed.

(** The thickness of [diamond]: [1/5] at its thickest. *)
Lemma thickness_diamond :
  mapM (thickness_at Model.Point diamond) (abscissas diamond)
  = Ok [(0, 0); (1 / 4, 1 / 5); (1, 0)].
Proof. rewrite abscissas_diamond. unfold diamond. run_thickness. Qed.

(** The thickness of [bent]: [16/19] at its thickest. *)
Lemma thickness_bent :
  mapM (thickness_at Model.Point bent) (abscissas bent)
  = Ok [(0, 0); (13 / 25, 16 / 25); (32 / 25, 0); (1, 16 / 19)].
Proof. rewrite abscissas_bent. unfold bent. run_thickness. Qed.

(* ================================================================== *)
(** * Thickness: a profile that keeps its chord, and one that does not *)
(* ================================================================== *)

(** A curve from [(1, 0)] through [(0, 0)] whose other points are nearer to
    [(1, 0)] than [(0, 0)] is (or, after the nose, as near) is left as it
    is by [Normalize]. *)
Lemma Normalize_unit_chord (before after : list point) (k : option nat) :
  (forall p, In p before -> sumsq (psub p (1, 0)) < 1) ->
  (forall p, In p after -> sumsq (psub p (1, 0)) <= 1) ->
  BasicProfile2D.Normalize
    (BasicProfile2D.mk (Some ((1, 0) :: before ++ (0, 0) :: after)) k)
  = (BasicProfile2D.mk (Some ((1, 0) :: before ++ (0, 0) :: after)) k, Ok tt).
Proof.
  intros Hbefore Hafter.
  assert (Hn : Vector.norm (psub (0, 0) (1, 0)) = 1).
  { apply norm_value; [lra|]. unfold sumsq, psub, px, py; simpl. ring. }
  assert (Hsq : sumsq (psub (0, 0) (1, 0)) = 1)
    by (unfold sumsq, psub, px, py; simpl; ring).
  assert (Hfar : BasicProfile2D.farthest (1, 0) ((1, 0) :: before ++ (0, 0) :: after)
                 = (1, Some (0, 0))).
  { apply (farthest_first_max_sq (1, 0) (0, 0) ((1, 0) :: before) after 1 Hn).
    - lra.
    - intros p Hp. rewrite Hsq.
      destruct Hp as [<-|Hp]; [|apply Hbefore, Hp].
      unfold sumsq, psub, px, py; simpl. lra.
    - intros p Hp. rewrite Hsq. apply Hafter, Hp. }
  rewrite (Normalize_run _ (1, 0) (0, 0) (before ++ (0, 0) :: after) 1);
    [| reflexivity | exact Hfar].
  rewrite (normalizing_matrix_value (1, 0) (0, 0) 1 0 1);
    [| simpl; field | lra | ring].
  simpl BasicProfile2D.noseindex.
  do 3 f_equal.
  etransitivity; [|apply map_id].
  apply map_ext. intros [x y].
  unfold mdot, pdot, psub, px, py; simpl. split_pairs; field.
Qed.

Lemma nose_scan_diamond : BasicProfile2D.nose_scan diamond 0 = Ok 2%nat.
Proof.
  apply nose_scan_first_rise.
  - simpl; lia.
  - unfold xcoord, diamond; simpl. lra.
  - intros j Hj. destruct j as [|[|j]]; [| |lia]; unfold xcoord, diamond; simpl; lra.
Qed.

Lemma max_thickness_diamond : max_of (map snd [(0, 0); (1 / 4, 1 / 5); (1, 0)]) = Ok (1 / 5).
Proof. simpl. unfold py_max. Rtests. reflexivity. Qed.

Lemma SetThick_round_trip_witness :
  exists th',
    eval (Profile2D._GetThick Model.Point)
         (fst (Profile2D._SetThick Model.Point Model.str (2 / 5) diamond_profile))
    = Ok th' /\
    max_of (map snd th') = Ok (2 / 5).
Proof.
  refine (proj2 (proj2 (proj2 (proj2
            (SetThick_round_trip Model.Point Model.str diamond_profile diamond
               2 2 [(0, 0); (1 / 4, 1 / 5); (1, 0)] (1 / 5) (2 / 5)
               eq_refl eq_refl _ max_thickness_diamond _ _ _ nose_scan_diamond _))))).
  - unfold eval. rewrite (GetThick_run Model.Point diamond_profile diamond 2 eq_refl eq_refl).
    exact thickness_diamond.
  - lra.
  - lra.
  - intros x. apply Model_Point_scale_y.
  - replace (map (scale_y (2 / 5 / (1 / 5))) diamond)
      with ((1, 0) :: [(1 / 4, 1 / 5)] ++ (0, 0) :: [(1 / 4, - 1 / 5); (1, 0)]).
    + apply Normalize_unit_chord.
      * intros p [<-|[]]. unfold sumsq, psub, px, py; simpl. lra.
      * intros p [<-|[<-|[]]]; unfold sumsq, psub, px, py; simpl; lra.
    + unfold diamond, scale_y, pmul, px, py; simpl. points_eq.
Defined.

(** [Normalize] turns [tall] about its point [(1/4, 1)]. *)
Lemma Normalize_tall (k : option nat) :
  BasicProfile2D.Normalize (BasicProfile2D.mk (Some tall) k)
  = (BasicProfile2D.mk (Some bent) k, Ok tt).
Proof.
  assert (Hn : Vector.norm (psub (1 / 4, 1) (1, 0)) = 5 / 4).
  { apply norm_value; [lra|]. unfold sumsq, psub, px, py; simpl. field. }
  assert (Hfar : BasicProfile2D.farthest (1, 0) tall = (5 / 4, Some (1 / 4, 1))).
  { apply (farthest_first_max_sq (1, 0) (1 / 4, 1) [(1, 0)]
             [(0, 0); (1 / 4, -1); (1, 0)] (5 / 4) Hn).
    - lra.
    - intros p [<-|[]]. unfold sumsq, psub, px, py; simpl. lra.
    - intros p [<-|[<-|[<-|[]]]]; unfold sumsq, psub, px, py; simpl; lra. }
  rewrite (Normalize_run _ (1, 0) (1 / 4, 1)
             [(1 / 4, 1); (0, 0); (1 / 4, -1); (1, 0)] (5 / 4));
    [| reflexivity | exact Hfar].
  rewrite (normalizing_matrix_value (1, 0) (1 / 4, 1) (5 / 4) (4 / 5) (3 / 5));
    [| simpl; field | lra | field].
  simpl BasicProfile2D.noseindex.
  unfold bent, mdot, pdot, psub, px, py; simpl.
  do 3 f_equal. points_eq.
Qed.

Lemma nose_scan_tall : BasicProfile2D.nose_scan tall 0 = Ok 2%nat.
Proof.
  apply nose_scan_first_rise.
  - simpl; lia.
  - unfold xcoord, tall; simpl. lra.
  - intros j Hj. destruct j as [|[|j]]; [| |lia]; unfold xcoord, tall; simpl; lra.
Qed.

Lemma nose_scan_bent : BasicProfile2D.nose_scan bent 0 = Ok 1%nat.
Proof.
  apply nose_scan_first_rise.
  - simpl; lia.
  - unfold xcoord, bent; simpl. lra.
  - intros j Hj. destruct j as [|j]; [|lia]. unfold xcoord, bent; simpl; lra.
Qed.

(** [Thickness = 2] on [diamond_profile]: the factor is [10], the rescaled
    points are [tall], and the constructor normalizes them to [bent]. *)
Lemma SetThick_diamond_tall :
  Profile2D._SetThick Model.Point Model.str 2 diamond_profile = (bent_profile, Ok tt).
Proof.
  rewrite (SetThick_run Model.Point Model.str diamond_profile diamond 2
             [(0, 0); (1 / 4, 1 / 5); (1, 0)] (1 / 5) 2
             eq_refl eq_refl thickness_diamond max_thickness_diamond)
    by lra.
  replace (map (scale_y (2 / (1 / 5))) diamond) with tall
    by (unfold tall, diamond, scale_y, pmul, px, py; simpl; points_eq).
  apply (Profile2D_init_run tall bent _ diamond_profile 2 1).
  - discriminate.
  - exact nose_scan_tall.
  - apply Normalize_tall.
  - exact nose_scan_bent.
Qed.

Lemma max_thickness_bent :
  max_of (map snd [(0, 0); (13 / 25, 16 / 25); (32 / 25, 0); (1, 16 / 19)])
  = Ok (16 / 19).
Proof. simpl. unfold py_max. Rtests. reflexivity. Qed.

(** C5, as the claim has it, fails: [diamond_profile] has the largest
    thickness [1/5]; after [Thickness = 2] its points are not the old ones
    with the ordinates multiplied by [10], and the largest thickness read
    back is [16/19], not [2]. *)
Lemma SetThick_tall_counterexample :
  let after := fst (Profile2D._SetThick Model.Point Model.str 2 diamond_profile) in
  eval (Profile2D._GetThick Model.Point) diamond_profile
    = Ok [(0, 0); (1 / 4, 1 / 5); (1, 0)] /\
  Profile2D.data after <> Some (map (scale_y (2 / (1 / 5))) diamond) /\
  ~ (exists th',
       eval (Profile2D._GetThick Model.Point) after = Ok th' /\
       max_of (map snd th') = Ok 2).
Proof.
  intros after. unfold after. rewrite SetThick_diamond_tall. simpl fst.
  split; [|split].
  - unfold eval.
    rewrite (GetThick_run Model.Point diamond_profile diamond 2 eq_refl eq_refl).
    exact thickness_diamond.
  - unfold bent_profile, Profile2D.data, bent, diamond; simpl.
    intros H. injection H as _ _ H _. unfold scale_y, pmul, px in H; simpl in H.
    lra.
  - intros (th' & Hth & Hmax). unfold eval in Hth.
    rewrite (GetThick_run Model.Point bent_profile bent 1 eq_refl eq_refl) in Hth.
    simpl in Hth. rewrite thickness_bent in Hth. injection Hth as <-.
    rewrite max_thickness_bent in Hmax. injection Hmax as Hmax. lra.
Qed.

(* ================================================================== *)
(** * Profile2D: addition                                              *)
(* ================================================================== *)

Lemma array_equal_eq (a b : list R) : array_equal a b = true -> a = b.
Proof.
  revert b. induction a as [|x a IH]; intros [|y b]; simpl; try discriminate.
  - reflexivity.
  - intros H. apply andb_true_iff in H. destruct H as [Hxy Hab].
    unfold Reqb in Hxy. destruct (Req_dec_T x y); [|discriminate].
    subst y. f_equal. apply IH, Hab.
Qed.

(** The sum of [__add__]: the second operand is masked by [[0, 1]], so that
    its abscissas add nothing. *)
Lemma array_add_mask (a b : list point) :
  length a = length b ->
  array_add a (map (fun q => pmul q (0, 1)) b) = Ok (add_ordinates a b).
Proof.
  revert b. induction a as [|p a IH]; intros [|q b] Hlen; simpl in Hlen;
    try discriminate.
  - reflexivity.
  - simpl. rewrite IH by lia. simpl. unfold add_ordinates. simpl.
    do 2 f_equal. unfold padd, pmul, px, py; simpl. split_pairs; ring.
Qed.

Lemma add_ordinates_length (a b : list point) :
  length a = length b -> length (add_ordinates a b) = length b.
Proof.
  intros H. unfold add_ordinates. rewrite length_map, length_combine. lia.
Qed.

Lemma add_ordinates_px (a b : list point) :
  length a = length b -> map px (add_ordinates a b) = map px a.
Proof.
  revert b. induction a as [|p a IH]; intros [|q b] Hlen; simpl in Hlen;
    try discriminate; [reflexivity|].
  unfold add_ordinates in *. simpl. f_equal. apply IH. lia.
Qed.

Lemma add_ordinates_nth (a b : list point) (j : nat) (f s : point) :
  nth_error a j = Some f ->
  nth_error b j = Some s ->
  nth_error (add_ordinates a b) j = Some (px f, py f + py s).
Proof.
  revert b j. induction a as [|p a IH]; intros [|q b] [|j]; simpl;
    try discriminate.
  - intros Hf Hs. injection Hf as <-. injection Hs as <-. reflexivity.
  - intros Hf Hs. apply (IH b j); assumption.
Qed.

Lemma GetXValues_inv (self : Profile2D.t) (xs : list R) :
  eval Profile2D._GetXValues self = Ok xs ->
  exists (d : list point) (k : nat),
    Profile2D.data self = Some d /\
    Profile2D.noseindex self = Some k /\
    xs = signed_xvalues k d.
Proof.
  destruct self as [n [[d|] [k|]] r]; unfold eval; simpl; try discriminate.
  intros H. injection H as <-. exists d, k. repeat split.
Qed.

Lemma GetLen_run (self : Profile2D.t) (d : list point) :
  Profile2D.data self = Some d ->
  eval Profile2D._GetLen self = Ok (length d).
Proof.
  destruct self as [n [bd bk] r]. unfold Profile2D.data; simpl.
  intros ->. reflexivity.
Qed.

Lemma GetProfile_run (self : Profile2D.t) (d : list point) :
  Profile2D.data self = Some d ->
  eval Profile2D._GetProfile self = Ok d.
Proof.
  destruct self as [n [bd bk] r]. unfold Profile2D.data; simpl.
  intros ->. reflexivity.
Qed.

Section AdditionFacts.

Context {Position : Type}.
Variable Point : list point -> R -> R -> result (Position * point).

(** What a successful [first.XValues = xval] has done. *)
Lemma SetXValues_inv (xval : list R) (first first' : Profile2D.t) :
  exec (Profile2D._SetXValues Point xval) first = Ok first' ->
  exists (root : BasicProfile2D.t) (rd : list point) (pts : list (Position * point)),
    Profile2D._rootprof first = Some root /\
    BasicProfile2D.data root = Some rd /\
    mapM (fun x => Point rd x (-1)) xval = Ok pts /\
    Profile2D.data first' = Some (map snd pts) /\
    Profile2D._rootprof first' = Profile2D._rootprof first /\
    Profile2D.Name first' = Profile2D.Name first.
Proof.
  unfold exec, Profile2D._SetXValues, Profile2D.rootprof_call.
  unfold bind at 1.
  destruct (Profile2D._rootprof first) as [root|] eqn:Hroot; [|discriminate].
  unfold BasicProfile2D.Points, BasicProfile2D.Point.
  destruct (BasicProfile2D.data root) as [rd|] eqn:Hrd.
  - simpl getattr. cbn [rbind].
    destruct (mapM (fun x => Point rd x (-1)) xval) as [pts|e] eqn:Hpts;
      [|discriminate].
    unfold bind at 1, lift, column1.
    destruct pts as [|q pts]; [discriminate|].
    rewrite Profile2D_SetProfile_run.
    destruct (BasicProfile2D.nose_scan (map snd (q :: pts)) 0); [|discriminate].
    intros H. injection H as <-.
    exists root, rd, (q :: pts). simpl. repeat split; assumption.
  - simpl getattr. destruct xval as [|x xval]; simpl; discriminate.
Qed.

(** The copy of [__add__] after its resampling has as many points as the
    other operand, the root profile of the copy, and, if [Point] answers
    with a point at the abscissa it was asked for, the abscissas of the
    other operand up to sign. *)
Lemma add_same_length (first first' second : Profile2D.t)
    (x_first x_second : list R) (p_first p_second : list point) :
  eval Profile2D._GetXValues first = Ok x_first ->
  eval Profile2D._GetXValues second = Ok x_second ->
  (if array_equal x_first x_second
   then Ok first
   else exec (Profile2D._SetXValues Point x_second) first) = Ok first' ->
  Profile2D.data first' = Some p_first ->
  Profile2D.data second = Some p_second ->
  length p_first = length p_second /\
  Profile2D._rootprof first' = Profile2D._rootprof first /\
  ((forall rd x pos q, Point rd x (-1) = Ok (pos, q) -> px q = Rabs x) ->
   map (fun p => Rabs (px p)) p_first = map (fun p => Rabs (px p)) p_second).
Proof.
  intros Hxf Hxs Hres Hpf Hps.
  destruct (GetXValues_inv second x_second Hxs) as (d2 & k2 & Hd2 & Hk2 & Hx2).
  rewrite Hps in Hd2. injection Hd2 as <-.
  destruct (array_equal x_first x_second) eqn:Heq.
  - injection Hres as <-.
    destruct (GetXValues_inv first x_first Hxf) as (d1 & k1 & Hd1 & Hk1 & Hx1).
    rewrite Hpf in Hd1. injection Hd1 as <-.
    apply array_equal_eq in Heq.
    split; [|split; [reflexivity|]].
    + rewrite <- (signed_xvalues_length k1 p_first),
              <- (signed_xvalues_length k2 p_second).
      congruence.
    + intros _.
      rewrite <- (signed_xvalues_abs k1 p_first), <- (signed_xvalues_abs k2 p_second).
      congruence.
  - destruct (SetXValues_inv x_second first first' Hres)
      as (root & rd & pts & Hroot & Hrd & Hpts & Hdata & Hroot' & _).
    rewrite Hpf in Hdata. injection Hdata as ->.
    split; [|split; [exact Hroot'|]].
    + rewrite length_map, (mapM_length _ _ _ Hpts), Hx2.
      apply signed_xvalues_length.
    + intros Habs. rewrite <- (signed_xvalues_abs k2 p_second), <- Hx2.
      clear - Hpts Habs. revert pts Hpts.
      induction x_second as [|x xs IH]; intros pts; simpl.
      * intros H. injection H as <-. reflexivity.
      * destruct (Point rd x (-1)) as [[pos q]|e] eqn:Hq; simpl; [|discriminate].
        destruct (mapM (fun x0 => Point rd x0 (-1)) xs) as [rest|e]; simpl;
          [|discriminate].
        intros H. injection H as <-. simpl.
        rewrite (Habs rd x pos q Hq), Rabs_Rabsolu.
        f_equal. apply IH. reflexivity.
Qed.

(** [self + other], step by step. *)
Lemma add_run (self other first first' : Profile2D.t)
    (n_self n_other n : nat) (x_first x_second : list R)
    (p_first p_second : list point) :
  eval Profile2D._GetLen self = Ok n_self ->
  eval Profile2D._GetLen other = Ok n_other ->
  let source := if (n_other <? n_self)%nat then other else self in
  let second := if (n_other <? n_self)%nat then self else other in
  Profile2D.copy source = Ok first ->
  eval Profile2D._GetXValues first = Ok x_first ->
  eval Profile2D._GetXValues second = Ok x_second ->
  (if array_equal x_first x_second
   then Ok first
   else exec (Profile2D._SetXValues Point x_second) first) = Ok first' ->
  Profile2D.data first' = Some p_first ->
  Profile2D.data second = Some p_second ->
  BasicProfile2D.nose_scan (add_ordinates p_first p_second) 0 = Ok n ->
  Profile2D.__add__ Point self other
    = Ok (Profile2D.mk (Profile2D.Name first')
            (BasicProfile2D.mk (Some (add_ordinates p_first p_second)) (Some n))
            (Profile2D._rootprof first)).
Proof.
  intros Hns Hno source second Hcopy Hxf Hxs Hres Hpf Hps Hscan.
  destruct (add_same_length first first' second x_first x_second p_first p_second
              Hxf Hxs Hres Hpf Hps) as (Hlen & Hroot' & _).
  unfold Profile2D.__add__. rewrite Hns, Hno. cbn [rbind].
  fold source second.
  replace (if (n_other <? n_self)%nat then (other, self) else (self, other))
    with (source, second)
    by (unfold source, second; destruct (n_other <? n_self)%nat; reflexivity).
  rewrite Hcopy. cbn [rbind]. rewrite Hxf, Hxs. cbn [rbind].
  replace (if negb (array_equal x_first x_second)
           then exec (Profile2D._SetXValues Point x_second) first
           else Ok first)
    with (Ok first' : result Profile2D.t)
    by (rewrite <- Hres; destruct (array_equal x_first x_second); reflexivity).
  cbn [rbind].
  rewrite (GetProfile_run first' p_first Hpf), (GetProfile_run second p_second Hps).
  cbn [rbind]. rewrite (array_add_mask _ _ Hlen). cbn [rbind].
  unfold exec. rewrite Profile2D_SetProfile_run, Hscan, Hroot'. reflexivity.
Qed.

End AdditionFacts.

(* ================================================================== *)
(** * Addition: an operand that is not normalized                      *)
(* ================================================================== *)

Lemma bracket_abscissa (upper : bool) (ax : R) (d : list point) (i : nat)
    (pos : R) (q : point) :
  Model.bracket upper ax i d = Ok (pos, q) -> px q = ax.
Proof.
  revert i. induction d as [|p d IH]; intros i; [discriminate|].
  destruct d as [|p' d]; [discriminate|].
  rewrite bracket_step.
  destruct (if upper
            then Rleb (px p') ax && Rleb ax (px p)
            else Rleb (px p) ax && Rleb ax (px p')) eqn:Hin.
  - intros H. injection H as _ <-. unfold px at 1. simpl.
    destruct (Req_dec_T (px p') (px p)) as [Heq|Hneq].
    + assert (Hax : ax = px p).
      { destruct upper; apply andb_true_iff in Hin; destruct Hin as [H1 H2];
          unfold Rleb in H1, H2;
          destruct (Rle_dec _ _) in H1; try discriminate;
          destruct (Rle_dec _ _) in H2; try discriminate; lra. }
      rewrite Hax. replace (px p - px p) with 0 by ring.
      unfold Rdiv. ring.
    + field. lra.
  - apply (IH (S i)).
Qed.

(** The interpolation answers with a point at the abscissa asked for. *)
Lemma Model_Point_abscissa (d : list point) (x pos : R) (q : point) :
  Model.Point d x (-1) = Ok (pos, q) -> px q = Rabs x.
Proof. unfold Model.Point. apply bracket_abscissa. Qed.

Lemma nose_scan_five (d : list point) :
  length d = 5%nat ->
  xcoord d 1 < xcoord d 0 -> xcoord d 2 < xcoord d 1 -> xcoord d 3 >= xcoord d 2 ->
  BasicProfile2D.nose_scan d 0 = Ok 2%nat.
Proof.
  intros Hlen H0 H1 H2. apply nose_scan_first_rise.
  - lia.
  - exact H2.
  - intros j Hj. destruct j as [|[|j]]; [exact H0 | exact H1 | lia].
Qed.

(** [Profile = half] on [diamond_profile] gives [half_profile]. *)
Lemma half_profile_reached :
  Profile2D._SetProfile half diamond_profile = (half_profile, Ok tt).
Proof.
  rewrite Profile2D_SetProfile_run.
  rewrite (nose_scan_five half); [reflexivity | reflexivity | ..];
    unfold xcoord, half; simpl; lra.
Qed.

(** [Normalize] doubles [half]. *)
Lemma Normalize_half (k : option nat) :
  BasicProfile2D.Normalize (BasicProfile2D.mk (Some half) k)
  = (BasicProfile2D.mk (Some wide) k, Ok tt).
Proof.
  assert (Hn : Vector.norm (psub (0, 0) (1 / 2, 0)) = 1 / 2).
  { apply norm_value; [lra|]. unfold sumsq, psub, px, py; simpl. field. }
  assert (Hfar : BasicProfile2D.farthest (1 / 2, 0) half = (1 / 2, Some (0, 0))).
  { apply (farthest_first_max_sq (1 / 2, 0) (0, 0) [(1 / 2, 0); (1 / 4, 1 / 10)]
             [(1 / 4, - 1 / 10); (1 / 2, 0)] (1 / 2) Hn).
    - lra.
    - intros p [<-|[<-|[]]]; unfold sumsq, psub, px, py; simpl; lra.
    - intros p [<-|[<-|[]]]; unfold sumsq, psub, px, py; simpl; lra. }
  rewrite (Normalize_run _ (1 / 2, 0) (0, 0)
             [(1 / 4, 1 / 10); (0, 0); (1 / 4, - 1 / 10); (1 / 2, 0)] (1 / 2));
    [| reflexivity | exact Hfar].
  rewrite (normalizing_matrix_value (1 / 2, 0) (0, 0) (1 / 2) 0 1);
    [| simpl; field | lra | ring].
  simpl BasicProfile2D.noseindex.
  unfold wide, mdot, pdot, psub, px, py; simpl.
  do 3 f_equal. points_eq.
Qed.

(** The copy of [half_profile] is the normalized [wide_profile]: its
    ordinates are twice those of [half_profile]. *)
Lemma copy_half_profile : Profile2D.copy half_profile = Ok wide_profile.
Proof.
  unfold Profile2D.copy, half_profile, Profile2D.data; simpl.
  unfold Profile2D.new, exec.
  rewrite (Profile2D_init_run half wide "Profile" Profile2D.blank 2 2).
  - reflexivity.
  - discriminate.
  - apply nose_scan_five; [reflexivity | ..]; unfold xcoord, half; simpl; lra.
  - apply Normalize_half.
  - apply nose_scan_five; [reflexivity | ..]; unfold xcoord, wide; simpl; lra.
Qed.

Lemma add_ordinates_wide_thick :
  add_ordinates wide thick
  = [(1, 0); (1 / 2, 1 / 2); (0, 0); (1 / 2, - 1 / 2); (1, 0)].
Proof. unfold add_ordinates, wide, thick, px, py; simpl. points_eq. Qed.

Lemma array_equal_refl (a : list R) : array_equal a a = true.
Proof.
  induction a as [|x a IH]; simpl; [reflexivity|].
  rewrite Reqb_true by reflexivity. exact IH.
Qed.

(** [half_profile + thick_profile]: the ordinates of [thick] are added to
    those of the copy [wide], not to those of [half]. *)
Lemma add_half_thick :
  Profile2D.__add__ Model.Point half_profile thick_profile = Ok half_plus_thick.
Proof.
  rewrite (add_run Model.Point half_profile thick_profile wide_profile wide_profile
             5 5 2 (signed_xvalues 2 wide) (signed_xvalues 2 thick) wide thick).
  - rewrite add_ordinates_wide_thick. reflexivity.
  - reflexivity.
  - reflexivity.
  - exact copy_half_profile.
  - reflexivity.
  - reflexivity.
  - replace (signed_xvalues 2 thick) with (signed_xvalues 2 wide) by reflexivity.
    rewrite array_equal_refl. reflexivity.
  - reflexivity.
  - reflexivity.
  - rewrite add_ordinates_wide_thick.
    apply nose_scan_five; [reflexivity | ..]; unfold xcoord; simpl; lra.
Qed.

(** C7, as the claim has it, fails.  The three profiles store a point at
    the signed x-value [-1/2]: [half_profile] with the ordinate [0],
    [thick_profile] with [3/10], and their sum with [1/2], which is not
    [0 + 3/10]: the sum is taken with the copy of the first operand, and
    the copy has been normalized. *)
Lemma add_renormalized_counterexample :
  Profile2D.__add__ Model.Point half_profile thick_profile = Ok half_plus_thick /\
  stored half_profile (- (1 / 2)) 0 /\
  stored thick_profile (- (1 / 2)) (3 / 10) /\
  stored half_plus_thick (- (1 / 2)) (1 / 2) /\
  ~ (forall x y_self y_other y_sum : R,
       stored half_profile x y_self ->
       stored thick_profile x y_other ->
       stored half_plus_thick x y_sum ->
       y_sum = y_self + y_other).
Proof.
  assert (H1 : stored half_profile (- (1 / 2)) 0).
  { exists half, 2%nat, 0%nat, (1 / 2 * -1), (1 / 2, 0).
    repeat split; try reflexivity. lra. }
  assert (H2 : stored thick_profile (- (1 / 2)) (3 / 10)).
  { exists thick, 2%nat, 1%nat, (1 / 2 * -1), (1 / 2, 3 / 10).
    repeat split; try reflexivity. lra. }
  assert (H3 : stored half_plus_thick (- (1 / 2)) (1 / 2)).
  { exists [(1, 0); (1 / 2, 1 / 2); (0, 0); (1 / 2, - 1 / 2); (1, 0)],
      2%nat, 1%nat, (1 / 2 * -1), (1 / 2, 1 / 2).
    repeat split; try reflexivity. lra. }
  split; [exact add_half_thick|].
  split; [exact H1|]. split; [exact H2|]. split; [exact H3|].
  intros H. specialize (H _ _ _ _ H1 H2 H3). lra.
Qed.

(* ================================================================== *)
(** * The profiles of the examples are built by the constructor        *)
(* ================================================================== *)

Lemma diamond_profile_constructed :
  Profile2D.new None diamond "Profile" = Ok diamond_profile.
Proof.
  unfold Profile2D.new, exec.
  rewrite (Profile2D_init_run diamond diamond "Profile" Profile2D.blank 2 2).
  - reflexivity.
  - discriminate.
  - exact nose_scan_diamond.
  - apply (Normalize_unit_chord [(1 / 4, 1 / 10)] [(1 / 4, - 1 / 10); (1, 0)]).
    + intros p [<-|[]]. unfold sumsq, psub, px, py; simpl. lra.
    + intros p [<-|[<-|[]]]; unfold sumsq, psub, px, py; simpl; lra.
  - exact nose_scan_diamond.
Qed.

Lemma thick_profile_constructed :
  Profile2D.new None thick "Profile" = Ok thick_profile.
Proof.
  assert (Hscan : BasicProfile2D.nose_scan thick 0 = Ok 2%nat)
    by (apply nose_scan_five; [reflexivity | ..]; unfold xcoord, thick; simpl; lra).
  unfold Profile2D.new, exec.
  rewrite (Profile2D_init_run thick thick "Profile" Profile2D.blank 2 2).
  - reflexivity.
  - discriminate.
  - exact Hscan.
  - apply (Normalize_unit_chord [(1 / 2, 3 / 10)] [(1 / 2, - 3 / 10); (1, 0)]).
    + intros p [<-|[]]. unfold sumsq, psub, px, py; simpl. lra.
    + intros p [<-|[<-|[]]]; unfold sumsq, psub, px, py; simpl; lra.
  - exact Hscan.
Qed.

(* ================================================================== *)
(** * More on the nose scan and on [Normalize]                         *)
(* ================================================================== *)

Lemma getitem_Ok_nth {A : Type} (l : list A) (i : nat) (a d : A) :
  getitem l i = Ok a -> nth i l d = a.
Proof.
  unfold getitem. destruct (nth_error l i) as [b|] eqn:E; [|discriminate].
  intros H. injection H as <-. apply nth_error_nth, E.
Qed.

(** An index the scan answers with is where the abscissa stops falling. *)
Lemma nose_scan_Ok_inv (profile : list point) (i n : nat) :
  BasicProfile2D.nose_scan profile i = Ok n ->
  (i <= n)%nat /\ (n + 1 < length profile)%nat /\
  xcoord profile (n + 1) >= xcoord profile n /\
  forall j, (i <= j < n)%nat -> xcoord profile (j + 1) < xcoord profile j.
Proof.
  funelim (BasicProfile2D.nose_scan profile i); try discriminate.
  clear Heqcall.
  assert (Hlen : (i + 1 < length profile)%nat)
    by (apply nth_error_Some; congruence).
  assert (Hxq : xcoord profile (i + 1) = px q)
    by (unfold xcoord; rewrite (nth_error_nth _ _ _ Hq); reflexivity).
  assert (Hxp : xcoord profile i = px p)
    by (unfold xcoord; rewrite (getitem_Ok_nth _ _ _ _ Heq); reflexivity).
  unfold Rltb. destruct (Rlt_dec (px q) (px p)) as [Hlt|Hge]; simpl.
  - replace (i <? length profile)%nat with true
      by (symmetry; apply Nat.ltb_lt; lia).
    intros Hn. apply H in Hn. destruct Hn as (H1 & H2 & H3 & H4).
    repeat split; try assumption; try lia.
    intros j Hj. destruct (Nat.eq_dec j i) as [->|Hne].
    + rewrite Hxq, Hxp. exact Hlt.
    + apply H4. lia.
  - intros Hn. injection Hn as <-.
    repeat split; try lia.
    rewrite Hxq, Hxp. lra.
Qed.

(** X1.  Whenever [_SetProfile] succeeds, [data] is the list given and
    [noseindex] is an index inside of it, not the last one, at which the
    abscissa does not fall any more while it has fallen at every index
    before. *)
Theorem SetProfile_noseindex_first_rise (profile : list point)
    (self self' : BasicProfile2D.t) :
  BasicProfile2D._SetProfile profile self = (self', Ok tt) ->
  exists n : nat,
    self' = BasicProfile2D.mk (Some profile) (Some n) /\
    (n + 1 < length profile)%nat /\
    xcoord profile (n + 1) >= xcoord profile n /\
    forall j, (j < n)%nat -> xcoord profile (j + 1) < xcoord profile j.
Proof.
  rewrite SetProfile_run.
  destruct (BasicProfile2D.nose_scan profile 0) as [n|e] eqn:Hscan;
    [|discriminate].
  intros H. injection H as <-. exists n.
  destruct (nose_scan_Ok_inv profile 0 n Hscan) as (_ & H2 & H3 & H4).
  repeat split; try assumption. intros j Hj. apply H4. lia.
Qed.

Lemma SetProfile_noseindex_first_rise_witness :
  exists n : nat,
    BasicProfile2D.mk (Some diamond) (Some 2%nat)
    = BasicProfile2D.mk (Some diamond) (Some n) /\
    (n + 1 < length diamond)%nat /\
    xcoord diamond (n + 1) >= xcoord diamond n /\
    forall j, (j < n)%nat -> xcoord diamond (j + 1) < xcoord diamond j.
Proof.
  apply (SetProfile_noseindex_first_rise diamond BasicProfile2D.blank).
  rewrite SetProfile_run, nose_scan_diamond. reflexivity.
Defined.

Lemma Normalize_Ok_inv (self self' : BasicProfile2D.t) :
  BasicProfile2D.Normalize self = (self', Ok tt) ->
  exists (p1 : point) (rest : list point) (nose : point) (dmax : R),
    BasicProfile2D.data self = Some (p1 :: rest) /\
    BasicProfile2D.farthest p1 (p1 :: rest) = (dmax, Some nose) /\
    self' = BasicProfile2D.mk
              (Some (map (fun i => mdot (normalizing_matrix p1 nose dmax) (psub i nose))
                         (p1 :: rest)))
              (BasicProfile2D.noseindex self).
Proof.
  unfold BasicProfile2D.Normalize, BasicProfile2D.get_data, bind.
  destruct (BasicProfile2D.data self) as [[|p1 rest]|] eqn:Hd;
    cbn [getattr lift getitem nth_error]; try discriminate.
  destruct (BasicProfile2D.farthest p1 (p1 :: rest)) as [dmax [nose|]] eqn:Hfar;
    [|discriminate].
  intros H. injection H as <-.
  exists p1, rest, nose, dmax. repeat split. exact Hfar.
Qed.

Lemma norm_zero (v : point) : Vector.norm v <= 0 -> v = (0, 0).
Proof.
  intros H. pose proof (norm_nonneg v) as H0. pose proof (norm_square v) as Hsq.
  assert (Hn : Vector.norm v = 0) by lra. rewrite Hn in Hsq.
  destruct v as [x y]. unfold sumsq, px, py in Hsq; simpl in Hsq.
  assert (x = 0) by nra. assert (y = 0) by nra. subst. reflexivity.
Qed.

Lemma psub_zero (p q : point) : psub p q = (0, 0) -> p = q.
Proof.
  destruct p as [x y]. destruct q as [x' y']. unfold psub, px, py; simpl.
  intros H. injection H as Hx Hy. f_equal; lra.
Qed.

(** X3.  The edge cases of [Normalize].  Without [data] it raises
    AttributeError and on an empty array IndexError, and the object is
    what it was.  On an array with a first point, the loop that looks for
    the nose ends with [dmax = 0.] and [nose = 0] exactly if every point is
    the first one, so that the quotients by [dmax] that follow are
    quotients by zero exactly then; and it ends with a stored point
    [nose] other than the first and [dmax > 0] exactly if some point
    differs from the first one. *)
Theorem Normalize_degenerate (self : BasicProfile2D.t) :
  (BasicProfile2D.data self = None ->
   BasicProfile2D.Normalize self = (self, Raise (AttributeError "data"))) /\
  (BasicProfile2D.data self = Some [] ->
   BasicProfile2D.Normalize self = (self, Raise (IndexError 0))) /\
  (forall p1 rest,
     ((forall p, In p rest -> p = p1) <->
      BasicProfile2D.farthest p1 (p1 :: rest) = (0, None)) /\
     ((exists p, In p rest /\ p <> p1) <->
      exists dmax nose,
        BasicProfile2D.farthest p1 (p1 :: rest) = (dmax, Some nose) /\
        0 < dmax /\ In nose rest /\ nose <> p1)).
Proof.
  split; [|split].
  - unfold BasicProfile2D.Normalize, BasicProfile2D.get_data, bind.
    intros ->. reflexivity.
  - unfold BasicProfile2D.Normalize, BasicProfile2D.get_data, bind.
    intros ->. reflexivity.
  - intros p1 rest.
    assert (Hzero : Vector.norm (psub p1 p1) = 0).
    { apply norm_value; [lra|]. unfold sumsq, psub, px, py; simpl. ring. }
    pose proof (farthest_inv p1 (p1 :: rest) (0, None) eq_refl) as Hinv.
    rewrite <- farthest_fold in Hinv. cbv zeta in Hinv.
    destruct (BasicProfile2D.farthest p1 (p1 :: rest)) as [dmax nose] eqn:Hfar.
    simpl in Hinv. destruct Hinv as (_ & Hmax & Hnose).
    split; split.
    + intros Hall. rewrite <- Hfar, farthest_fold. apply farthest_keep.
      intros p [<-|Hp]; [|rewrite (Hall p Hp)]; simpl; rewrite Hzero; lra.
    + intros H. injection H as -> ->. intros p Hp.
      apply psub_zero, norm_zero, Hmax. right. exact Hp.
    + intros (p & Hp & Hne).
      destruct nose as [nose|].
      * destruct Hnose as (Hdm & Hpos & Hin).
        destruct Hin as [Hin|Hin]; [|discriminate].
        exists dmax, nose. split; [reflexivity|]. split; [exact Hpos|].
        destruct Hin as [<-|Hin].
        -- exfalso. rewrite Hzero in Hdm. lra.
        -- split; [exact Hin|]. intros ->. rewrite Hzero in Hdm. lra.
      * exfalso. destruct Hnose as (Hd & _). apply Hne.
        apply psub_zero, norm_zero. rewrite <- Hd. apply Hmax. right. exact Hp.
    + intros (dm & n & Hfar' & Hpos & Hin & Hne).
      exists n. split; assumption.
Qed.

Lemma Normalize_degenerate_witness :
  BasicProfile2D.farthest (1, 0) [(1, 0); (1, 0)] = (0, None).
Proof.
  apply (proj1 (proj1 (proj2 (proj2 (Normalize_degenerate BasicProfile2D.blank))
                         (1, 0) [(1, 0)]))).
  intros p [<-|[]]. reflexivity.
Defined.

Lemma Rltb_scale (k a b : R) : 0 < k -> Rltb (k * a) (k * b) = Rltb a b.
Proof.
  intros Hk. unfold Rltb.
  destruct (Rlt_dec (k * a) (k * b)), (Rlt_dec a b); try reflexivity; nra.
Qed.

(** The loop of [Normalize] on the image of the points under a map that
    multiplies every distance from the first point by [k]. *)
Lemma farthest_map (f : point -> point) (p1 : point) (k : R) :
  0 < k ->
  (forall p, Vector.norm (psub (f p) (f p1)) = k * Vector.norm (psub p p1)) ->
  forall (l : list point) (acc : R * option point),
    fold_left (farthest_step (f p1)) (map f l)
              (k * fst acc, option_map f (snd acc))
    = (k * fst (fold_left (farthest_step p1) l acc),
       option_map f (snd (fold_left (farthest_step p1) l acc))).
Proof.
  intros Hk Hnorm l. induction l as [|i l IH]; intros acc; simpl.
  - reflexivity.
  - replace (farthest_step (f p1) (k * fst acc, option_map f (snd acc)) (f i))
      with (k * fst (farthest_step p1 acc i),
            option_map f (snd (farthest_step p1 acc i))).
    + apply IH.
    + unfold farthest_step. simpl fst. rewrite Hnorm, Rltb_scale by exact Hk.
      destruct (Rltb (fst acc) (Vector.norm (psub i p1))); reflexivity.
Qed.

(** The matrix of [Normalize] divides every length by [dmax]. *)
Lemma normalizing_matrix_norm (p1 nose v : point) :
  let dmax := Vector.norm (psub nose p1) in
  0 < dmax ->
  Vector.norm (mdot (normalizing_matrix p1 nose dmax) v) = / dmax * Vector.norm v.
Proof.
  intros dmax Hpos.
  destruct (normalized_first_point p1 nose Hpos) as (Hm & _ & _).
  fold dmax in Hm. rewrite Hm.
  assert (Hsq : dmax * dmax
                = (px p1 - px nose) * (px p1 - px nose)
                  + (py p1 - py nose) * (py p1 - py nose)).
  { unfold dmax. rewrite norm_square, sumsq_psub_sym.
    unfold sumsq, psub, px, py; simpl. ring. }
  set (dx := px p1 - px nose) in *. set (dy := py p1 - py nose) in *.
  assert (Habs : Rabs dx * Rabs dx = dx * dx).
  { unfold Rabs. destruct (Rcase_abs dx); ring. }
  assert (Hinv : 0 < / dmax) by (apply Rinv_0_lt_compat, Hpos).
  apply norm_value.
  - apply Rmult_le_pos; [lra | apply norm_nonneg].
  - replace (/ dmax * Vector.norm v * (/ dmax * Vector.norm v))
      with (Vector.norm v * Vector.norm v / (dmax * dmax)) by (field; lra).
    rewrite norm_square.
    unfold sumsq, mdot, pdot, px, py; simpl.
    replace ((Rabs dx / dmax / dmax * fst v + - - (dy / dmax) / dmax * snd v)
             * (Rabs dx / dmax / dmax * fst v + - - (dy / dmax) / dmax * snd v)
             + (- (dy / dmax) / dmax * fst v + Rabs dx / dmax / dmax * snd v)
               * (- (dy / dmax) / dmax * fst v + Rabs dx / dmax / dmax * snd v))
      with ((Rabs dx * Rabs dx + dy * dy) * (fst v * fst v + snd v * snd v)
            / ((dmax * dmax) * (dmax * dmax))) by (field; lra).
    rewrite Habs, <- Hsq. field. lra.
Qed.

Lemma mdot_psub (m : matrix2) (a b c : point) :
  psub (mdot m (psub a c)) (mdot m (psub b c)) = mdot m (psub a b).
Proof.
  destruct m as [[m11 m12] [m21 m22]].
  unfold mdot, pdot, psub, px, py; simpl. split_pairs; ring.
Qed.

(** [Normalize] on a curve from [(1, 0)] whose farthest point is the
    origin, at distance 1. *)
Lemma Normalize_fixed (rest : list point) (k : option nat) :
  BasicProfile2D.farthest (1, 0) ((1, 0) :: rest) = (1, Some (0, 0)) ->
  BasicProfile2D.Normalize (BasicProfile2D.mk (Some ((1, 0) :: rest)) k)
  = (BasicProfile2D.mk (Some ((1, 0) :: rest)) k, Ok tt).
Proof.
  intros Hfar.
  rewrite (Normalize_run _ (1, 0) (0, 0) rest 1); [| reflexivity | exact Hfar].
  rewrite (normalizing_matrix_value (1, 0) (0, 0) 1 0 1);
    [| simpl; field | lra | ring].
  simpl BasicProfile2D.noseindex.
  do 3 f_equal.
  etransitivity; [|apply map_id].
  apply map_ext. intros [x y].
  unfold mdot, pdot, psub, px, py; simpl. split_pairs; field.
Qed.

(** X4.  [Normalize] is idempotent on a curve whose first point has the
    largest abscissa (and some point apart from it): it succeeds and a
    second [Normalize] changes nothing. *)
Theorem Normalize_idempotent (self : BasicProfile2D.t) (p1 : point)
    (rest : list point) :
  BasicProfile2D.data self = Some (p1 :: rest) ->
  (exists p, In p rest /\ 0 < Vector.norm (psub p p1)) ->
  (forall p, In p rest -> px p <= px p1) ->
  exists self' : BasicProfile2D.t,
    BasicProfile2D.Normalize self = (self', Ok tt) /\
    BasicProfile2D.Normalize self' = (self', Ok tt).
Proof.
  intros Hdata (q & Hq & Hqpos) Hleft.
  pose proof (farthest_inv p1 (p1 :: rest) (0, None) eq_refl) as Hinv.
  rewrite <- farthest_fold in Hinv. simpl in Hinv.
  destruct (BasicProfile2D.farthest p1 (p1 :: rest)) as [dmax nose] eqn:Hfar.
  simpl in Hinv. destruct Hinv as (_ & Hmax & Hnose).
  destruct nose as [nose|];
    [|exfalso; destruct Hnose as (Hd & _);
      specialize (Hmax q (or_intror Hq)); lra].
  destruct Hnose as (Hd & Hpos & [Hin|Hin]); [|discriminate].
  assert (Hpx : px nose <= px p1)
    by (destruct Hin as [<-|Hin]; [lra | apply Hleft, Hin]).
  rewrite Hd in Hpos.
  destruct (normalized_first_point p1 nose Hpos) as (_ & _ & Hfirst).
  specialize (Hfirst Hpx).
  set (m := normalizing_matrix p1 nose dmax).
  set (f := fun p : point => mdot m (psub p nose)).
  assert (Hf1 : f p1 = (1, 0)) by (unfold f, m; rewrite Hd; exact Hfirst).
  assert (Hfn : f nose = (0, 0)).
  { unfold f. destruct m as [[m11 m12] [m21 m22]].
    unfold mdot, pdot, psub, px, py; simpl. split_pairs; ring. }
  assert (Hscale : forall p, Vector.norm (psub (f p) (f p1))
                             = / dmax * Vector.norm (psub p p1)).
  { intros p. unfold f. rewrite mdot_psub. unfold m. rewrite Hd.
    apply (normalizing_matrix_norm p1 nose (psub p p1) Hpos). }
  assert (Hinvpos : 0 < / dmax) by (rewrite Hd; apply Rinv_0_lt_compat, Hpos).
  assert (Hfar' : BasicProfile2D.farthest (1, 0) ((1, 0) :: map f rest)
                  = (1, Some (0, 0))).
  { rewrite <- Hf1 at 1 2.
    change (f p1 :: map f rest) with (map f (p1 :: rest)).
    rewrite farthest_fold.
    replace (0, @None point)
      with (/ dmax * fst (0, @None point), option_map f (snd (0, @None point)))
      by (simpl; f_equal; ring).
    rewrite (farthest_map f p1 (/ dmax) Hinvpos Hscale).
    rewrite <- farthest_fold, Hfar. simpl.
    rewrite Hfn. f_equal. field. rewrite Hd. lra. }
  exists (BasicProfile2D.mk (Some ((1, 0) :: map f rest))
            (BasicProfile2D.noseindex self)).
  split.
  - rewrite (Normalize_run self p1 nose rest dmax Hdata Hfar).
    fold m. change (fun i : point => mdot m (psub i nose)) with f.
    simpl map. rewrite Hf1. reflexivity.
  - apply Normalize_fixed, Hfar'.
Qed.

Lemma Normalize_idempotent_witness :
  exists self' : BasicProfile2D.t,
    BasicProfile2D.Normalize (BasicProfile2D.mk (Some half) (Some 2%nat))
    = (self', Ok tt) /\
    BasicProfile2D.Normalize self' = (self', Ok tt).
Proof.
  apply (Normalize_idempotent (BasicProfile2D.mk (Some half) (Some 2%nat))
           (1 / 2, 0) [(1 / 4, 1 / 10); (0, 0); (1 / 4, - 1 / 10); (1 / 2, 0)]
           eq_refl).
  - exists (0, 0). split; [simpl; tauto|].
    apply norm_pos. unfold sumsq, psub, px, py; simpl. lra.
  - intros p [<-|[<-|[<-|[<-|[]]]]]; simpl; lra.
Defined.

(* ================================================================== *)
(** * What a constructor that succeeded has done                       *)
(* ================================================================== *)

Lemma Profile2D_init_inv (header : option string) (profile : list point)
    (name : string) (self P : Profile2D.t) :
  Profile2D.__init__ header profile name self = (P, Ok tt) ->
  (header = None /\ profile = [] /\
   P = Profile2D.mk name (Profile2D.base self) (Profile2D._rootprof self)) \/
  (exists (i i' : nat) (d' : list point),
     BasicProfile2D.nose_scan profile 0 = Ok i /\
     BasicProfile2D.Normalize (BasicProfile2D.mk (Some profile) (Some i))
       = (BasicProfile2D.mk (Some d') (Some i), Ok tt) /\
     BasicProfile2D.nose_scan d' 0 = Ok i' /\
     P = Profile2D.mk (match header with Some h => h | None => name end)
           (BasicProfile2D.mk (Some d') (Some i'))
           (Some (BasicProfile2D.mk (Some d') (Some i)))).
Proof.
  unfold Profile2D.__init__.
  assert (Hmain :
    forall s0 : Profile2D.t,
      Profile2D.Name s0 = match header with Some h => h | None => name end ->
      bind (lift (BasicProfile2D.new profile))
           (fun root =>
              bind (Profile2D.set_rootprof root)
                (fun _ =>
                   bind (Profile2D.rootprof_call BasicProfile2D.Normalize)
                     (fun _ =>
                        bind (Profile2D.rootprof_call BasicProfile2D._GetProfile)
                          (fun p => Profile2D.super (BasicProfile2D._SetProfile p)))))
           s0 = (P, Ok tt) ->
      exists (i i' : nat) (d' : list point),
        BasicProfile2D.nose_scan profile 0 = Ok i /\
        BasicProfile2D.Normalize (BasicProfile2D.mk (Some profile) (Some i))
          = (BasicProfile2D.mk (Some d') (Some i), Ok tt) /\
        BasicProfile2D.nose_scan d' 0 = Ok i' /\
        P = Profile2D.mk (match header with Some h => h | None => name end)
              (BasicProfile2D.mk (Some d') (Some i'))
              (Some (BasicProfile2D.mk (Some d') (Some i)))).
  { intros s0 Hname.
    unfold bind at 1. unfold lift at 1.
    rewrite BasicProfile2D_new_run.
    destruct (BasicProfile2D.nose_scan profile 0) as [i|e] eqn:Hscan;
      [|discriminate].
    unfold bind at 1. unfold Profile2D.set_rootprof at 1, modify at 1.
    unfold bind at 1. unfold Profile2D.rootprof_call at 1.
    cbn [Profile2D._rootprof Profile2D.Name Profile2D.base].
    destruct (BasicProfile2D.Normalize (BasicProfile2D.mk (Some profile) (Some i)))
      as [root' [[]|e]] eqn:Hnorm; [|discriminate].
    destruct (Normalize_Ok_inv _ _ Hnorm) as (p1 & rest & nose & dmax & _ & _ & Hroot').
    cbn [BasicProfile2D.noseindex] in Hroot'.
    remember (map (fun i0 => mdot (normalizing_matrix p1 nose dmax) (psub i0 nose))
                  (p1 :: rest)) as d' eqn:Hd'.
    subst root'.
    unfold bind at 1. unfold Profile2D.rootprof_call at 1.
    cbn [Profile2D._rootprof Profile2D.Name Profile2D.base].
    unfold BasicProfile2D._GetProfile, BasicProfile2D.get_data.
    cbn [BasicProfile2D.data getattr].
    unfold Profile2D.super. rewrite SetProfile_run.
    cbn [Profile2D._rootprof Profile2D.Name Profile2D.base].
    destruct (BasicProfile2D.nose_scan d' 0) as [i'|e] eqn:Hscan'; [|discriminate].
    intros H. injection H as <-.
    exists i, i', d'. rewrite Hname.
    split; [reflexivity|]. split; [exact Hnorm|]. split; [exact Hscan'|reflexivity]. }
  intros H.
  unfold bind at 1 in H. unfold Profile2D.set_Name at 1, modify at 1 in H.
  destruct header as [h|].
  - right.
    destruct profile as [|p rest];
      (unfold bind at 1 in H; unfold Profile2D.set_Name at 1, modify at 1 in H;
       refine (Hmain _ _ H); reflexivity).
  - destruct profile as [|p rest].
    + left. unfold ret in H. injection H as <-. repeat split.
    + right.
      unfold bind at 1 in H. unfold ret at 1 in H.
      refine (Hmain _ _ H); reflexivity.
Qed.

Lemma Normalize_Ok_shape (self self' : BasicProfile2D.t) :
  BasicProfile2D.Normalize self = (self', Ok tt) ->
  exists d d' : list point,
    BasicProfile2D.data self = Some d /\
    self' = BasicProfile2D.mk (Some d') (BasicProfile2D.noseindex self) /\
    length d' = length d /\
    In (0, 0) d' /\
    exists q, nth_error d' 0 = Some q /\ Vector.norm q = 1.
Proof.
  intros H.
  destruct (Normalize_Ok_inv _ _ H) as (p1 & rest & nose & dmax & Hd & Hfar & ->).
  pose proof (farthest_inv p1 (p1 :: rest) (0, None) eq_refl) as Hinv.
  rewrite <- farthest_fold in Hinv. rewrite Hfar in Hinv. simpl in Hinv.
  destruct Hinv as (_ & _ & Hdm & Hpos & Hin).
  destruct Hin as [Hin|Hin]; [|discriminate].
  exists (p1 :: rest),
         (map (fun i => mdot (normalizing_matrix p1 nose dmax) (psub i nose))
              (p1 :: rest)).
  split; [exact Hd|]. split; [reflexivity|].
  split; [apply length_map|]. split.
  - apply in_map_iff. exists nose. split; [|exact Hin].
    unfold mdot, pdot, psub, px, py; simpl. split_pairs; ring.
  - exists (mdot (normalizing_matrix p1 nose dmax) (psub p1 nose)).
    split; [reflexivity|].
    rewrite Hdm. rewrite Hdm in Hpos.
    apply (normalized_first_point p1 nose Hpos).
Qed.

Lemma Profile2D_new_inv (header : option string) (profile : list point)
    (name : string) (P : Profile2D.t) :
  Profile2D.new header profile name = Ok P ->
  profile <> [] ->
  exists (i i' : nat) (d' : list point),
    BasicProfile2D.nose_scan profile 0 = Ok i /\
    BasicProfile2D.Normalize (BasicProfile2D.mk (Some profile) (Some i))
      = (BasicProfile2D.mk (Some d') (Some i), Ok tt) /\
    BasicProfile2D.nose_scan d' 0 = Ok i' /\
    P = Profile2D.mk (match header with Some h => h | None => name end)
          (BasicProfile2D.mk (Some d') (Some i'))
          (Some (BasicProfile2D.mk (Some d') (Some i))).
Proof.
  unfold Profile2D.new, exec.
  destruct (Profile2D.__init__ header profile name Profile2D.blank)
    as [P' [[]|e]] eqn:H; [|discriminate].
  intros HP Hne. injection HP as <-.
  destruct (Profile2D_init_inv _ _ _ _ _ H) as [(_ & Hp & _)|H'];
    [congruence | exact H'].
Qed.

Section ResetFacts.

Context {Position : Type}.
Variable Point : list point -> R -> R -> result (Position * point).

(** The setter of [XValues] never assigns [Name]. *)
Lemma SetXValues_keeps_name (xval : list R) (self : Profile2D.t) :
  Profile2D.Name (fst (Profile2D._SetXValues Point xval self))
  = Profile2D.Name self.
Proof.
  unfold Profile2D._SetXValues, Profile2D.rootprof_call, bind, lift.
  destruct (Profile2D._rootprof self) as [root|] eqn:Hroot; [|reflexivity].
  destruct (BasicProfile2D.Points Point root xval) as [pts|e]; [|reflexivity].
  destruct (column1 pts) as [col|e]; [|reflexivity].
  rewrite Profile2D_SetProfile_run.
  destruct (BasicProfile2D.nose_scan col 0); reflexivity.
Qed.

(** X6.  [Reset] undoes any assignment to [XValues] on a profile as the
    constructor has built it: whatever the x-values were, and whether the
    assignment succeeded or stopped half-way, the object is afterwards
    the constructed one again. *)
Theorem Reset_restores_constructed (header : option string)
    (profile : list point) (name : string) (P : Profile2D.t) (xval : list R) :
  Profile2D.new header profile name = Ok P ->
  profile <> [] ->
  Profile2D.Reset (fst (Profile2D._SetXValues Point xval P)) = (P, Ok tt).
Proof.
  intros HP Hne.
  destruct (Profile2D_new_inv _ _ _ _ HP Hne) as (i & i' & d' & Hi & Hnorm & Hi' & HPeq).
  pose proof (SetXValues_keeps_root Point xval P) as Hroot.
  pose proof (SetXValues_keeps_name xval P) as Hname.
  destruct (fst (Profile2D._SetXValues Point xval P)) as [n b r].
  simpl in Hroot, Hname. subst P. simpl in Hroot, Hname. subst n r.
  unfold Profile2D.Reset, bind, Profile2D.rootprof_call.
  cbn [Profile2D._rootprof Profile2D.Name Profile2D.base].
  unfold BasicProfile2D._GetProfile, BasicProfile2D.get_data.
  cbn [BasicProfile2D.data getattr].
  rewrite Profile2D_SetProfile_run, Hi'. reflexivity.
Qed.

End ResetFacts.

Lemma Reset_restores_constructed_witness :
  Profile2D.Reset (fst (Profile2D._SetXValues Model.Point [-1; 0; 1] diamond_profile))
  = (diamond_profile, Ok tt).
Proof.
  apply (Reset_restores_constructed Model.Point None diamond "Profile").
  - exact diamond_profile_constructed.
  - discriminate.
Defined.

(* ================================================================== *)
(** * When the nose scan raises                                        *)
(* ================================================================== *)

Lemma nose_scan_Raise_inv (profile : list point) (i : nat) (e : exn) :
  BasicProfile2D.nose_scan profile i = Raise e ->
  e = IndexError (Nat.max (i + 1) (length profile)) /\
  forall j, (i <= j)%nat -> (j + 1 < length profile)%nat ->
            xcoord profile (j + 1) < xcoord profile j.
Proof.
  funelim (BasicProfile2D.nose_scan profile i).
  - intros He. injection He as <-.
    match goal with
    | Hn : nth_error _ _ = None |- _ =>
        pose proof (proj1 (nth_error_None _ _) Hn) as Hlen
    end.
    split; [f_equal; lia | intros j Hj1 Hj2; lia].
  - clear Heqcall.
    assert (Hlen : (i + 1 < length profile)%nat)
      by (apply nth_error_Some; congruence).
    assert (Hxq : xcoord profile (i + 1) = px q)
      by (unfold xcoord; rewrite (nth_error_nth _ _ _ Hq); reflexivity).
    assert (Hxp : xcoord profile i = px p)
      by (unfold xcoord; rewrite (getitem_Ok_nth _ _ _ _ Heq); reflexivity).
    unfold Rltb. destruct (Rlt_dec (px q) (px p)) as [Hlt|Hge]; simpl;
      [|discriminate].
    replace (i <? length profile)%nat with true
      by (symmetry; apply Nat.ltb_lt; lia).
    intros He. apply H in He. destruct He as (-> & Hfall).
    split; [f_equal; lia|].
    intros j Hj1 Hj2. destruct (Nat.eq_dec j i) as [->|Hne].
    + rewrite Hxq, Hxp. exact Hlt.
    + apply Hfall; lia.
  - exfalso.
    assert (Hlen : (i + 1 < length profile)%nat)
      by (apply nth_error_Some; congruence).
    unfold getitem in Heq.
    destruct (nth_error profile i) eqn:Hnth; [discriminate Heq|].
    apply nth_error_None in Hnth. lia.
Qed.

(** X2.  [_SetProfile] raises exactly when the abscissas fall strictly
    from the first point to the last (as they do in a list of fewer than
    two points); the exception is then the IndexError of the read past the
    last point, [data] has been assigned already and [noseindex] is what it
    was.  The test [i < len(profile)] of the loop never ends it. *)
Theorem SetProfile_raises_iff_falling (profile : list point)
    (self : BasicProfile2D.t) :
  let falling := forall j, (j + 1 < length profile)%nat ->
                           xcoord profile (j + 1) < xcoord profile j in
  (falling ->
   BasicProfile2D._SetProfile profile self
   = (BasicProfile2D.mk (Some profile) (BasicProfile2D.noseindex self),
      Raise (IndexError (Nat.max 1 (length profile))))) /\
  (forall e, snd (BasicProfile2D._SetProfile profile self) = Raise e -> falling).
Proof.
  intros falling. rewrite SetProfile_run. split.
  - intros Hfall.
    destruct (BasicProfile2D.nose_scan profile 0) as [n|e] eqn:Hscan.
    + exfalso. destruct (nose_scan_Ok_inv profile 0 n Hscan) as (_ & H2 & H3 & _).
      specialize (Hfall n H2). lra.
    + destruct (nose_scan_Raise_inv profile 0 e Hscan) as (-> & _). reflexivity.
  - intros e.
    destruct (BasicProfile2D.nose_scan profile 0) as [n|e'] eqn:Hscan;
      [discriminate|].
    intros _ j Hj.
    apply (proj2 (nose_scan_Raise_inv profile 0 e' Hscan) j); [lia | exact Hj].
Qed.

(* ================================================================== *)
(** * Assignments to XValues that fail                                 *)
(* ================================================================== *)

Section ResampleFacts.

Context {Position : Type}.
Variable Point : list point -> R -> R -> result (Position * point).

(** X7.  An assignment to [XValues] that fails before the new points are
    stored leaves the object as it was: without a root profile it raises
    AttributeError, an exception of [Point] is passed on, and an empty list
    of x-values gives an array without a second axis (IndexError). *)
Theorem SetXValues_failure_atomic (xval : list R) (self : Profile2D.t) :
  (Profile2D._rootprof self = None ->
   Profile2D._SetXValues Point xval self
   = (self, Raise (AttributeError "_rootprof"))) /\
  (forall root e,
     Profile2D._rootprof self = Some root ->
     BasicProfile2D.Points Point root xval = Raise e ->
     Profile2D._SetXValues Point xval self = (self, Raise e)) /\
  (forall root,
     Profile2D._rootprof self = Some root ->
     xval = [] ->
     Profile2D._SetXValues Point xval self = (self, Raise (IndexError 1))).
Proof.
  unfold Profile2D._SetXValues, Profile2D.rootprof_call, bind, lift.
  destruct self as [n b r]. cbn [Profile2D._rootprof Profile2D.Name Profile2D.base].
  split; [|split].
  - intros ->. reflexivity.
  - intros root e -> ->. reflexivity.
  - intros root -> ->. reflexivity.
Qed.

(** X8.  An assignment to [XValues] is not atomic: if the points found at
    the x-values have strictly falling abscissas, the points are stored,
    the nose scan raises IndexError behind the last of them, and
    [noseindex] stays the index of the points that were replaced. *)
Theorem SetXValues_falling_half_update (xval : list R) (self : Profile2D.t)
    (root : BasicProfile2D.t) (pts : list (Position * point)) :
  Profile2D._rootprof self = Some root ->
  BasicProfile2D.Points Point root xval = Ok pts ->
  pts <> [] ->
  (forall j, (j + 1 < length pts)%nat ->
             xcoord (map snd pts) (j + 1) < xcoord (map snd pts) j) ->
  Profile2D._SetXValues Point xval self
  = (Profile2D.mk (Profile2D.Name self)
       (BasicProfile2D.mk (Some (map snd pts)) (Profile2D.noseindex self))
       (Profile2D._rootprof self),
     Raise (IndexError (length xval))).
Proof.
  intros Hroot Hpts Hne Hfall.
  rewrite (SetXValues_run Point xval self root pts Hroot Hpts Hne).
  rewrite Profile2D_SetProfile_run.
  rewrite nose_scan_all_fall.
  - rewrite length_map. rewrite (mapM_length _ _ _ Hpts). reflexivity.
  - rewrite length_map. destruct pts; [congruence | simpl; lia].
  - rewrite length_map. exact Hfall.
Qed.

End ResampleFacts.

Lemma SetXValues_failure_atomic_witness :
  Profile2D._SetXValues Model.Point [] diamond_profile
  = (diamond_profile, Raise (IndexError 1)).
Proof.
  exact (proj2 (proj2 (SetXValues_failure_atomic Model.Point [] diamond_profile))
           diamond_root eq_refl eq_refl).
Defined.

Lemma SetXValues_falling_half_update_witness :
  snd (Profile2D._SetXValues Model.Point [-1; - (1 / 2)] diamond_profile)
  = Raise (IndexError 2) /\
  Profile2D.noseindex
    (fst (Profile2D._SetXValues Model.Point [-1; - (1 / 2)] diamond_profile))
  = Some 2%nat.
Proof.
  destruct (diamond_Points_defined [-1; - (1 / 2)]) as [pts Hpts].
  - intros x [<-|[<-|[]]]; lra.
  - assert (Hne : pts <> []).
    { intros ->. apply mapM_length in Hpts. discriminate. }
    assert (Hfall : forall j, (j + 1 < length pts)%nat ->
              xcoord (map snd pts) (j + 1) < xcoord (map snd pts) j).
    { unfold BasicProfile2D.Points, BasicProfile2D.Point, diamond_root in Hpts.
      cbn [BasicProfile2D.data getattr rbind mapM] in Hpts.
      destruct (Model.Point diamond (-1) (-1)) as [[pa a]|e] eqn:Ha;
        [|discriminate].
      destruct (Model.Point diamond (- (1 / 2)) (-1)) as [[pb b]|e] eqn:Hb;
        [|discriminate].
      cbn [rbind] in Hpts. injection Hpts as <-.
      apply Model_Point_abscissa in Ha, Hb.
      intros [|j] Hj; [|simpl in Hj; lia].
      unfold xcoord; simpl. rewrite Ha, Hb.
      rewrite !Rabs_left by lra. lra. }
    rewrite (SetXValues_falling_half_update Model.Point [-1; - (1 / 2)]
               diamond_profile diamond_root pts eq_refl Hpts Hne Hfall).
    split; reflexivity.
Defined.

(* ================================================================== *)
(** * Reading XValues back, small point numbers, the root profile      *)
(* ================================================================== *)

Section ReadBackFacts.

Context {Position : Type}.
Variable Point : list point -> R -> R -> result (Position * point).

Lemma Points_abscissas (root : BasicProfile2D.t) (xval : list R)
    (pts : list (Position * point)) :
  (forall d x pos q, Point d x (-1) = Ok (pos, q) -> px q = Rabs x) ->
  BasicProfile2D.Points Point root xval = Ok pts ->
  map px (map snd pts) = map Rabs xval.
Proof.
  intros Habs. unfold BasicProfile2D.Points. revert pts.
  induction xval as [|x xval IH]; intros pts Hpts.
  - injection Hpts as <-. reflexivity.
  - simpl in Hpts.
    destruct (BasicProfile2D.Point Point root x (-1)) as [[pos q]|e] eqn:Hx;
      [|discriminate].
    destruct (mapM (fun x0 => BasicProfile2D.Point Point root x0 (-1)) xval)
      as [rest|e] eqn:Hrest; [|discriminate].
    simpl in Hpts. injection Hpts as <-. simpl.
    rewrite (IH rest eq_refl). f_equal.
    unfold BasicProfile2D.Point in Hx.
    destruct (BasicProfile2D.data root) as [d|]; [|discriminate].
    simpl in Hx. exact (Habs d x pos q Hx).
Qed.

(** X9.  What [XValues] reads after an assignment that succeeded, for a
    [Point] that answers at the abscissa asked for: the absolute values of
    the x-values assigned, negated before the nose index the scan has just
    found and as they are from it on.  So the x-values assigned are read
    back exactly if none before that index is positive and none from it
    on is negative. *)
Theorem XValues_read_back (xval : list R) (self self' : Profile2D.t) :
  (forall d x pos q, Point d x (-1) = Ok (pos, q) -> px q = Rabs x) ->
  Profile2D._SetXValues Point xval self = (self', Ok tt) ->
  exists k : nat,
    Profile2D.noseindex self' = Some k /\
    eval Profile2D._GetXValues self'
    = Ok (map (fun x => - Rabs x) (firstn k xval) ++ map Rabs (skipn k xval)) /\
    ((forall x, In x (firstn k xval) -> x <= 0) ->
     (forall x, In x (skipn k xval) -> 0 <= x) ->
     eval Profile2D._GetXValues self' = Ok xval).
Proof.
  intros Habs H.
  unfold Profile2D._SetXValues, Profile2D.rootprof_call in H.
  unfold bind at 1 in H.
  destruct (Profile2D._rootprof self) as [root|] eqn:Hroot; [|discriminate].
  destruct (BasicProfile2D.Points Point root xval) as [pts|e] eqn:Hpts;
    [|discriminate].
  unfold bind at 1, lift at 1 in H.
  destruct (column1 pts) as [col|e] eqn:Hcol; [|discriminate].
  assert (Hcol' : col = map snd pts).
  { unfold column1 in Hcol.
    destruct pts; [discriminate | injection Hcol as <-; reflexivity]. }
  subst col.
  rewrite Profile2D_SetProfile_run in H.
  destruct (BasicProfile2D.nose_scan (map snd pts) 0) as [k|e] eqn:Hscan;
    [|discriminate].
  injection H as <-. exists k.
  assert (Hread :
    eval Profile2D._GetXValues
      (Profile2D.mk (Profile2D.Name self)
         (BasicProfile2D.mk (Some (map snd pts)) (Some k)) (Some root))
    = Ok (map (fun x => - Rabs x) (firstn k xval) ++ map Rabs (skipn k xval))).
  { unfold eval.
    rewrite (GetXValues_run
               (Profile2D.mk (Profile2D.Name self)
                  (BasicProfile2D.mk (Some (map snd pts)) (Some k)) (Some root))
               (map snd pts) k eq_refl eq_refl).
    simpl. f_equal. unfold signed_xvalues.
    pose proof (Points_abscissas root xval pts Habs Hpts) as Hx.
    f_equal.
    - transitivity (map Ropp (firstn k (map px (map snd pts)))).
      + rewrite (firstn_map px), map_map. apply map_ext. intros p. ring.
      + rewrite Hx, (firstn_map Rabs), map_map. reflexivity.
    - transitivity (skipn k (map px (map snd pts))).
      + rewrite (skipn_map px). reflexivity.
      + rewrite Hx, (skipn_map Rabs). reflexivity. }
  split; [reflexivity|]. split; [exact Hread|].
  intros Hneg Hpos. rewrite Hread. f_equal.
  rewrite <- (firstn_skipn k xval) at 3. f_equal.
  - rewrite <- (map_id (firstn k xval)) at 2. apply map_ext_in.
    intros x Hx. specialize (Hneg x Hx).
    destruct (Req_dec x 0) as [->|Hne].
    + rewrite Rabs_R0. ring.
    + rewrite Rabs_left by lra. ring.
  - rewrite <- (map_id (skipn k xval)) at 2. apply map_ext_in.
    intros x Hx. apply Rabs_pos_eq. exact (Hpos x Hx).
Qed.

(** X10.  [Numpoints = num] for small numbers.  With [num] 0 or 1 the
    count is rounded down to 0 and the first fraction [0 * 1. / 0] raises
    ZeroDivisionError; with a negative [num] there is no x-value at all and
    the assignment of the empty list raises IndexError.  The object is
    unchanged in both cases. *)
Theorem SetLen_small_numbers (num : Z) (self : Profile2D.t) :
  (num = 0%Z \/ num = 1%Z ->
   Profile2D._SetLen Point num self = (self, Raise ZeroDivisionError)) /\
  ((num < 0)%Z ->
   forall root, Profile2D._rootprof self = Some root ->
   Profile2D._SetLen Point num self = (self, Raise (IndexError 1))).
Proof.
  split.
  - intros Hnum. unfold Profile2D._SetLen.
    replace (num - num mod 2)%Z with 0%Z by (destruct Hnum as [->| ->]; reflexivity).
    reflexivity.
  - intros Hneg root Hroot. unfold Profile2D._SetLen.
    assert (Hmod : (0 <= num mod 2 < 2)%Z) by (apply Z.mod_pos_bound; lia).
    assert (Hrange : range (num - num mod 2 + 1) = []).
    { unfold range.
      replace (Z.to_nat (num - num mod 2 + 1)) with 0%nat by lia. reflexivity. }
    rewrite Hrange. cbn [mapM]. unfold bind at 1, lift at 1.
    unfold Profile2D._SetXValues, Profile2D.rootprof_call, bind, lift.
    destruct self as [n b r]. simpl in Hroot. subst r. reflexivity.
Qed.

End ReadBackFacts.

Lemma XValues_read_back_witness :
  eval Profile2D._GetXValues
    (fst (Profile2D._SetXValues Model.Point [-1; 0; 1] diamond_profile))
  = Ok [-1; 0; 1].
Proof.
  assert (Habs : forall d x (pos : R) q,
            Model.Point d x (-1) = Ok (pos, q) -> px q = Rabs x)
    by exact Model_Point_abscissa.
  destruct (diamond_Points_defined [-1; 0; 1]) as [pts Hpts].
  - intros x [<-|[<-|[<-|[]]]]; lra.
  - assert (Hne : pts <> []).
    { intros ->. apply mapM_length in Hpts. discriminate. }
    assert (Hscan : BasicProfile2D.nose_scan (map snd pts) 0 = Ok 1%nat).
    { rewrite (nose_scan_px (map snd pts) [(1, 0); (0, 0); (1, 0)])
        with (n := length (map snd pts)); [| |lia].
      - apply (nose_scan_first_rise [(1, 0); (0, 0); (1, 0)] 1).
        + simpl; lia.
        + unfold xcoord; simpl; lra.
        + intros j Hj. assert (j = 0%nat) as -> by lia.
          unfold xcoord; simpl; lra.
      - rewrite (Points_abscissas Model.Point diamond_root [-1; 0; 1] pts Habs Hpts).
        simpl. rewrite Rabs_R0, Rabs_R1, Rabs_left by lra.
        repeat f_equal. lra. }
    assert (Hrun :
      Profile2D._SetXValues Model.Point [-1; 0; 1] diamond_profile
      = (Profile2D.mk "Profile"
           (BasicProfile2D.mk (Some (map snd pts)) (Some 1%nat))
           (Some diamond_root), Ok tt)).
    { rewrite (SetXValues_run Model.Point [-1; 0; 1] diamond_profile diamond_root
                 pts eq_refl Hpts Hne).
      rewrite Profile2D_SetProfile_run, Hscan. reflexivity. }
    rewrite Hrun.
    destruct (XValues_read_back Model.Point [-1; 0; 1] diamond_profile _ Habs Hrun)
      as (k & Hk & _ & Hback).
    injection Hk as <-.
    apply Hback.
    + intros x [<-|[]]. lra.
    + intros x [<-|[<-|[]]]; lra.
Defined.

Lemma SetLen_small_numbers_witness :
  Profile2D._SetLen Model.Point 1 diamond_profile
  = (diamond_profile, Raise ZeroDivisionError).
Proof.
  exact (proj1 (SetLen_small_numbers Model.Point 1 diamond_profile)
           (or_intror eq_refl)).
Defined.

(* ================================================================== *)
(** * The root profile is read-only, copies, products                  *)
(* ================================================================== *)

Section RootPointFacts.

Context {Position : Type}.
Variable Point : list point -> R -> R -> result (Position * point).

Lemma SetLen_keeps_root (num : Z) (self : Profile2D.t) :
  Profile2D._rootprof (fst (Profile2D._SetLen Point num self))
  = Profile2D._rootprof self.
Proof.
  unfold Profile2D._SetLen. unfold bind at 1, lift at 1.
  destruct (mapM _ (range (num - num mod 2 + 1))) as [xs|e]; [|reflexivity].
  apply SetXValues_keeps_root.
Qed.

Lemma SetProfile_keeps_root (profile : list point) (self : Profile2D.t) :
  Profile2D._rootprof (fst (Profile2D._SetProfile profile self))
  = Profile2D._rootprof self.
Proof.
  rewrite Profile2D_SetProfile_run.
  destruct (BasicProfile2D.nose_scan profile 0); reflexivity.
Qed.

Lemma Reset_keeps_root (self : Profile2D.t) :
  Profile2D._rootprof (fst (Profile2D.Reset self)) = Profile2D._rootprof self.
Proof.
  unfold Profile2D.Reset, bind, Profile2D.rootprof_call.
  destruct (Profile2D._rootprof self) as [root|] eqn:Hroot; [|exact Hroot].
  unfold BasicProfile2D._GetProfile, BasicProfile2D.get_data.
  destruct (getattr "data" (BasicProfile2D.data root)) as [d|e];
    [|simpl; congruence].
  rewrite SetProfile_keeps_root. reflexivity.
Qed.

(** X11.  [RootPoint] reads the root profile only, which the setters of
    [XValues], [Numpoints] and [Profile] and [Reset] never assign: the
    answer of [RootPoint] is the same before and after an assignment to
    [XValues], to [Numpoints] or to [Profile], and after [Reset], whether
    the assignment succeeded or not. *)
Theorem RootPoint_unchanged (self : Profile2D.t) (x h : R) :
  (forall xval,
     Profile2D.RootPoint Point (fst (Profile2D._SetXValues Point xval self)) x h
     = Profile2D.RootPoint Point self x h) /\
  (forall num,
     Profile2D.RootPoint Point (fst (Profile2D._SetLen Point num self)) x h
     = Profile2D.RootPoint Point self x h) /\
  (forall profile,
     Profile2D.RootPoint Point (fst (Profile2D._SetProfile profile self)) x h
     = Profile2D.RootPoint Point self x h) /\
  Profile2D.RootPoint Point (fst (Profile2D.Reset self)) x h
  = Profile2D.RootPoint Point self x h.
Proof.
  unfold Profile2D.RootPoint. repeat split; intros.
  - rewrite SetXValues_keeps_root. reflexivity.
  - rewrite SetLen_keeps_root. reflexivity.
  - rewrite SetProfile_keeps_root. reflexivity.
  - rewrite Reset_keeps_root. reflexivity.
Qed.

End RootPointFacts.

Lemma array_equal_points_refl (a : list point) : array_equal_points a a = true.
Proof.
  induction a as [|p a IH]; simpl; [reflexivity|].
  rewrite !Reqb_true by reflexivity. exact IH.
Qed.

(** X12.  [copy] of a profile whose points start at [(1, 0)], pass through
    the origin and stay within distance 1 of [(1, 0)]: the copy has the
    same points and the same nose index and compares equal to the
    original, but it has the default name, and its root profile is the
    copied points, not the root profile of the original. *)
Theorem copy_unit_chord (self : Profile2D.t) (before after : list point)
    (i : nat) :
  let d := (1, 0) :: before ++ (0, 0) :: after in
  Profile2D.data self = Some d ->
  (forall p, In p before -> sumsq (psub p (1, 0)) < 1) ->
  (forall p, In p after -> sumsq (psub p (1, 0)) <= 1) ->
  BasicProfile2D.nose_scan d 0 = Ok i ->
  Profile2D.copy self
  = Ok (Profile2D.mk "Profile" (BasicProfile2D.mk (Some d) (Some i))
          (Some (BasicProfile2D.mk (Some d) (Some i)))) /\
  rbind (Profile2D.copy self) (fun c => Profile2D.__eq__ self c) = Ok true.
Proof.
  intros d Hdata Hbefore Hafter Hscan.
  assert (Hcopy :
    Profile2D.copy self
    = Ok (Profile2D.mk "Profile" (BasicProfile2D.mk (Some d) (Some i))
            (Some (BasicProfile2D.mk (Some d) (Some i))))).
  { unfold Profile2D.copy. rewrite Hdata. cbn [getattr rbind].
    unfold Profile2D.new, exec.
    rewrite (Profile2D_init_run d d "Profile" Profile2D.blank i i);
      [reflexivity | discriminate | exact Hscan | | exact Hscan].
    apply Normalize_unit_chord; assumption. }
  split; [exact Hcopy|].
  rewrite Hcopy. cbn [rbind]. unfold Profile2D.__eq__.
  rewrite (GetProfile_run self d Hdata).
  rewrite (GetProfile_run
             (Profile2D.mk "Profile" (BasicProfile2D.mk (Some d) (Some i))
                (Some (BasicProfile2D.mk (Some d) (Some i)))) d eq_refl).
  cbn [rbind].
  rewrite array_equal_points_refl. reflexivity.
Qed.

Lemma copy_unit_chord_witness :
  Profile2D.copy (Profile2D.mk "thin" diamond_root (Some wide_root))
  = Ok diamond_profile.
Proof.
  apply (copy_unit_chord (Profile2D.mk "thin" diamond_root (Some wide_root))
           [(1 / 4, 1 / 10)] [(1 / 4, - 1 / 10); (1, 0)] 2).
  - reflexivity.
  - intros p [<-|[]]. unfold sumsq, psub, px, py; simpl. lra.
  - intros p [<-|[<-|[]]]; unfold sumsq, psub, px, py; simpl; lra.
  - exact nose_scan_diamond.
Defined.

(** X14.  Products of a BasicProfile2D by numbers.  The ordinates are
    multiplied and the nose index is found again, at the place of the
    original's, since the abscissas are the same; multiplying by [a] and
    then by [b] is multiplying by [a * b], also in what is raised; and the
    product by 1 is [copy]. *)
Theorem BasicProfile2D_mul_compose (self : BasicProfile2D.t) (a b : R) :
  rbind (BasicProfile2D.__mul__ self a) (fun s => BasicProfile2D.__mul__ s b)
  = BasicProfile2D.__mul__ self (a * b) /\
  BasicProfile2D.__mul__ self 1 = BasicProfile2D.copy self /\
  (forall d, BasicProfile2D.data self = Some d ->
     BasicProfile2D.__mul__ self a
     = rbind (BasicProfile2D.nose_scan d 0)
         (fun i => Ok (BasicProfile2D.mk (Some (map (scale_y a) d)) (Some i)))).
Proof.
  assert (Hmul : forall (k : R) (d : list point),
    BasicProfile2D.new (map (fun p => pmul p (1, k)) d)
    = rbind (BasicProfile2D.nose_scan d 0)
        (fun i => Ok (BasicProfile2D.mk (Some (map (scale_y k) d)) (Some i)))).
  { intros k d. rewrite BasicProfile2D_new_run.
    change (map (fun p => pmul p (1, k)) d) with (map (scale_y k) d).
    rewrite nose_scan_scale_y.
    destruct (BasicProfile2D.nose_scan d 0); reflexivity. }
  unfold BasicProfile2D.__mul__, BasicProfile2D.copy, eval,
    BasicProfile2D._GetProfile, BasicProfile2D.get_data.
  cbn [snd].
  destruct (BasicProfile2D.data self) as [d|]; cbn [getattr rbind].
  - rewrite !Hmul. split; [|split].
    + destruct (BasicProfile2D.nose_scan d 0) as [i|e] eqn:Hscan; cbn [rbind];
        [|reflexivity].
      cbn [BasicProfile2D.data getattr rbind].
      rewrite Hmul, nose_scan_scale_y, Hscan. cbn [rbind].
      rewrite map_map. do 3 f_equal. apply map_ext. intros [x y].
      unfold scale_y, pmul, px, py; simpl. f_equal; ring.
    + rewrite BasicProfile2D_new_run.
      destruct (BasicProfile2D.nose_scan d 0) as [i|e]; cbn [rbind];
        [|reflexivity].
      do 3 f_equal. rewrite <- (map_id d) at 2. apply map_ext. intros [x y].
      unfold scale_y, pmul, px, py; simpl. f_equal; ring.
    + intros d' Hd'. injection Hd' as <-. reflexivity.
  - split; [reflexivity|]. split; [reflexivity|]. intros d Hd. discriminate.
Qed.

(* ================================================================== *)
(** * Rib: mirror, the dictionary of the rib, errors of align          *)
(* ================================================================== *)

(** X15.  [mirror] on a rib with a start point negates the arc angle, the
    twist coefficient and the second coordinate of the start point, and a
    second [mirror] gives the rib back.  Both readings of the angle of
    attack are unchanged; so is the third angle of the rotation, the
    product of an odd function of the arc angle and the twist
    coefficient: the rotation matrix of the mirrored rib is the one of
    the same angles with the arc angle negated. *)
Theorem mirror_involution (self : Rib.t) (p : vec3) :
  Rib.pos self = Some p ->
  exists self' : Rib.t,
    Rib.mirror self = (self', Ok tt) /\
    Rib.mirror self' = (self, Ok tt) /\
    Rib.arcang self' = - Rib.arcang self /\
    Rib.zrot self' = - Rib.zrot self /\
    Rib.pos self' = Some (vx p * 1, vy p * -1, vz p * 1) /\
    Rib.aoa_absolute self' = Rib.aoa_absolute self /\
    Rib.aoa_relative self' = Rib.aoa_relative self /\
    forall rotation_3d : R -> vec3 -> matrix3,
      Rib.rotation_matrix rotation_3d self'
      = Rib.rotation_rib rotation_3d (Rib.aoa_absolute self) (- Rib.arcang self)
          (atan (Rib.arcang self) / Rib.glide self * Rib.zrot self).
Proof.
  intros Hpos. destruct self as [n pr g a arc z ps c]. simpl in Hpos. subst ps.
  destruct p as [[x y] z0].
  eexists. split; [reflexivity|].
  unfold Rib.mirror, bind, modify; simpl.
  split; [|split; [reflexivity|split; [reflexivity|split; [reflexivity|]]]].
  - f_equal. unfold vx, vy, vz; simpl.
    replace (- - arc) with arc by ring. replace (- - z) with z by ring.
    replace (x * 1 * 1) with x by ring. replace (y * -1 * -1) with y by ring.
    replace (z0 * 1 * 1) with z0 by ring. reflexivity.
  - split; [|split].
    + unfold Rib.aoa_absolute, Rib.__aoa_diff; simpl. rewrite cos_neg. reflexivity.
    + unfold Rib.aoa_relative, Rib.__aoa_diff; simpl. rewrite cos_neg. reflexivity.
    + intros rotation_3d.
      unfold Rib.rotation_matrix, Rib.aoa_absolute, Rib.__aoa_diff; simpl.
      rewrite cos_neg, atan_opp. f_equal. unfold Rdiv. ring.
Qed.

Lemma mirror_involution_witness :
  exists self' : Rib.t,
    Rib.mirror flat_rib = (self', Ok tt) /\
    Rib.mirror self' = (flat_rib, Ok tt) /\
    Rib.arcang self' = - Rib.arcang flat_rib /\
    Rib.zrot self' = - Rib.zrot flat_rib /\
    Rib.pos self' = Some (vx (0, 0, 0) * 1, vy (0, 0, 0) * -1, vz (0, 0, 0) * 1) /\
    Rib.aoa_absolute self' = Rib.aoa_absolute flat_rib /\
    Rib.aoa_relative self' = Rib.aoa_relative flat_rib /\
    forall rotation_3d : R -> vec3 -> matrix3,
      Rib.rotation_matrix rotation_3d self'
      = Rib.rotation_rib rotation_3d (Rib.aoa_absolute flat_rib)
          (- Rib.arcang flat_rib)
          (atan (Rib.arcang flat_rib) / Rib.glide flat_rib * Rib.zrot flat_rib).
Proof. apply (mirror_involution flat_rib (0, 0, 0)). reflexivity. Defined.

(** X16.  [mirror] on a rib without a start point: the product with
    [None] raises TypeError after both angles have been negated, and the
    rib keeps the negated angles. *)
Theorem mirror_without_startpoint (self : Rib.t) :
  Rib.pos self = None ->
  exists (self' : Rib.t) (msg : string),
    Rib.mirror self = (self', Raise (TypeError msg)) /\
    Rib.arcang self' = - Rib.arcang self /\
    Rib.zrot self' = - Rib.zrot self /\
    Rib.pos self' = None /\
    (Rib.arcang self <> 0 -> self' <> self).
Proof.
  intros Hpos. destruct self as [n pr g a arc z ps c]. simpl in Hpos. subst ps.
  eexists. eexists. split; [reflexivity|]. simpl.
  repeat split. intros Hne H. injection H as H _. lra.
Qed.

Lemma mirror_without_startpoint_witness :
  exists (self' : Rib.t) (msg : string),
    Rib.mirror (Rib.__init__ (Rib.mk_airfoil None) None 1 1 0 0 1 "rib" true)
    = (self', Raise (TypeError msg)) /\
    Rib.arcang self' = - 1 /\
    Rib.zrot self' = - 0 /\
    Rib.pos self' = None /\
    (1 <> 0 ->
     self' <> Rib.__init__ (Rib.mk_airfoil None) None 1 1 0 0 1 "rib" true).
Proof.
  apply (mirror_without_startpoint
           (Rib.__init__ (Rib.mk_airfoil None) None 1 1 0 0 1 "rib" true)).
  reflexivity.
Defined.

(** X17.  The dictionary of [__json__] read as the keyword arguments of
    [__init__].  The key [aoa_abs] holds the flag of [_aoa], which is true
    for a relative angle, while [__init__] takes a true [aoa_abs] for an
    absolute angle: the rib built from the dictionary has the flag
    inverted, so that the angle stored as relative is read as the absolute
    one and back, and the absolute angle of attack differs from the
    original's by [atan(cos(arcang) / glide)].  The other numbers are
    those of the original. *)
Theorem json_inverts_aoa_flag (self : Rib.t) (d : Rib.json) :
  Rib.__json__ self = Ok d ->
  let back := Rib.from_json d in
  Rib._aoa back = (fst (Rib._aoa self), negb (snd (Rib._aoa self))) /\
  (snd (Rib._aoa self) = true -> Rib.aoa_absolute back = Rib.aoa_relative self) /\
  (snd (Rib._aoa self) = false -> Rib.aoa_relative back = Rib.aoa_absolute self) /\
  Rib.aoa_absolute back - Rib.aoa_absolute self
  = (if snd (Rib._aoa self) then 1 else -1)
    * Rib.__aoa_diff (Rib.arcang self) (Rib.glide self) /\
  Rib.arcang back = Rib.arcang self /\
  Rib.zrot back = Rib.zrot self /\
  Rib.glide back = Rib.glide self /\
  Rib.chord back = Rib.chord self /\
  Rib.name back = Rib.name self.
Proof.
  unfold Rib.__json__.
  destruct self as [n pr g [a flag] arc z [ps|] c]; simpl; [|discriminate].
  intros H. injection H as <-.
  unfold Rib.from_json, Rib.__init__, Rib.aoa_absolute, Rib.aoa_relative; simpl.
  destruct flag; simpl; repeat split; try reflexivity; try discriminate; ring.
Qed.

Lemma json_inverts_aoa_flag_witness :
  Rib.aoa_absolute
    (Rib.from_json
       (Rib.mk_json (Rib.mk_airfoil (Some [(1, 0); (0, 0); (1, 0)])) (0, 0, 0)
          1 0 0 PI 1 "rib" false))
  - Rib.aoa_absolute flat_rib
  = -1 * Rib.__aoa_diff 0 1.
Proof.
  exact (proj1 (proj2 (proj2 (proj2
           (json_inverts_aoa_flag flat_rib
              (Rib.mk_json (Rib.mk_airfoil (Some [(1, 0); (0, 0); (1, 0)]))
                 (0, 0, 0) 1 0 0 PI 1 "rib" false)
              eq_refl))))).
Defined.

(** X18.  What [align] and [profile_3d] raise.  A point of any length but
    2 or 3 is a ValueError, with or without a start point; without a
    start point every point of length 2 or 3 is a TypeError, and so is
    [profile_3d] as soon as the airfoil has a point, while on an airfoil
    without points it returns the empty profile. *)
Theorem align_errors (rotation_3d : R -> vec3 -> matrix3) (self : Rib.t) :
  (forall point : list R,
     length point <> 2%nat -> length point <> 3%nat ->
     Rib.align rotation_3d self point
     = Raise (ValueError "Can only Align one single 2D or 3D-Point")) /\
  (Rib.pos self = None ->
   (forall point : list R,
      length point = 2%nat \/ length point = 3%nat ->
      exists msg, Rib.align rotation_3d self point = Raise (TypeError msg)) /\
   (forall p d, Rib.data (Rib.profile_2d self) = Some (p :: d) ->
      exists msg, Rib.profile_3d rotation_3d self = Raise (TypeError msg)) /\
   (Rib.data (Rib.profile_2d self) = Some [] ->
    Rib.profile_3d rotation_3d self = Ok (Profile3D.new []))).
Proof.
  split.
  - intros [|a [|b [|c [|e point]]]] H2 H3; simpl in *; try reflexivity; lia.
  - intros Hpos. split; [|split].
    + intros [|a [|b [|c [|e point]]]] [H|H]; simpl in H; try discriminate;
        unfold Rib.align, Rib.align_3d; rewrite Hpos; eauto.
    + intros p d Hd. unfold Rib.profile_3d. rewrite Hd.
      cbn [mapM]. unfold Rib.align, Rib.align_3d. rewrite Hpos.
      cbn [rbind]. eauto.
    + intros Hd. unfold Rib.profile_3d. rewrite Hd. reflexivity.
Qed.

(* ================================================================== *)
(** * Rib: the rotation is orthogonal, align is a similarity          *)
(* ================================================================== *)

Ltac matrix_components :=
  unfold orthogonal, transpose, mmdot, mvdot, identity3, vdot, vsub, vadd, vscale,
    row1, row2, row3, col1, col2, col3, vx, vy, vz in *; simpl in *.

Lemma mmdot_assoc (a b c : matrix3) : mmdot (mmdot a b) c = mmdot a (mmdot b c).
Proof.
  destruct a as [[[[a11 a12] a13] [[a21 a22] a23]] [[a31 a32] a33]].
  destruct b as [[[[b11 b12] b13] [[b21 b22] b23]] [[b31 b32] b33]].
  destruct c as [[[[c11 c12] c13] [[c21 c22] c23]] [[c31 c32] c33]].
  matrix_components. split_pairs; ring.
Qed.

Lemma transpose_mmdot (a b : matrix3) :
  transpose (mmdot a b) = mmdot (transpose b) (transpose a).
Proof.
  destruct a as [[[[a11 a12] a13] [[a21 a22] a23]] [[a31 a32] a33]].
  destruct b as [[[[b11 b12] b13] [[b21 b22] b23]] [[b31 b32] b33]].
  matrix_components. split_pairs; ring.
Qed.

Lemma orthogonal_mmdot (a b : matrix3) :
  orthogonal a -> orthogonal b -> orthogonal (mmdot a b).
Proof.
  intros [Ha1 Ha2] [Hb1 Hb2]. split; rewrite transpose_mmdot.
  - rewrite mmdot_assoc, <- (mmdot_assoc (transpose a)), Ha1, mmdot_identity_l.
    exact Hb1.
  - rewrite mmdot_assoc, <- (mmdot_assoc b), Hb2, mmdot_identity_l.
    exact Ha2.
Qed.

Lemma mvdot_identity (v : vec3) : mvdot identity3 v = v.
Proof. destruct v as [[x y] z]. matrix_components. split_pairs; ring. Qed.

Lemma vdot_mvdot (m : matrix3) (v w : vec3) :
  vdot (mvdot m v) (mvdot m w) = vdot v (mvdot (mmdot (transpose m) m) w).
Proof.
  destruct m as [[[[a11 a12] a13] [[a21 a22] a23]] [[a31 a32] a33]].
  destruct v as [[v1 v2] v3]. destruct w as [[w1 w2] w3].
  matrix_components. ring.
Qed.

(** An orthogonal matrix keeps the scalar product. *)
Lemma orthogonal_vdot (m : matrix3) (v w : vec3) :
  orthogonal m -> vdot (mvdot m v) (mvdot m w) = vdot v w.
Proof.
  intros [H _]. rewrite vdot_mvdot, H, mvdot_identity. reflexivity.
Qed.

Lemma orthogonal_nonzero (m : matrix3) (v : vec3) :
  orthogonal m -> vdot v v = 1 -> mvdot m v <> (0, 0, 0).
Proof.
  intros Hm Hv H.
  pose proof (orthogonal_vdot m v v Hm) as Hdot.
  rewrite H, Hv in Hdot. unfold vdot, vx, vy, vz in Hdot; simpl in Hdot. lra.
Qed.

Lemma mvdot_vsub (m : matrix3) (v w : vec3) :
  mvdot m (vsub v w) = vsub (mvdot m v) (mvdot m w).
Proof.
  destruct m as [[[[a11 a12] a13] [[a21 a22] a23]] [[a31 a32] a33]].
  destruct v as [[v1 v2] v3]. destruct w as [[w1 w2] w3].
  matrix_components. split_pairs; ring.
Qed.

Section RotationFacts.

Variable rotation_3d : R -> vec3 -> matrix3.
Hypothesis rotation_3d_orthogonal :
  forall (angle : R) (axis : vec3),
    axis <> (0, 0, 0) -> orthogonal (rotation_3d angle axis).

Lemma rotation_rib_orthogonal (aoa arc zrot : R) :
  orthogonal (Rib.rotation_rib rotation_3d aoa arc zrot).
Proof.
  unfold Rib.rotation_rib.
  assert (H1 : orthogonal (rotation_3d (- arc + PI / 2) (-1, 0, 0))).
  { apply rotation_3d_orthogonal. intros H. injection H as H. lra. }
  set (rot1 := rotation_3d (- arc + PI / 2) (-1, 0, 0)) in *.
  assert (H2 : orthogonal (mmdot (rotation_3d aoa (mvdot rot1 (0, 0, 1))) rot1)).
  { apply orthogonal_mmdot; [|exact H1].
    apply rotation_3d_orthogonal, orthogonal_nonzero; [exact H1|].
    unfold vdot, vx, vy, vz; simpl; ring. }
  set (rot2 := mmdot (rotation_3d aoa (mvdot rot1 (0, 0, 1))) rot1) in *.
  apply orthogonal_mmdot; [|exact H2].
  apply rotation_3d_orthogonal, orthogonal_nonzero; [exact H2|].
  unfold vdot, vx, vy, vz; simpl; ring.
Qed.

(** X19.  If [rotation_3d] gives an orthogonal matrix about every axis
    that is not the null vector, the rotation matrix of a rib is
    orthogonal, whatever its angles are (none of the three axes the code
    builds is the null vector), and [align] is a similarity: the images of
    two points lie [chord] times as far apart as the points. *)
Theorem align_similarity (self : Rib.t) (p q a b : vec3) :
  Rib.align rotation_3d self [vx p; vy p; vz p] = Ok a ->
  Rib.align rotation_3d self [vx q; vy q; vz q] = Ok b ->
  orthogonal (Rib.rotation_matrix rotation_3d self) /\
  vdot (vsub a b) (vsub a b)
  = Rib.chord self * Rib.chord self * vdot (vsub p q) (vsub p q).
Proof.
  intros Ha Hb.
  assert (Hm : orthogonal (Rib.rotation_matrix rotation_3d self))
    by apply rotation_rib_orthogonal.
  split; [exact Hm|].
  unfold Rib.align, Rib.align_3d in Ha, Hb.
  destruct (Rib.pos self) as [start|]; [|discriminate].
  injection Ha as <-. injection Hb as <-.
  replace (vx p, vy p, vz p) with p by (destruct p as [[? ?] ?]; reflexivity).
  replace (vx q, vy q, vz q) with q by (destruct q as [[? ?] ?]; reflexivity).
  rewrite <- (orthogonal_vdot (Rib.rotation_matrix rotation_3d self)
                (vsub p q) (vsub p q) Hm).
  rewrite mvdot_vsub.
  generalize (mvdot (Rib.rotation_matrix rotation_3d self) p).
  generalize (mvdot (Rib.rotation_matrix rotation_3d self) q).
  intros [[v1 v2] v3] [[u1 u2] u3].
  destruct start as [[s1 s2] s3].
  unfold vdot, vsub, vadd, vscale, vx, vy, vz; simpl. ring.
Qed.

End RotationFacts.

Lemma Model_rotation_3d_orthogonal (angle : R) (axis : vec3) :
  axis <> (0, 0, 0) -> orthogonal (Model.rotation_3d angle axis).
Proof.
  intros Hne. destruct axis as [[x y] z].
  assert (Hpos : 0 < x * x + y * y + z * z).
  { destruct (Req_dec x 0) as [->|Hx]; [|nra].
    destruct (Req_dec y 0) as [->|Hy]; [|nra].
    destruct (Req_dec z 0) as [->|Hz]; [congruence|nra]. }
  unfold Model.rotation_3d, Model.vnorm, vdot, vx, vy, vz; simpl.
  set (n := sqrt (x * x + y * y + z * z)).
  assert (Hn : n * n = x * x + y * y + z * z) by (apply sqrt_sqrt; lra).
  assert (Hn0 : n <> 0) by (intros H0; rewrite H0 in Hn; lra).
  assert (Hu : x / n * (x / n) + y / n * (y / n) + z / n * (z / n) = 1).
  { replace (x / n * (x / n) + y / n * (y / n) + z / n * (z / n))
      with ((x * x + y * y + z * z) / (n * n)) by (field; exact Hn0).
    rewrite Hn. field. lra. }
  assert (Hc : cos angle * cos angle + sin angle * sin angle = 1).
  { pose proof (sin2_cos2 angle) as H. unfold Rsqr in H. lra. }
  generalize dependent (x / n). generalize dependent (y / n).
  generalize dependent (z / n).
  generalize dependent (cos angle). generalize dependent (sin angle).
  intros s c Hc uz uy ux Hu.
  unfold orthogonal, transpose, mmdot, identity3, vdot,
    row1, row2, row3, col1, col2, col3, vx, vy, vz; simpl.
  split; split_pairs; nsatz.
Qed.

Lemma align_similarity_witness :
  orthogonal (Rib.rotation_matrix Model.rotation_3d flat_rib).
Proof.
  exact (proj1 (align_similarity Model.rotation_3d Model_rotation_3d_orthogonal
                  flat_rib (1, 0, 0) (0, 0, 0) _ _ eq_refl eq_refl)).
Defined.

(* ================================================================== *)
(** * MiniRib: the function on the whole line                          *)
(* ================================================================== *)

(** X20.  [function] of a MiniRib, whatever the cuts and the curve are:
    its values lie in [0, 1], it is even, and it is 1 everywhere if the
    back cut lies before the front cut or if the curve is nowhere below
    1. *)
Theorem minirib_function_range (self : MiniRib.t) (x : R) :
  0 <= MiniRib.function self x <= 1 /\
  MiniRib.function self (- x) = MiniRib.function self x /\
  (MiniRib.back_cut self < MiniRib.front_cut self -> MiniRib.function self x = 1) /\
  ((forall u, 1 <= MiniRib.__function__ self u) -> MiniRib.function self x = 1).
Proof.
  unfold MiniRib.function. rewrite Rabs_Ropp.
  split; [|split; [reflexivity|split]].
  - destruct (Rleb _ _ && Rleb _ _); [apply clamp_bounds | lra].
  - intros Hcut. unfold Rleb.
    destruct (Rle_dec (MiniRib.front_cut self) (Rabs x));
      destruct (Rle_dec (Rabs x) (MiniRib.back_cut self));
      simpl; try reflexivity; lra.
  - intros Hcurve. destruct (Rleb _ _ && Rleb _ _); [|reflexivity].
    specialize (Hcurve (Rabs x)).
    rewrite py_min_Rmin, py_max_Rmax. unfold Rmin, Rmax.
    destruct (Rle_dec 0 _); destruct (Rle_dec 1 _); lra.
Qed.

(* ================================================================== *)
(** * cell/elements.py: diagonal ribs, tension straps, panels          *)
(* ================================================================== *)

(** X21.  [mirror] of a diagonal rib exchanges the cuts of the two sides,
    a second [mirror] gives the rib back, and the average x-value, by
    which the ribs are sorted, is the same for a rib and its mirror
    image. *)
Theorem DiagonalRib_mirror_involution (self : DiagonalRib.t) :
  DiagonalRib.mirror (DiagonalRib.mirror self) = self /\
  DiagonalRib.left_front (DiagonalRib.mirror self) = DiagonalRib.right_front self /\
  DiagonalRib.left_back (DiagonalRib.mirror self) = DiagonalRib.right_back self /\
  DiagonalRib.get_average_x (DiagonalRib.mirror self)
  = DiagonalRib.get_average_x self.
Proof.
  destruct self as [lf lb rf rb m n].
  unfold DiagonalRib.mirror, DiagonalRib.get_average_x; simpl.
  repeat split. field.
Qed.

(** X22.  A tension strap is the diagonal rib whose four cuts lie on the
    lower side (height -1), [width / 2] before and behind [left] and
    [right]: each side is [width] wide, the average x-value is the mean
    of [left] and [right] whatever the width is, and the mirror image is
    the strap built with [left] and [right] exchanged. *)
Theorem TensionStrap_geometry (left right width : R)
    (material_code : option string) (name : string) :
  let strap := TensionStrap.__init__ left right width material_code name in
  fst (DiagonalRib.left_back strap) - fst (DiagonalRib.left_front strap) = width /\
  fst (DiagonalRib.right_back strap) - fst (DiagonalRib.right_front strap) = width /\
  (forall c, In c [DiagonalRib.left_front strap; DiagonalRib.left_back strap;
                   DiagonalRib.right_front strap; DiagonalRib.right_back strap] ->
             snd c = -1) /\
  DiagonalRib.get_average_x strap = (left + right) / 2 /\
  DiagonalRib.mirror strap
  = TensionStrap.__init__ right left width material_code name.
Proof.
  unfold TensionStrap.__init__, DiagonalRib.get_average_x, DiagonalRib.mirror;
    simpl.
  repeat split; try field.
  intros c [<-|[<-|[<-|[<-|[]]]]]; reflexivity.
Qed.

Lemma write_same (r : Panel.ref) (c : Panel.cut) (h : Panel.store) :
  Panel.write r c h r = c.
Proof. unfold Panel.write. rewrite Nat.eqb_refl. reflexivity. Qed.

Lemma write_other (r r' : Panel.ref) (c : Panel.cut) (h : Panel.store) :
  r' <> r -> Panel.write r c h r' = h r'.
Proof.
  intros Hne. unfold Panel.write.
  apply Nat.eqb_neq in Hne. rewrite Hne. reflexivity.
Qed.

Lemma swap_sides_at (r : Panel.ref) (h : Panel.store) :
  Panel.swap_sides r h r
  = Panel.mk_cut (Panel.right (h r)) (Panel.left (h r)) (Panel.type (h r)).
Proof. unfold Panel.swap_sides. apply write_same. Qed.

Lemma swap_sides_other (r r' : Panel.ref) (h : Panel.store) :
  r' <> r -> Panel.swap_sides r h r' = h r'.
Proof. intros Hne. unfold Panel.swap_sides. apply write_other. exact Hne. Qed.

Lemma swap_sides_twice (r r' : Panel.ref) (h : Panel.store) :
  Panel.swap_sides r (Panel.swap_sides r h) r' = h r'.
Proof.
  destruct (Nat.eq_dec r' r) as [->|Hne].
  - rewrite !swap_sides_at. simpl. destruct (h r); reflexivity.
  - rewrite !swap_sides_other by exact Hne. reflexivity.
Qed.

(** X23.  [mirror] of a panel writes into the dictionaries the panel was
    given.  If the two cuts are two dictionaries, the sides of each are
    exchanged, so that the cut of the mirrored panel at the spanwise
    position [y] is the cut of the original at [1 - y], and no other
    dictionary is written.  If both cuts are one and the same dictionary,
    it is exchanged twice and the panel is what it was.  In either case a
    second [mirror] restores every dictionary. *)
Theorem Panel_mirror_shared_cuts (self : Panel.t) (h : Panel.store) :
  (Panel.cut_front self <> Panel.cut_back self ->
   forall r, In r [Panel.cut_front self; Panel.cut_back self] ->
     Panel.left (Panel.mirror self h r) = Panel.right (h r) /\
     Panel.right (Panel.mirror self h r) = Panel.left (h r) /\
     Panel.type (Panel.mirror self h r) = Panel.type (h r) /\
     forall y, Panel.cut_at (Panel.mirror self h r) y = Panel.cut_at (h r) (1 - y)) /\
  (Panel.cut_front self = Panel.cut_back self ->
   forall r, Panel.mirror self h r = h r) /\
  (forall r, r <> Panel.cut_front self -> r <> Panel.cut_back self ->
             Panel.mirror self h r = h r) /\
  (forall r, Panel.mirror self (Panel.mirror self h) r = h r).
Proof.
  unfold Panel.mirror. split; [|split; [|split]].
  - intros Hne r [<-|[<-|[]]].
    + rewrite swap_sides_other by exact Hne. rewrite swap_sides_at. simpl.
      split; [reflexivity|]. split; [reflexivity|]. split; [reflexivity|].
      intros y. unfold Panel.cut_at; simpl. ring.
    + rewrite swap_sides_at. rewrite swap_sides_other by congruence. simpl.
      split; [reflexivity|]. split; [reflexivity|]. split; [reflexivity|].
      intros y. unfold Panel.cut_at; simpl. ring.
  - intros -> r. apply swap_sides_twice.
  - intros r Hf Hb. rewrite !swap_sides_other by assumption. reflexivity.
  - intros r.
    destruct (Nat.eq_dec (Panel.cut_front self) (Panel.cut_back self)) as [He|Hne].
    + rewrite He, !swap_sides_twice. reflexivity.
    + set (f := Panel.cut_front self) in *. set (b := Panel.cut_back self) in *.
      destruct (Nat.eq_dec r b) as [->|Hrb].
      * rewrite swap_sides_at. rewrite (swap_sides_other f b) by congruence.
        rewrite swap_sides_at. rewrite (swap_sides_other f b) by congruence.
        simpl. destruct (h b); reflexivity.
      * rewrite (swap_sides_other b r) by exact Hrb.
        destruct (Nat.eq_dec r f) as [->|Hrf].
        -- rewrite swap_sides_at. rewrite (swap_sides_other b f) by exact Hrb.
           rewrite swap_sides_at. simpl. destruct (h f); reflexivity.
        -- rewrite (swap_sides_other f r) by exact Hrf.
           rewrite (swap_sides_other b r) by exact Hrb.
           rewrite (swap_sides_other f r) by exact Hrf. reflexivity.
Qed.

Lemma mapM_nth_error {A B : Type} (f : A -> result B) (l : list A) (r : list B) :
  mapM f l = Ok r ->
  forall (i : nat) (b : B), nth_error r i = Some b ->
  exists a, nth_error l i = Some a /\ f a = Ok b.
Proof.
  revert r. induction l as [|a l IH]; intros r H i b Hb.
  - injection H as <-. destruct i; discriminate.
  - simpl in H. destruct (f a) as [b0|e] eqn:Ha; [|discriminate].
    destruct (mapM f l) as [bs|e] eqn:Hl; [|discriminate].
    simpl in H. injection H as <-.
    destruct i as [|i].
    + simpl in Hb. injection Hb as <-. exists a. split; [reflexivity | exact Ha].
    + simpl in Hb. destruct (IH bs eq_refl i b Hb) as (a' & Ha' & Hfa').
      exists a'. split; [exact Ha' | exact Hfa'].
Qed.

Lemma range_nth_error (n : Z) (i : nat) (j : Z) :
  nth_error (range n) i = Some j -> j = Z.of_nat i /\ (Z.of_nat i < n)%Z.
Proof.
  intros H.
  assert (Hlen : (i < length (range n))%nat)
    by (apply nth_error_Some; congruence).
  rewrite range_length in Hlen.
  rewrite (nth_error_nth' _ 0%Z) in H by (rewrite range_length; exact Hlen).
  injection H as <-. unfold range.
  change 0%Z with (Z.of_nat 0). rewrite map_nth, seq_nth by exact Hlen.
  split; [reflexivity | lia].
Qed.

Section PanelFacts.

Context {Index Piece : Type}.
Variable get_x_value : list R -> R -> result Index.
Variable midrib_get : R -> Index -> Index -> result Piece.

(** X24.  [get_3d] with the default [numribs = 0] raises
    ZeroDivisionError at the first spanwise position [0 / 0], before any
    x-value is looked up; with a negative [numribs] there is no position
    and the result is the empty list. *)
Theorem Panel_get_3d_without_miniribs (self : Panel.t) (h : Panel.store)
    (xvalues : list R) :
  Panel.get_3d get_x_value midrib_get self h xvalues 0 = Raise ZeroDivisionError /\
  (forall numribs, (numribs < 0)%Z ->
     Panel.get_3d get_x_value midrib_get self h xvalues numribs = Ok []).
Proof.
  split.
  - reflexivity.
  - intros numribs Hneg. unfold Panel.get_3d, range.
    replace (Z.to_nat (numribs + 1)) with 0%nat by lia. reflexivity.
Qed.

(** X25.  [get_3d] with [numribs >= 1], when it returns: there are
    [numribs + 1] pieces; piece [i] is the piece of the midrib at the
    spanwise position [i / numribs] between the x-values of the two cuts
    at that position; and the first piece lies at the left end of both
    cuts. *)
Theorem Panel_get_3d_pieces (self : Panel.t) (h : Panel.store)
    (xvalues : list R) (numribs : Z) (pieces : list Piece) :
  (1 <= numribs)%Z ->
  Panel.get_3d get_x_value midrib_get self h xvalues numribs = Ok pieces ->
  length pieces = Z.to_nat (numribs + 1) /\
  (forall (i : nat) (piece : Piece),
     nth_error pieces i = Some piece ->
     let y := IZR (Z.of_nat i) / IZR numribs in
     exists front back,
       get_x_value xvalues (Panel.cut_at (h (Panel.cut_front self)) y) = Ok front /\
       get_x_value xvalues (Panel.cut_at (h (Panel.cut_back self)) y) = Ok back /\
       midrib_get y front back = Ok piece) /\
  (exists piece front back,
     nth_error pieces 0 = Some piece /\
     get_x_value xvalues (Panel.left (h (Panel.cut_front self))) = Ok front /\
     get_x_value xvalues (Panel.left (h (Panel.cut_back self))) = Ok back /\
     midrib_get 0 front back = Ok piece).
Proof.
  intros Hnum Hget. unfold Panel.get_3d in Hget.
  assert (Hlen : length pieces = Z.to_nat (numribs + 1)).
  { rewrite (mapM_length _ _ _ Hget). apply range_length. }
  assert (Hpiece : forall (i : nat) (piece : Piece),
     nth_error pieces i = Some piece ->
     let y := IZR (Z.of_nat i) / IZR numribs in
     exists front back,
       get_x_value xvalues (Panel.cut_at (h (Panel.cut_front self)) y) = Ok front /\
       get_x_value xvalues (Panel.cut_at (h (Panel.cut_back self)) y) = Ok back /\
       midrib_get y front back = Ok piece).
  { intros i piece Hi y.
    destruct (mapM_nth_error _ _ _ Hget i piece Hi) as (j & Hj & Hrun).
    apply range_nth_error in Hj. destruct Hj as (-> & _).
    unfold float_div in Hrun.
    replace (numribs =? 0)%Z with false in Hrun by (symmetry; apply Z.eqb_neq; lia).
    cbn [rbind] in Hrun. fold y in Hrun.
    destruct (get_x_value xvalues (Panel.cut_at (h (Panel.cut_front self)) y))
      as [front|e]; [|discriminate].
    destruct (get_x_value xvalues (Panel.cut_at (h (Panel.cut_back self)) y))
      as [back|e]; [|discriminate].
    exists front, back. repeat split. exact Hrun. }
  split; [exact Hlen|]. split; [exact Hpiece|].
  destruct pieces as [|piece pieces]; [simpl in Hlen; lia|].
  destruct (Hpiece 0%nat piece eq_refl) as (front & back & Hf & Hb & Hm).
  assert (Hy : IZR (Z.of_nat 0) / IZR numribs = 0).
  { simpl. unfold Rdiv. ring. }
  rewrite Hy in Hf, Hb, Hm.
  assert (Hcut : forall c, Panel.cut_at c 0 = Panel.left c)
    by (intros c; unfold Panel.cut_at; ring).
  rewrite Hcut in Hf, Hb.
  exists piece, front, back. repeat split; assumption.
Qed.

End PanelFacts.

Lemma Panel_get_3d_pieces_witness :
  length [tt; tt] = Z.to_nat (1 + 1).
Proof.
  apply (Panel_get_3d_pieces
           (fun (_ : list R) (_ : R) => Ok tt)
           (fun (_ : R) (_ _ : unit) => Ok tt)
           (Panel.__init__ 0%nat 1%nat None "panel")
           (fun r : Panel.ref =>
              if Nat.eqb r 0
              then Panel.mk_cut (1 / 10) (3 / 10) "orthogonal"
              else Panel.mk_cut (1 / 5) (2 / 5) "orthogonal")
           [] 1%Z [tt; tt]).
  - lia.
  - reflexivity.
Defined.

(* ================================================================== *)
(** * The thickness setter is a product                                *)
(* ================================================================== *)

Section ThickProductFacts.

Context {Position : Type}.
Variable Point : list point -> R -> R -> result (Position * point).
Variable str : R -> string.

(** X13.  An assignment [Thickness = newthick] that succeeds has built
    the product of the profile by [newthick / m], with [m] the largest
    thickness it has read: the points, the nose index and the root
    profile are those of [self * (newthick / m)], as [__mul__] builds it,
    and only the name differs; in particular the root profile of before
    is lost. *)
Theorem SetThick_is_product (newthick : R) (self s' : Profile2D.t) :
  Profile2D._SetThick Point str newthick self = (s', Ok tt) ->
  exists (th : list (R * R)) (m : R) (prod : Profile2D.t),
    eval (Profile2D._GetThick Point) self = Ok th /\
    max_of (map snd th) = Ok m /\
    m <> 0 /\
    Profile2D.__mul__ self (newthick / m) = Ok prod /\
    Profile2D.base s' = Profile2D.base prod /\
    Profile2D._rootprof s' = Profile2D._rootprof prod /\
    Profile2D.Name s'
    = (Profile2D.Name self ++ "_" ++ str (newthick * 100) ++ "%")%string /\
    Profile2D.Name prod = "Profile"%string.
Proof.
  intros H.
  destruct (Profile2D.data self) as [d|] eqn:Hd.
  2:{ exfalso. destruct self as [n [bd bk] r]. unfold Profile2D.data in Hd.
      simpl in Hd. subst bd. destruct bk; discriminate H. }
  destruct (Profile2D.noseindex self) as [k|] eqn:Hk.
  2:{ exfalso. destruct self as [n [bd bk] r]. unfold Profile2D.noseindex in Hk.
      simpl in Hk. subst bk. discriminate H. }
  pose proof (GetThick_run Point self d k Hd Hk) as Hget.
  destruct (mapM (thickness_at Point d) (abscissas d)) as [th|e] eqn:Hth.
  2:{ exfalso. unfold Profile2D._SetThick in H. unfold bind at 1 in H.
      rewrite Hget in H. discriminate H. }
  destruct th as [|row th0] eqn:Hshape.
  { exfalso. unfold Profile2D._SetThick in H. unfold bind at 1 in H.
    rewrite Hget in H. discriminate H. }
  rewrite <- Hshape in *.
  assert (Hmax : exists m, max_of (map snd th) = Ok m)
    by (rewrite Hshape; simpl; eauto).
  destruct Hmax as [m Hm].
  destruct (Req_dec_T m 0) as [Hm0|Hm0].
  { exfalso. unfold Profile2D._SetThick in H. unfold bind at 1 in H.
    rewrite Hget in H.
    unfold bind at 1, lift at 1 in H.
    replace (column1 th) with (Ok (map snd th) : result (list R)) in H
      by (rewrite Hshape; reflexivity).
    unfold bind at 1, lift at 1 in H. rewrite Hm in H.
    unfold bind at 1, lift at 1 in H. rewrite (Reqb_true m 0 Hm0) in H.
    discriminate H. }
  rewrite (SetThick_run Point str self d k th m newthick Hd Hk Hth Hm Hm0) in H.
  assert (Hne : map (scale_y (newthick / m)) d <> []).
  { destruct d; [|discriminate]. exfalso.
    unfold abscissas in Hth. simpl in Hth. injection Hth as Hth.
    rewrite Hshape in Hth. discriminate. }
  destruct (Profile2D_init_inv _ _ _ _ _ H) as [(_ & Hnil & _)|Hinv];
    [contradiction|].
  destruct Hinv as (i & i' & d' & Hscan & Hnorm & Hscan' & ->).
  exists th, m,
    (Profile2D.mk "Profile" (BasicProfile2D.mk (Some d') (Some i'))
       (Some (BasicProfile2D.mk (Some d') (Some i)))).
  split; [unfold eval; rewrite Hget; reflexivity|].
  split; [exact Hm|]. split; [exact Hm0|]. split.
  - unfold Profile2D.__mul__. rewrite (GetProfile_run self d Hd). cbn [rbind].
    change (map (fun p => pmul p (1, newthick / m)) d)
      with (map (scale_y (newthick / m)) d).
    unfold Profile2D.new, exec.
    rewrite (Profile2D_init_run _ d' "Profile" Profile2D.blank i i'
               Hne Hscan Hnorm Hscan').
    reflexivity.
  - repeat split.
Qed.

End ThickProductFacts.

Lemma SetThick_is_product_witness :
  exists (th : list (R * R)) (m : R) (prod : Profile2D.t),
    eval (Profile2D._GetThick Model.Point) diamond_profile = Ok th /\
    max_of (map snd th) = Ok m /\
    m <> 0 /\
    Profile2D.__mul__ diamond_profile (2 / m) = Ok prod /\
    Profile2D.base bent_profile = Profile2D.base prod /\
    Profile2D._rootprof bent_profile = Profile2D._rootprof prod /\
    Profile2D.Name bent_profile
    = (Profile2D.Name diamond_profile ++ "_" ++ Model.str (2 * 100) ++ "%")%string /\
    Profile2D.Name prod = "Profile"%string.
Proof.
  exact (SetThick_is_product Model.Point Model.str 2 diamond_profile bent_profile
           SetThick_diamond_tall).
Defined.

(** [Normalize] on [half], whose chord is [1/2]. *)
Lemma Normalize_affine_witness :
  exists (nose : point) (dmax : R),
    In nose half /\
    dmax = Vector.norm (psub nose (1 / 2, 0)) /\
    0 < dmax /\
    (forall p, In p half -> Vector.norm (psub p (1 / 2, 0)) <= dmax) /\
    let m := normalizing_matrix (1 / 2, 0) nose dmax in
    BasicProfile2D.Normalize (BasicProfile2D.mk (Some half) (Some 2%nat))
    = (BasicProfile2D.mk
         (Some (map (fun p => mdot m (psub p nose)) half))
         (Some 2%nat),
       Ok tt) /\
    mdot m (psub nose nose) = (0, 0) /\
    Vector.norm (mdot m (psub (1 / 2, 0) nose)) = 1 /\
    (px nose <= px (1 / 2, 0) -> mdot m (psub (1 / 2, 0) nose) = (1, 0)).
Proof.
  apply (Normalize_affine (BasicProfile2D.mk (Some half) (Some 2%nat)) (1 / 2, 0)
           [(1 / 4, 1 / 10); (0, 0); (1 / 4, - 1 / 10); (1 / 2, 0)] eq_refl).
  exists (0, 0). split; [In_const|].
  rewrite (norm_value (psub (0, 0) (1 / 2, 0)) (1 / 2)); [lra | lra |].
  unfold sumsq, psub, px, py; simpl. field.
Defined.

(* ================================================================== *)
(** * The cross product of the package                                 *)
(* ================================================================== *)

(** X26.  [cross], the replacement of [numpy.cross], is the right-handed
    vector product: it sends the first two vectors of the basis to the
    third, its value is perpendicular to both arguments, exchanging the
    arguments negates it, and its squared length is
    [|a|^2 |b|^2 - (a . b)^2]. *)
Theorem cross_is_vector_product (a b : vec3) :
  cross (1, 0, 0) (0, 1, 0) = (0, 0, 1) /\
  vdot a (cross a b) = 0 /\
  vdot b (cross a b) = 0 /\
  cross b a = vscale (cross a b) (-1) /\
  vdot (cross a b) (cross a b) = vdot a a * vdot b b - vdot a b * vdot a b.
Proof.
  destruct a as [[a1 a2] a3]. destruct b as [[b1 b2] b3].
  unfold cross, vdot, vscale, vx, vy, vz; simpl.
  split; [split_pairs; ring|].
  split; [ring|]. split; [ring|]. split; [split_pairs; ring | ring].
Qed.

(* ================================================================== *)
(** * Equality of profiles                                             *)
(* ================================================================== *)

Lemma array_equal_points_eq (a b : list point) :
  array_equal_points a b = true <-> a = b.
Proof.
  revert b. induction a as [|p a IH]; intros [|q b]; simpl;
    try (split; [discriminate | congruence]); [tauto|].
  destruct p as [x y]. destruct q as [x' y']. unfold Reqb, px, py; simpl.
  destruct (Req_dec_T x x') as [->|Hx]; simpl.
  - destruct (Req_dec_T y y') as [->|Hy]; simpl.
    + rewrite IH. split; [intros ->; reflexivity | intros H; injection H; tauto].
    + split; [discriminate | intros H; injection H; intros; contradiction].
  - split; [discriminate | intros H; injection H; intros; contradiction].
Qed.

(** X27.  [==] on profiles compares the points and nothing else: it is
    true exactly if both profiles hold the same array, whatever their
    names, nose indices and root profiles are, and it raises
    AttributeError if [self] has no points yet. *)
Theorem Profile2D_eq_compares_points (self other : Profile2D.t) :
  (Profile2D.__eq__ self other = Ok true <->
   exists d, Profile2D.data self = Some d /\ Profile2D.data other = Some d) /\
  (Profile2D.data self = None ->
   Profile2D.__eq__ self other = Raise (AttributeError "data")).
Proof.
  unfold Profile2D.__eq__, eval, Profile2D._GetProfile, Profile2D.super,
    BasicProfile2D._GetProfile, BasicProfile2D.get_data, Profile2D.data.
  destruct self as [n [[a|] ka] ra]; destruct other as [n' [[b|] kb] rb]; simpl.
  - split; [|discriminate]. split.
    + intros H. injection H as H. apply array_equal_points_eq in H. subst b.
      exists a. split; reflexivity.
    + intros (d & Ha & Hb). injection Ha as <-. injection Hb as <-.
      rewrite array_equal_points_refl. reflexivity.
  - split; [|discriminate]. split; [discriminate|].
    intros (d & _ & Hb). discriminate.
  - split; [|reflexivity]. split; [discriminate|].
    intros (d & Ha & _). discriminate.
  - split; [|reflexivity]. split; [discriminate|].
    intros (d & Ha & _). discriminate.
Qed.

(* ================================================================== *)
(** * The constructor on points that are not all the same              *)
(* ================================================================== *)

Lemma Normalize_defined (self : BasicProfile2D.t) (p1 : point) (rest : list point) :
  BasicProfile2D.data self = Some (p1 :: rest) ->
  (exists p, In p rest /\ p <> p1) ->
  exists self', BasicProfile2D.Normalize self = (self', Ok tt).
Proof.
  intros Hdata (p & Hp & Hne).
  pose proof (farthest_inv p1 (p1 :: rest) (0, None) eq_refl) as Hinv.
  rewrite <- farthest_fold in Hinv. cbv zeta in Hinv.
  destruct (BasicProfile2D.farthest p1 (p1 :: rest)) as [dmax nose] eqn:Hfar.
  simpl in Hinv. destruct Hinv as (_ & Hmax & Hnose).
  destruct nose as [nose|].
  - eexists. apply (Normalize_run self p1 nose rest dmax Hdata Hfar).
  - exfalso. destruct Hnose as (Hd & _). apply Hne.
    apply psub_zero, norm_zero. rewrite <- Hd. apply Hmax. right. exact Hp.
Qed.

Lemma Profile2D_init_Raise_inv (header : option string) (p1 : point)
    (rest : list point) (name : string) (self P : Profile2D.t) (e : exn) :
  (exists p, In p rest /\ p <> p1) ->
  Profile2D.__init__ header (p1 :: rest) name self = (P, Raise e) ->
  exists n, e = IndexError n.
Proof.
  intros Hdiff. unfold Profile2D.__init__.
  assert (Hmain :
    forall s0 : Profile2D.t,
      bind (lift (BasicProfile2D.new (p1 :: rest)))
           (fun root =>
              bind (Profile2D.set_rootprof root)
                (fun _ =>
                   bind (Profile2D.rootprof_call BasicProfile2D.Normalize)
                     (fun _ =>
                        bind (Profile2D.rootprof_call BasicProfile2D._GetProfile)
                          (fun p => Profile2D.super (BasicProfile2D._SetProfile p)))))
           s0 = (P, Raise e) ->
      exists n, e = IndexError n).
  { intros s0.
    unfold bind at 1. unfold lift at 1.
    rewrite BasicProfile2D_new_run.
    destruct (BasicProfile2D.nose_scan (p1 :: rest) 0) as [i|e0] eqn:Hscan.
    2:{ intros H. injection H as _ <-.
        destruct (nose_scan_Raise_inv _ _ _ Hscan) as (-> & _). eauto. }
    unfold bind at 1. unfold Profile2D.set_rootprof at 1, modify at 1.
    unfold bind at 1. unfold Profile2D.rootprof_call at 1.
    cbn [Profile2D._rootprof Profile2D.Name Profile2D.base].
    destruct (Normalize_defined (BasicProfile2D.mk (Some (p1 :: rest)) (Some i))
                p1 rest eq_refl Hdiff) as (root' & Hnorm).
    rewrite Hnorm.
    destruct (Normalize_Ok_inv _ _ Hnorm) as (q1 & qrest & nose & dmax & _ & _ & Hroot').
    cbn [BasicProfile2D.noseindex] in Hroot'.
    remember (map (fun i0 => mdot (normalizing_matrix q1 nose dmax) (psub i0 nose))
                  (q1 :: qrest)) as d' eqn:Hd'.
    subst root'.
    unfold bind at 1. unfold Profile2D.rootprof_call at 1.
    cbn [Profile2D._rootprof Profile2D.Name Profile2D.base].
    unfold BasicProfile2D._GetProfile, BasicProfile2D.get_data.
    cbn [BasicProfile2D.data getattr].
    unfold Profile2D.super. rewrite SetProfile_run.
    cbn [Profile2D._rootprof Profile2D.Name Profile2D.base].
    destruct (BasicProfile2D.nose_scan d' 0) as [i'|e1] eqn:Hscan'; [discriminate|].
    intros H. injection H as _ <-.
    destruct (nose_scan_Raise_inv _ _ _ Hscan') as (-> & _). eauto. }
  intros H.
  unfold bind at 1 in H. unfold Profile2D.set_Name at 1, modify at 1 in H.
  destruct header as [h|].
  - unfold bind at 1 in H. unfold Profile2D.set_Name at 1, modify at 1 in H.
    exact (Hmain _ H).
  - unfold bind at 1 in H. unfold ret at 1 in H.
    exact (Hmain _ H).
Qed.

(** X5.  The constructor of Profile2D on points of which one at least
    differs from the first.  It returns a profile or raises the IndexError
    of a nose scan, nothing else.  In the profile it returns, [data] and
    the root profile hold the same array, which has as many points as were
    given, contains the origin and starts at distance 1 from it;
    [noseindex] is the result of the scan of this array, while the root
    profile keeps the index that was found in the points as they were
    given, before [Normalize]; the name is the string of the first row if
    there was one.  (From points that are all the same the source builds a
    profile of [nan], of which this does not hold.) *)
Theorem Profile2D_new_invariants (header : option string) (p1 : point)
    (rest : list point) (name : string) :
  (exists p, In p rest /\ p <> p1) ->
  (forall P : Profile2D.t,
     Profile2D.new header (p1 :: rest) name = Ok P ->
     exists (d : list point) (i i' : nat),
       Profile2D.Name P = match header with Some h => h | None => name end /\
       Profile2D.data P = Some d /\
       Profile2D.noseindex P = Some i' /\
       Profile2D._rootprof P = Some (BasicProfile2D.mk (Some d) (Some i)) /\
       length d = length (p1 :: rest) /\
       In (0, 0) d /\
       (exists q, nth_error d 0 = Some q /\ Vector.norm q = 1) /\
       BasicProfile2D.nose_scan (p1 :: rest) 0 = Ok i /\
       BasicProfile2D.nose_scan d 0 = Ok i') /\
  (forall e : exn,
     Profile2D.new header (p1 :: rest) name = Raise e ->
     exists n, e = IndexError n).
Proof.
  intros Hdiff. split.
  - intros P HP.
    assert (Hne : p1 :: rest <> []) by discriminate.
    destruct (Profile2D_new_inv _ _ _ _ HP Hne)
      as (i & i' & d' & Hi & Hnorm & Hi' & ->).
    destruct (Normalize_Ok_shape _ _ Hnorm)
      as (d0 & d1 & Hd0 & Hd1 & Hlen & Horigin & Hfirst).
    simpl in Hd0. injection Hd0 as <-. injection Hd1 as ->.
    exists d1, i, i'. repeat split; try assumption.
  - intros e He. unfold Profile2D.new, exec in He.
    destruct (Profile2D.__init__ header (p1 :: rest) name Profile2D.blank)
      as [P' [[]|e']] eqn:H; [discriminate|].
    injection He as ->.
    exact (Profile2D_init_Raise_inv _ _ _ _ _ _ _ Hdiff H).
Qed.

Lemma Profile2D_new_invariants_witness :
  exists (d : list point) (i i' : nat),
    Profile2D.Name diamond_profile = "Profile"%string /\
    Profile2D.data diamond_profile = Some d /\
    Profile2D.noseindex diamond_profile = Some i' /\
    Profile2D._rootprof diamond_profile = Some (BasicProfile2D.mk (Some d) (Some i)) /\
    length d = length diamond /\
    In (0, 0) d /\
    (exists q, nth_error d 0 = Some q /\ Vector.norm q = 1) /\
    BasicProfile2D.nose_scan diamond 0 = Ok i /\
    BasicProfile2D.nose_scan d 0 = Ok i'.
Proof.
  assert (Hdiff : exists p : point,
            In p [(1 / 4, 1 / 10); (0, 0); (1 / 4, - 1 / 10); (1, 0)] /\ p <> (1, 0)).
  { exists (0, 0). split; [In_const|]. intros H. injection H as H. lra. }
  exact (proj1 (Profile2D_new_invariants None (1, 0)
                  [(1 / 4, 1 / 10); (0, 0); (1 / 4, - 1 / 10); (1, 0)]
                  "Profile" Hdiff)
           diamond_profile diamond_profile_constructed).
Defined.

(* ================================================================== *)
(** * Profile2D: the sum of two profiles, from the operands            *)
(* ================================================================== *)

Lemma signed_xvalues_px (k : nat) (d d' : list point) :
  map px d = map px d' -> signed_xvalues k d = signed_xvalues k d'.
Proof.
  intros H. unfold signed_xvalues. f_equal.
  - transitivity (map (fun x => x * -1) (firstn k (map px d))).
    + rewrite (firstn_map px), map_map. reflexivity.
    + rewrite H, (firstn_map px), map_map. reflexivity.
  - rewrite <- !(skipn_map px), H. reflexivity.
Qed.

Lemma signed_xvalues_nonneg (k : nat) (d : list point) :
  (forall p, In p d -> 0 <= px p) ->
  map Rabs (signed_xvalues k d) = map px d.
Proof.
  intros Hpos. rewrite signed_xvalues_abs. apply map_ext_in.
  intros p Hp. apply Rabs_pos_eq, Hpos, Hp.
Qed.

Section AdditionSum.

Context {Position : Type}.
Variable Point : list point -> R -> R -> result (Position * point).

(** C7, as the code has it.  [self + other] for two profiles as the data
    model has them, when normalization leaves the points of the operand
    that is copied unchanged.  The operand that is copied, [source], is
    the one with fewer points, [self] if neither has fewer; [second] is the
    other one.  The sum is returned; its x-values are the x-values of
    [second]; and at each of them its ordinate is the ordinate of [source]
    there plus the ordinate of [second]: the ordinate of the point that
    [source] stores at this x-value if the two operands have the same
    x-values, and otherwise the ordinate of the point that [Point] finds
    on the curve of [source] at this x-value. *)
Theorem add_sums_ordinates (self other : Profile2D.t)
    (p_self p_other : list point) (k_source k_second : nat) :
  Profile2D.data self = Some p_self ->
  Profile2D.data other = Some p_other ->
  let swap := (length p_other <? length p_self)%nat in
  let source := if swap then other else self in
  let second := if swap then self else other in
  let p_source := if swap then p_other else p_self in
  let p_second := if swap then p_self else p_other in
  let x_source := signed_xvalues k_source p_source in
  let x_second := signed_xvalues k_second p_second in
  BasicProfile2D.nose_scan p_source 0 = Ok k_source ->
  BasicProfile2D.Normalize (BasicProfile2D.mk (Some p_source) (Some k_source))
    = (BasicProfile2D.mk (Some p_source) (Some k_source), Ok tt) ->
  Profile2D.noseindex second = Some k_second ->
  BasicProfile2D.nose_scan p_second 0 = Ok k_second ->
  (forall p, In p p_second -> 0 <= px p) ->
  (forall rd x pos q, Point rd x (-1) = Ok (pos, q) -> px q = Rabs x) ->
  (forall x, In x x_second -> exists r, Point p_source x (-1) = Ok r) ->
  exists (result : Profile2D.t) (p_result : list point),
    Profile2D.__add__ Point self other = Ok result /\
    Profile2D.data result = Some p_result /\
    eval Profile2D._GetXValues second = Ok x_second /\
    eval Profile2D._GetXValues result = Ok x_second /\
    length p_result = length p_second /\
    forall (j : nat) (x : R) (s r : point),
      nth_error x_second j = Some x ->
      nth_error p_second j = Some s ->
      nth_error p_result j = Some r ->
      exists f : point,
        (if array_equal x_source x_second
         then nth_error p_source j = Some f /\ nth_error x_source j = Some x
         else exists pos, Point p_source x (-1) = Ok (pos, f)) /\
        py r = py f + py s.
Proof.
  intros Hps Hpo swap source second p_source p_second x_source x_second
    Hscan1 Hnorm Hk2 Hscan2 Hpos HPoint Hdef.
  assert (Hdsrc : Profile2D.data source = Some p_source)
    by (unfold source, p_source; destruct swap; assumption).
  assert (Hdsec : Profile2D.data second = Some p_second)
    by (unfold second, p_second; destruct swap; assumption).
  assert (Hns : eval Profile2D._GetLen self = Ok (length p_self))
    by (apply GetLen_run, Hps).
  assert (Hno : eval Profile2D._GetLen other = Ok (length p_other))
    by (apply GetLen_run, Hpo).
  pose proof (nose_scan_in_bounds _ _ _ Hscan1) as [_ Hlen1].
  pose proof (nose_scan_in_bounds _ _ _ Hscan2) as [_ Hlen2].
  set (root := BasicProfile2D.mk (Some p_source) (Some k_source)).
  set (first := Profile2D.mk "Profile" root (Some root)).
  assert (Hcopy : Profile2D.copy source = Ok first).
  { unfold Profile2D.copy. rewrite Hdsrc. cbn [getattr rbind].
    unfold Profile2D.new, exec.
    rewrite (Profile2D_init_run p_source p_source "Profile" Profile2D.blank
               k_source k_source); [reflexivity | | exact Hscan1 | exact Hnorm | exact Hscan1].
    intros H. rewrite H in Hlen1. simpl in Hlen1. lia. }
  assert (Hxf : eval Profile2D._GetXValues first = Ok x_source).
  { unfold eval. rewrite (GetXValues_run first p_source k_source eq_refl eq_refl).
    reflexivity. }
  assert (Hxs : eval Profile2D._GetXValues second = Ok x_second).
  { unfold eval. rewrite (GetXValues_run second p_second k_second Hdsec Hk2).
    reflexivity. }
  destruct (array_equal x_source x_second) eqn:Heq.
  - (* the x-values agree: no resampling *)
    pose proof (array_equal_eq _ _ Heq) as Hx.
    assert (Hlen : length p_source = length p_second).
    { rewrite <- (signed_xvalues_length k_source p_source),
              <- (signed_xvalues_length k_second p_second).
      fold x_source x_second. rewrite Hx. reflexivity. }
    assert (Hpx : map px (add_ordinates p_source p_second) = map px p_source)
      by (apply add_ordinates_px, Hlen).
    assert (Hscan : BasicProfile2D.nose_scan (add_ordinates p_source p_second) 0
                    = Ok k_source).
    { rewrite (nose_scan_px _ _ Hpx (length (add_ordinates p_source p_second)) 0)
        by lia.
      exact Hscan1. }
    assert (Hres : (if array_equal x_source x_second
                    then Ok first
                    else exec (Profile2D._SetXValues Point x_second) first)
                   = Ok first) by (rewrite Heq; reflexivity).
    set (result := Profile2D.mk (Profile2D.Name first)
              (BasicProfile2D.mk (Some (add_ordinates p_source p_second))
                 (Some k_source))
              (Profile2D._rootprof first)).
    exists result, (add_ordinates p_source p_second).
    split.
    { apply (add_run Point self other first first (length p_self) (length p_other)
               k_source x_source x_second p_source p_second);
        try assumption; reflexivity. }
    split; [reflexivity|]. split; [exact Hxs|]. split.
    { unfold eval.
      rewrite (GetXValues_run result (add_ordinates p_source p_second) k_source
                 eq_refl eq_refl).
      cbn [snd]. rewrite (signed_xvalues_px k_source _ _ Hpx).
      fold x_source. rewrite Hx. reflexivity. }
    split; [apply add_ordinates_length, Hlen|].
    intros j x s r Hxj Hsj Hrj.
    assert (Hj : (j < length p_source)%nat).
    { rewrite Hlen. apply nth_error_Some. congruence. }
    destruct (nth_error p_source j) as [f|] eqn:Hfj;
      [|apply nth_error_None in Hfj; lia].
    exists f. split; [split; [reflexivity | rewrite Hx; exact Hxj]|].
    rewrite (add_ordinates_nth p_source p_second j f s Hfj Hsj) in Hrj.
    injection Hrj as <-. reflexivity.
  - (* the copy is resampled at the x-values of [second] *)
    assert (Hpts : exists pts, BasicProfile2D.Points Point root x_second = Ok pts).
    { apply mapM_defined. intros x Hx.
      unfold BasicProfile2D.Point, root. cbn [BasicProfile2D.data getattr rbind].
      destruct (Hdef x Hx) as [r Hr]. exists r. exact Hr. }
    destruct Hpts as [pts Hpts].
    assert (Hlenpts : length pts = length p_second).
    { rewrite (mapM_length _ _ _ Hpts). apply signed_xvalues_length. }
    assert (Hne : pts <> []).
    { intros H. rewrite H in Hlenpts. simpl in Hlenpts. lia. }
    assert (Hpx1 : map px (map snd pts) = map px p_second).
    { rewrite (Points_abscissas Point root x_second pts HPoint Hpts).
      apply signed_xvalues_nonneg, Hpos. }
    assert (Hscan' : BasicProfile2D.nose_scan (map snd pts) 0 = Ok k_second).
    { rewrite (nose_scan_px _ _ Hpx1 (length (map snd pts)) 0) by lia.
      exact Hscan2. }
    set (first' := Profile2D.mk "Profile"
                     (BasicProfile2D.mk (Some (map snd pts)) (Some k_second))
                     (Some root)).
    assert (Hres : (if array_equal x_source x_second
                    then Ok first
                    else exec (Profile2D._SetXValues Point x_second) first)
                   = Ok first').
    { rewrite Heq. unfold exec.
      rewrite (SetXValues_run Point x_second first root pts eq_refl Hpts Hne).
      rewrite Profile2D_SetProfile_run, Hscan'. reflexivity. }
    assert (Hlen : length (map snd pts) = length p_second)
      by (rewrite length_map; exact Hlenpts).
    assert (Hpx : map px (add_ordinates (map snd pts) p_second) = map px p_second).
    { rewrite (add_ordinates_px _ _ Hlen). exact Hpx1. }
    assert (Hscan : BasicProfile2D.nose_scan (add_ordinates (map snd pts) p_second) 0
                    = Ok k_second).
    { rewrite (nose_scan_px _ _ Hpx
                 (length (add_ordinates (map snd pts) p_second)) 0) by lia.
      exact Hscan2. }
    set (result := Profile2D.mk (Profile2D.Name first')
              (BasicProfile2D.mk (Some (add_ordinates (map snd pts) p_second))
                 (Some k_second))
              (Profile2D._rootprof first)).
    exists result, (add_ordinates (map snd pts) p_second).
    split.
    { apply (add_run Point self other first first' (length p_self) (length p_other)
               k_second x_source x_second (map snd pts) p_second);
        try assumption; reflexivity. }
    split; [reflexivity|]. split; [exact Hxs|]. split.
    { unfold eval.
      rewrite (GetXValues_run result (add_ordinates (map snd pts) p_second) k_second
                 eq_refl eq_refl).
      cbn [snd]. rewrite (signed_xvalues_px k_second _ _ Hpx). reflexivity. }
    split; [apply add_ordinates_length, Hlen|].
    intros j x s r Hxj Hsj Hrj.
    assert (Hj : (j < length pts)%nat).
    { rewrite Hlenpts. apply nth_error_Some. congruence. }
    destruct (nth_error pts j) as [[pos f]|] eqn:Hfj;
      [|apply nth_error_None in Hfj; lia].
    destruct (mapM_nth_error _ _ _ Hpts j (pos, f) Hfj) as (a & Ha & Hrun).
    rewrite Hxj in Ha. injection Ha as <-.
    unfold BasicProfile2D.Point, root in Hrun.
    cbn [BasicProfile2D.data getattr rbind] in Hrun.
    exists f. split; [exists pos; exact Hrun|].
    assert (Hfj' : nth_error (map snd pts) j = Some f)
      by (rewrite nth_error_map, Hfj; reflexivity).
    rewrite (add_ordinates_nth (map snd pts) p_second j f s Hfj' Hsj) in Hrj.
    injection Hrj as <-. reflexivity.
Qed.

End AdditionSum.

Lemma nose_scan_thick : BasicProfile2D.nose_scan thick 0 = Ok 2%nat.
Proof.
  apply nose_scan_five; [reflexivity | ..]; unfold xcoord, thick; simpl; lra.
Qed.

(** [diamond_profile + thick_profile]: the two operands have five points
    each and different x-values, so that the copy of [diamond_profile] is
    resampled; at the x-value [-1/2] the sum stores the ordinate that the
    curve of [diamond] has there, [1/15], plus the [3/10] of [thick]. *)
Lemma add_sums_ordinates_witness :
  array_equal (signed_xvalues 2 diamond) (signed_xvalues 2 thick) = false /\
  exists (result : Profile2D.t) (p_result : list point),
    Profile2D.__add__ Model.Point diamond_profile thick_profile = Ok result /\
    Profile2D.data result = Some p_result /\
    eval Profile2D._GetXValues result = eval Profile2D._GetXValues thick_profile /\
    length p_result = 5%nat /\
    forall r : point, nth_error p_result 1 = Some r -> py r = 1 / 15 + 3 / 10.
Proof.
  assert (Hneq : array_equal (signed_xvalues 2 diamond) (signed_xvalues 2 thick)
                 = false).
  { unfold signed_xvalues, diamond, thick. cbn [firstn skipn map app px fst array_equal].
    rewrite (Reqb_true (1 * -1) (1 * -1)) by reflexivity.
    rewrite (Reqb_false (1 / 4 * -1) (1 / 2 * -1)) by lra. reflexivity. }
  split; [exact Hneq|].
  assert (Hthm :
    exists (result : Profile2D.t) (p_result : list point),
      Profile2D.__add__ Model.Point diamond_profile thick_profile = Ok result /\
      Profile2D.data result = Some p_result /\
      eval Profile2D._GetXValues thick_profile = Ok (signed_xvalues 2 thick) /\
      eval Profile2D._GetXValues result = Ok (signed_xvalues 2 thick) /\
      length p_result = length thick /\
      forall (j : nat) (x : R) (s r : point),
        nth_error (signed_xvalues 2 thick) j = Some x ->
        nth_error thick j = Some s ->
        nth_error p_result j = Some r ->
        exists f : point,
          (if array_equal (signed_xvalues 2 diamond) (signed_xvalues 2 thick)
           then nth_error diamond j = Some f /\
                nth_error (signed_xvalues 2 diamond) j = Some x
           else exists pos, Model.Point diamond x (-1) = Ok (pos, f)) /\
          py r = py f + py s).
  { apply (add_sums_ordinates Model.Point diamond_profile thick_profile
             diamond thick 2 2 eq_refl eq_refl).
    - exact nose_scan_diamond.
    - apply (Normalize_unit_chord [(1 / 4, 1 / 10)] [(1 / 4, - 1 / 10); (1, 0)]).
      + intros p [<-|[]]. unfold sumsq, psub, px, py; simpl. lra.
      + intros p [<-|[<-|[]]]; unfold sumsq, psub, px, py; simpl; lra.
    - reflexivity.
    - exact nose_scan_thick.
    - intros p [<-|[<-|[<-|[<-|[<-|[]]]]]]; unfold px; simpl; lra.
    - intros rd x pos q. apply Model_Point_abscissa.
    - intros x Hx. apply diamond_Point_defined.
      destruct Hx as [<-|[<-|[<-|[<-|[<-|[]]]]]]; unfold px; simpl; lra. }
  destruct Hthm as (result & p_result & Hadd & Hdata & Hxs & Hxr & Hlen & Hsum).
  exists result, p_result.
  split; [exact Hadd|]. split; [exact Hdata|].
  split; [rewrite Hxr, Hxs; reflexivity|]. split; [exact Hlen|].
  intros r Hr.
  destruct (Hsum 1%nat (1 / 2 * -1) (1 / 2, 3 / 10) r eq_refl eq_refl Hr)
    as (f & Hf & Hpy).
  rewrite Hneq in Hf.
  destruct Hf as (pos & Hf).
  replace (1 / 2 * -1) with (- (1 / 2)) in Hf by lra.
  assert (Hp : exists r0, Model.Point diamond (- (1 / 2)) (-1) = Ok r0 /\
                          py (snd r0) = 1 / 15).
  { eexists. split; [unfold diamond; run_Point|]. unfold py; simpl. field. }
  destruct Hp as (r0 & Hr0 & Hy).
  rewrite Hr0 in Hf. injection Hf as ->.
  rewrite Hpy. simpl in Hy. rewrite Hy. reflexivity.
Defined.
